(** * Trait handlers (traits/trait_handlers.py): a shallow embedding

    The handlers of [trait_handlers.py] mediate the assignment of values to
    the trait attributes of an object.  This development embeds the Python
    code of the standard handlers as Rocq functions and states the properties
    of their [validate] / [post_setattr] methods and of their constructors.

    Conventions of the embedding:
    - a Python value is a term of [pyvalue]; Python integers are unbounded [Z];
    - a float or complex object carries its identity, which the containment
      tests ([in], the lookup of a key) check before equality;
    - a call that may raise returns a [Res]: [Ok v] or [Raise e];
    - code that reads or writes the owning object runs in [M], the state and
      exception monad over an abstract [World];
    - [try: ... except TraitError: ...] and bare [except:] are the two
      handlers [catch_trait] and [catch_all] of that monad. *)

From Stdlib Require Import ZArith List String Ascii Bool Lia.
From Stdlib Require Import Floats.SpecFloat.
Import ListNotations.

Set Implicit Arguments.
Set Warnings "-register-all".
Open Scope string_scope.
Open Scope list_scope.
Open Scope Z_scope.

(** ** Python data *)

(** The built-in types the handlers compare with [type(value) is ...]. *)
Inductive pytype : Type :=
| NoneType
| Tbool
| Tint
| Tfloat
| Tcomplex
| Tstr
| Ttuple
| Tlist.

Definition pytype_eqb (a b : pytype) : bool :=
  match a, b with
  | NoneType, NoneType | Tbool, Tbool | Tint, Tint | Tfloat, Tfloat
  | Tcomplex, Tcomplex | Tstr, Tstr | Ttuple, Ttuple | Tlist, Tlist => true
  | _, _ => false
  end.

(** The direct base class of a built-in type, [None] standing for [object]:
    [bool] is the only built-in considered here that derives from another
    one ([bool.__bases__ == (int,)]). *)
Definition base_of (t : pytype) : option pytype :=
  match t with
  | Tbool => Some Tint
  | _ => None
  end.

(** [issubclass(a, b)] on the built-in types. *)
Definition issubclass (a b : pytype) : bool :=
  pytype_eqb a b ||
  match base_of a with
  | Some c => pytype_eqb c b
  | None => false
  end.

(** A strict subclass: a subclass that is not the class itself. *)
Definition strict_subclass (a b : pytype) : bool :=
  issubclass a b && negb (pytype_eqb a b).

(** Python values: the built-in data a trait can be assigned.  A float is
    kept as its IEEE-754 datum ([spec_float]); a complex is a pair of them.

    A float or complex object also carries its identity [id]: these are
    the objects that can differ from themselves (a NaN equals nothing),
    so they are the ones whose identity the containment tests of the
    interpreter can tell from equality.  Two such objects are the same
    object exactly when they have the same [id] (and then the same
    datum). *)
Inductive pyvalue : Type :=
| VNone
| VBool (b : bool)
| VInt (z : Z)
| VFloat (id : nat) (f : spec_float)
| VComplex (id : nat) (re im : spec_float)
| VStr (s : string)
| VTuple (items : list pyvalue)
| VList (items : list pyvalue).

(** [type(value)] *)
Definition type_of (v : pyvalue) : pytype :=
  match v with
  | VNone => NoneType
  | VBool _ => Tbool
  | VInt _ => Tint
  | VFloat _ _ => Tfloat
  | VComplex _ _ _ => Tcomplex
  | VStr _ => Tstr
  | VTuple _ => Ttuple
  | VList _ => Tlist
  end.

(** [isinstance(value, t)] *)
Definition isinstance (v : pyvalue) (t : pytype) : bool :=
  issubclass (type_of v) t.

(** *** Equality ([==]) *)

(** The exact value of a number component: a dyadic [m * 2^e], an infinity
    or a NaN.  Python compares an [int] with a [float] exactly. *)
Inductive num : Type :=
| Dyadic (m e : Z)
| Infinity (negative : bool)
| NaN.

Definition num_of_float (f : spec_float) : num :=
  match f with
  | S754_zero _ => Dyadic 0 0
  | S754_infinity s => Infinity s
  | S754_nan => NaN
  | S754_finite s m e => Dyadic (if s then Z.neg m else Z.pos m) e
  end.

Definition num_eqb (a b : num) : bool :=
  match a, b with
  | Dyadic m1 e1, Dyadic m2 e2 =>
      let e := Z.min e1 e2 in
      (m1 * 2 ^ (e1 - e)) =? (m2 * 2 ^ (e2 - e))
  | Infinity s1, Infinity s2 => Bool.eqb s1 s2
  | _, _ => false
  end.

(** The (real, imaginary) components of a numeric value; [bool] is a
    subclass of [int] and [True == 1]. *)
Definition numeric (v : pyvalue) : option (num * num) :=
  match v with
  | VBool b => Some (Dyadic (if b then 1 else 0) 0, Dyadic 0 0)
  | VInt z => Some (Dyadic z 0, Dyadic 0 0)
  | VFloat _ f => Some (num_of_float f, Dyadic 0 0)
  | VComplex _ re im => Some (num_of_float re, num_of_float im)
  | _ => None
  end.

(** The same IEEE-754 datum (a NaN datum is the same datum as itself). *)
Definition spec_float_eqb (a b : spec_float) : bool :=
  match a, b with
  | S754_zero s, S754_zero t => Bool.eqb s t
  | S754_infinity s, S754_infinity t => Bool.eqb s t
  | S754_nan, S754_nan => true
  | S754_finite s m e, S754_finite t n f =>
      Bool.eqb s t && Pos.eqb m n && Z.eqb e f
  | _, _ => false
  end.

(** [identical a b]: the two values are the same term, identities of
    floats and complex numbers included.  It is what the identity test
    [a is b] contributes to a comparison [a is b or a == b]: the same
    object is the same term, and two distinct objects that are the same
    term are equal ([==]) as well, since they hold no NaN other than
    shared NaN objects. *)
Fixpoint identical (a b : pyvalue) {struct a} : bool :=
  let fix all_identical (l m : list pyvalue) {struct l} : bool :=
    match l, m with
    | [], [] => true
    | x :: l', y :: m' => identical x y && all_identical l' m'
    | _, _ => false
    end in
  match a, b with
  | VNone, VNone => true
  | VBool x, VBool y => Bool.eqb x y
  | VInt x, VInt y => Z.eqb x y
  | VFloat i f, VFloat j g => Nat.eqb i j && spec_float_eqb f g
  | VComplex i r1 i1, VComplex j r2 i2 =>
      Nat.eqb i j && spec_float_eqb r1 r2 && spec_float_eqb i1 i2
  | VStr s, VStr t => String.eqb s t
  | VTuple l, VTuple m => all_identical l m
  | VList l, VList m => all_identical l m
  | _, _ => false
  end.

(** [a == b].  Numbers compare by value across [bool], [int], [float] and
    [complex], and a NaN equals nothing, itself included.  Sequences
    compare only with a sequence of the same type, item by item, and the
    items are compared as the interpreter compares the items of
    containers: [x is y or x == y].  Everything else is unequal. *)
Fixpoint py_eq (a b : pyvalue) {struct a} : bool :=
  let fix all_eq (l m : list pyvalue) {struct l} : bool :=
    match l, m with
    | [], [] => true
    | x :: l', y :: m' => (identical x y || py_eq x y) && all_eq l' m'
    | _, _ => false
    end in
  match a, b with
  | VNone, VNone => true
  | VStr s, VStr t => String.eqb s t
  | VTuple l, VTuple m => all_eq l m
  | VList l, VList m => all_eq l m
  | _, _ =>
      match numeric a, numeric b with
      | Some (r1, i1), Some (r2, i2) => num_eqb r1 r2 && num_eqb i1 i2
      | _, _ => false
      end
  end.

(** [a is b or a == b]: the comparison of the containment test [in], of
    the lookup of a key in a [dict] and of the items of two sequences
    ([PyObject_RichCompareBool] with [Py_EQ]): identity first, then
    [==]. *)
Definition is_or_eq (a b : pyvalue) : bool :=
  identical a b || py_eq a b.

(** [hash(v)] succeeds: lists are unhashable, a tuple is hashable when all
    its items are. *)
Fixpoint hashable (v : pyvalue) : bool :=
  match v with
  | VList _ => false
  | VTuple l => (fix all_h (l : list pyvalue) : bool :=
                   match l with
                   | [] => true
                   | x :: l' => hashable x && all_h l'
                   end) l
  | _ => true
  end.

(** ** Exceptions and results *)

(** The owning object of a trait: only its identity matters here. *)
Inductive pyobject : Type :=
| Instance (id : N).

(** The arguments a [TraitError] is raised with: a bare message
    ([TraitError("Unmappable")]) or the context of a failed validation. *)
Inductive trait_error_args : Type :=
| Message (text : string)
| Invalid (owner : pyobject) (name : string) (candidate : pyvalue).

(** The exceptions raised: the classes named here, any other class
    deriving from [Exception] ([OtherError]), and the classes that derive
    from [BaseException] only ([SystemExit], [KeyboardInterrupt],
    [GeneratorExit]). *)
Inductive exn : Type :=
| TraitError (args : trait_error_args)
| TypeError
| KeyError
| AttributeError
| IndexError
| OverflowError
| OtherError (name : string)
| BaseExceptionOnly (name : string).

(** [isinstance(e, Exception)] *)
Definition is_Exception (e : exn) : bool :=
  match e with
  | BaseExceptionOnly _ => false
  | _ => true
  end.

Inductive Res (A : Type) : Type :=
| Ok (a : A)
| Raise (e : exn).

Arguments Ok {A} a.
Arguments Raise {A} e.

Definition is_ok {A} (r : Res A) : bool :=
  match r with Ok _ => true | Raise _ => false end.

(** The result is a raised [TraitError] (of any arguments). *)
Definition is_trait_error {A} (r : Res A) : bool :=
  match r with Raise (TraitError _) => true | _ => false end.

Definition res_bind {A B} (r : Res A) (k : A -> Res B) : Res B :=
  match r with
  | Ok a => k a
  | Raise e => Raise e
  end.

(** ** Built-in operations *)

(** [x in seq] for a tuple or list: some item is [x] or equals it. *)
Definition seq_contains (items : list pyvalue) (x : pyvalue) : bool :=
  existsb (fun y => is_or_eq y x) items.

(** [float(z)] for an integer [z]: the double nearest to [z], ties to
    even ([binary_normalize] at precision 53 and exponent bound 1024);
    when that is beyond the finite doubles, [OverflowError]. *)
Definition float_of_int (z : Z) : Res spec_float :=
  match binary_normalize 53 1024 z 0 false with
  | S754_infinity _ => Raise OverflowError
  | f => Ok f
  end.

(** [len(v)] *)
Definition py_len (v : pyvalue) : Res nat :=
  match v with
  | VStr s => Ok (String.length s)
  | VTuple l | VList l => Ok (List.length l)
  | _ => Raise TypeError
  end.

(** [v[:n]] for [n >= 0] *)
Definition py_prefix (v : pyvalue) (n : nat) : Res pyvalue :=
  match v with
  | VStr s => Ok (VStr (substring 0 n s))
  | VTuple l => Ok (VTuple (firstn n l))
  | VList l => Ok (VList (firstn n l))
  | _ => Raise TypeError
  end.

(** A [dict], in insertion order.  A key is looked up as the interpreter
    does: an entry is found when its key is the key looked up or equals it
    (equal keys hash alike, and an object hashes like itself); an
    unhashable key raises [TypeError]. *)
Definition dict : Type := list (pyvalue * pyvalue).

Fixpoint dict_find (d : dict) (k : pyvalue) : option pyvalue :=
  match d with
  | [] => None
  | (k', v) :: d' => if is_or_eq k' k then Some v else dict_find d' k
  end.

(** [k in d] *)
Definition dict_contains (d : dict) (k : pyvalue) : Res bool :=
  if hashable k then
    Ok (match dict_find d k with Some _ => true | None => false end)
  else Raise TypeError.

(** [d[k]] *)
Definition dict_getitem (d : dict) (k : pyvalue) : Res pyvalue :=
  if hashable k then
    match dict_find d k with
    | Some v => Ok v
    | None => Raise KeyError
    end
  else Raise TypeError.

Fixpoint dict_store (d : dict) (k v : pyvalue) : dict :=
  match d with
  | [] => [(k, v)]
  | (k', v') :: d' =>
      if is_or_eq k' k then (k', v) :: d' else (k', v') :: dict_store d' k v
  end.

(** [d[k] = v] *)
Definition dict_setitem (d : dict) (k v : pyvalue) : Res dict :=
  if hashable k then Ok (dict_store d k v) else Raise TypeError.

(** [SequenceTypes] of [trait_base]: the types for which a single
    constructor argument is taken as the whole argument list. *)
Definition SequenceTypes : list pytype := [Tlist; Ttuple].

Definition type_in (t : pytype) (ts : list pytype) : bool :=
  existsb (pytype_eqb t) ts.

(** ** The state and exception monad *)

(** A computation over the world (the attributes of the owning objects):
    it returns or raises, and leaves a new world either way. *)
Definition M (World A : Type) : Type := World -> Res A * World.

Section Monad.
Context {World : Type}.

Definition ret {A} (a : A) : M World A := fun w => (Ok a, w).

Definition raise {A} (e : exn) : M World A := fun w => (Raise e, w).

(** A call that does not touch the world. *)
Definition lift {A} (r : Res A) : M World A := fun w => (r, w).

Definition bind {A B} (m : M World A) (k : A -> M World B) : M World B :=
  fun w =>
    match m w with
    | (Ok a, w') => k a w'
    | (Raise e, w') => (Raise e, w')
    end.

(** [try: m  except TraitError: h] *)
Definition catch_trait {A} (m h : M World A) : M World A :=
  fun w =>
    match m w with
    | (Raise (TraitError _), w') => h w'
    | r => r
    end.

(** [try: m  except Exception: h] *)
Definition catch_exception {A} (m h : M World A) : M World A :=
  fun w =>
    match m w with
    | (Raise e, w') => if is_Exception e then h w' else (Raise e, w')
    | r => r
    end.

(** [try: m  except: h] *)
Definition catch_all {A} (m h : M World A) : M World A :=
  fun w =>
    match m w with
    | (Raise _, w') => h w'
    | r => r
    end.
End Monad.

(** ** The handler contract *)

(** The kinds of fast validator ([ValidateTrait] of [traits.constants])
    that this file builds. *)
Module ValidateTrait.
Inductive t : Type :=
| coerce
| cast
| self_type
| instance
| type
| function
| enum
| prefix_map
| map
| complex
| slow
| tuple.

Definition eqb (a b : t) : bool :=
  match a, b with
  | coerce, coerce | cast, cast | self_type, self_type
  | instance, instance | type, type | function, function | enum, enum
  | prefix_map, prefix_map | map, map | complex, complex | slow, slow
  | tuple, tuple => true
  | _, _ => false
  end.
End ValidateTrait.

(** A [fast_validate] tuple as a compound handler reads it: its kind
    [fv[0]] and, for a [complex] one, the nested validators [fv[1]].  The
    other items of the tuple (types, values, maps, bound methods) are not
    inspected by the code embedded here and are left out. *)
Inductive fast_validator : Type :=
| FV (kind : ValidateTrait.t) (nested : list fast_validator).

Definition fv_kind (fv : fast_validator) : ValidateTrait.t :=
  match fv with FV k _ => k end.

Definition fv_nested (fv : fast_validator) : list fast_validator :=
  match fv with FV _ l => l end.

Module TraitHandler.

(** Modelled from the spec: [TraitHandler.error], the shared helper of the
    base class (trait_handler.py is not part of this file).  It raises the
    validation error carrying the owner, the attribute name and the
    candidate; the expectation text is not modelled. *)
Definition error {A} (object : pyobject) (name : string) (value : pyvalue)
  : Res A :=
  Raise (TraitError (Invalid object name value)).

Section Handler.
Context {World : Type}.

(** What a compound or tuple handler reads of a handler object: the
    attributes [fast_validate] and [post_setattr] may be absent. *)
Record Handler : Type := {
  fast_validate : option fast_validator;
  validate : pyobject -> string -> pyvalue -> M World pyvalue;
  post_setattr : option (pyobject -> string -> pyvalue -> M World unit);
  is_mapped : bool;
  has_items : bool
}.
End Handler.
Arguments Handler World : clear implicits.

(** Modelled from the spec: the class-level defaults of the base class,
    [is_mapped = False] and [has_items = False] (a handler is mapped iff
    it produces a shadow value, and has items iff it accepts a tracked
    container). *)
Definition default_is_mapped : bool := false.
Definition default_has_items : bool := false.

End TraitHandler.

(** ** TraitCoerceType *)

Module TraitCoerceType.

(** Modelled from the spec: [CoercableTypes] of [trait_base], the widening
    table: integer widens to real, and real or integer widen to complex.
    An entry is the tuple [(ValidateTrait.coerce, T, *widenable)]. *)
Definition CoercableTypes (t : pytype)
  : option (ValidateTrait.t * pytype * list pytype) :=
  match t with
  | Tfloat => Some (ValidateTrait.coerce, Tfloat, [Tint])
  | Tcomplex => Some (ValidateTrait.coerce, Tcomplex, [Tfloat; Tint])
  | _ => None
  end.

(** The constructor argument: a type, or a value standing for its type. *)
Inductive arg : Type :=
| OfType (t : pytype)
| OfValue (v : pyvalue).

(** [fast_validate] is the tuple [(kind, fv[1], fv[2:])]. *)
Record t : Type := {
  aType : pytype;
  fast_validate : ValidateTrait.t * pytype * list pytype
}.

Definition init (a : arg) : t :=
  let aType := match a with
               | OfType ty => ty
               | OfValue v => type_of v
               end in
  {| aType := aType;
     fast_validate := match CoercableTypes aType with
                      | Some fv => fv
                      | None => (ValidateTrait.coerce, aType, [])
                      end |}.

Section Validate.
(** [T(value)]: the call of a built-in type on a value, the conversion
    of the interpreter ([float(3)], [complex(2.5)]). *)
Variable call : pytype -> pyvalue -> Res pyvalue.

(** [for typei in fv[2:]: if tv is typei: return fv[1](value)] *)
Fixpoint coerce_from (target tv : pytype) (types : list pytype)
         (value : pyvalue) : option (Res pyvalue) :=
  match types with
  | [] => None
  | typei :: rest =>
      if pytype_eqb tv typei then Some (call target value)
      else coerce_from target tv rest value
  end.

Definition validate (self : t) (object : pyobject) (name : string)
           (value : pyvalue) : Res pyvalue :=
  let '(_, fv1, fv2) := fast_validate self in
  let tv := type_of value in
  if pytype_eqb tv fv1 then Ok value
  else
    match coerce_from fv1 tv fv2 value with
    | Some r => r
    | None => TraitHandler.error object name value
    end.
End Validate.

End TraitCoerceType.

(** ** TraitEnum *)

(** [if (len(values) == 1) and (type(values[0]) in SequenceTypes):
       values = values[0]] *)
Definition star_values (values : list pyvalue) : list pyvalue :=
  match values with
  | [v] =>
      if type_in (type_of v) SequenceTypes then
        match v with
        | VList l | VTuple l => l
        | _ => values
        end
      else values
  | _ => values
  end.

Module TraitEnum.

Record t : Type := {
  values : list pyvalue;
  fast_validate : fast_validator
}.

Definition init (values : list pyvalue) : t :=
  let values := star_values values in
  {| values := values; fast_validate := FV ValidateTrait.enum [] |}.

Definition validate (self : t) (object : pyobject) (name : string)
           (value : pyvalue) : Res pyvalue :=
  if seq_contains (values self) value then Ok value
  else TraitHandler.error object name value.

Definition as_handler {World} (self : t) : TraitHandler.Handler World :=
  {| TraitHandler.fast_validate := Some (fast_validate self);
     TraitHandler.validate := fun o n v => lift (validate self o n v);
     TraitHandler.post_setattr := None;
     TraitHandler.is_mapped := TraitHandler.default_is_mapped;
     TraitHandler.has_items := TraitHandler.default_has_items |}.

End TraitEnum.

(** ** TraitPrefixList *)

Module TraitPrefixList.

(** [values] is the tuple of legal values; [values_] caches, for every
    string resolved so far, the legal value it stands for. *)
Record t : Type := {
  values : list pyvalue;
  values_ : dict;
  fast_validate : fast_validator
}.

(** [for key in values: values_[key] = key] *)
Fixpoint fill (keys : list pyvalue) (values_ : dict) : Res dict :=
  match keys with
  | [] => Ok values_
  | key :: rest => res_bind (dict_setitem values_ key key) (fill rest)
  end.

Definition init (values : list pyvalue) : Res t :=
  let values := star_values values in
  res_bind (fill values [])
    (fun values_ =>
       Ok {| values := values;
             values_ := values_;
             fast_validate := FV ValidateTrait.prefix_map [] |}).

(** The scan of [validate]: [match_] is the loop variable [match], [None]
    for Python's [None]; a second match resets it and breaks. *)
Fixpoint scan (value : pyvalue) (n : nat) (keys : list pyvalue)
         (match_ : option pyvalue) : Res (option pyvalue) :=
  match keys with
  | [] => Ok match_
  | key :: rest =>
      res_bind (py_prefix key n)
        (fun prefix =>
           if py_eq value prefix then
             match match_ with
             | Some _ => Ok None
             | None => scan value n rest (Some key)
             end
           else scan value n rest match_)
  end.

Definition with_cache (self : t) (values_ : dict) : t :=
  {| values := values self;
     values_ := values_;
     fast_validate := fast_validate self |}.

(** [validate] returns its result together with the handler, whose cache
    it may have extended.  Whatever is raised inside the [try] ends in
    [self.error]. *)
Definition validate (self : t) (object : pyobject) (name : string)
           (value : pyvalue) : Res pyvalue * t :=
  let failed (s : t) := (TraitHandler.error object name value, s) in
  match dict_contains (values_ self) value with
  | Raise _ => failed self
  | Ok true =>
      match dict_getitem (values_ self) value with
      | Ok r => (Ok r, self)
      | Raise _ => failed self
      end
  | Ok false =>
      match py_len value with
      | Raise _ => failed self
      | Ok n =>
          match scan value n (values self) None with
          | Raise _ | Ok None => failed self
          | Ok (Some match_) =>
              match dict_setitem (values_ self) value match_ with
              | Raise _ => failed self
              | Ok d =>
                  let self' := with_cache self d in
                  match dict_getitem d value with
                  | Ok r => (Ok r, self')
                  | Raise _ => failed self'
                  end
              end
          end
      end
  end.

End TraitPrefixList.

(** ** TraitMap *)

Module TraitMap.

Definition is_mapped : bool := true.

Record t : Type := {
  map : dict;
  fast_validate : fast_validator
}.

Definition init (map : dict) : t :=
  {| map := map; fast_validate := FV ValidateTrait.map [] |}.

Definition validate (self : t) (object : pyobject) (name : string)
           (value : pyvalue) : Res pyvalue :=
  match dict_contains (map self) value with
  | Ok true => Ok value
  | Ok false | Raise _ => TraitHandler.error object name value
  end.

Definition mapped_value (self : t) (value : pyvalue) : Res pyvalue :=
  dict_getitem (map self) value.

(** The error of an unmappable value: [TraitError("Unmappable")]. *)
Definition Unmappable : exn := TraitError (Message "Unmappable").

Section PostSetattr.
Context {World : Type}.
(** [setattr(object, name, value)] of the owning object. *)
Variable setattr : pyobject -> string -> pyvalue -> M World unit.

Definition post_setattr (self : t) (object : pyobject) (name : string)
           (value : pyvalue) : M World unit :=
  catch_all
    (bind (lift (mapped_value self value))
          (fun mapped => setattr object (name ++ "_")%string mapped))
    (raise Unmappable).

Definition as_handler (self : t) : TraitHandler.Handler World :=
  {| TraitHandler.fast_validate := Some (fast_validate self);
     TraitHandler.validate := fun o n v => lift (validate self o n v);
     TraitHandler.post_setattr := Some (post_setattr self);
     TraitHandler.is_mapped := is_mapped;
     TraitHandler.has_items := TraitHandler.default_has_items |}.
End PostSetattr.

End TraitMap.

(** ** TraitCompound *)

Module TraitCompound.
Section Compound.
Context {World : Type}.
Variable setattr : pyobject -> string -> pyvalue -> M World unit.

Definition Handler : Type := TraitHandler.Handler World.
Definition validate_method : Type :=
  pyobject -> string -> pyvalue -> M World pyvalue.
Definition post_setattr_method : Type :=
  pyobject -> string -> pyvalue -> M World unit.

(** The constructor is called with the handlers as its arguments or with
    one sequence of them. *)
Inductive args : Type :=
| Star (handlers : list Handler)
| Sequence (handlers : list Handler).

(** The attributes of a compound handler.  [mapped_handlers],
    [fast_validate] and [post_setattrs] may be absent; [has_post_setattr]
    tells whether the instance attribute [post_setattr] is set. *)
Record t : Type := {
  handlers : list Handler;
  is_mapped : bool;
  has_items : bool;
  reversable : bool;
  validates : list validate_method;
  slow_validates : list validate_method;
  mapped_handlers : option (list Handler);
  fast_validate : option fast_validator;
  post_setattrs : option (list post_setattr_method);
  has_post_setattr : bool
}.

(** The local variables and flags of the loop of [set_validate]. *)
Record loop_state : Type := {
  l_is_mapped : bool;
  l_has_items : bool;
  l_reversable : bool;
  l_post_setattrs : list post_setattr_method;
  l_mapped_handlers : list Handler;
  l_validates : list validate_method;
  l_fast_validates : list fast_validator;
  l_slow_validates : list validate_method
}.

Definition loop_start : loop_state :=
  {| l_is_mapped := false;
     l_has_items := false;
     l_reversable := true;
     l_post_setattrs := [];
     l_mapped_handlers := [];
     l_validates := [];
     l_fast_validates := [];
     l_slow_validates := [] |}.

(** One iteration of [for handler in self.handlers]. *)
Definition loop_body (s : loop_state) (handler : Handler) : loop_state :=
  let fv := TraitHandler.fast_validate handler in
  let post_setattr := TraitHandler.post_setattr handler in
  {| l_validates :=
       match fv with
       | Some _ => l_validates s ++ [TraitHandler.validate handler]
       | None => l_validates s
       end;
     l_fast_validates :=
       match fv with
       | Some fv =>
           if ValidateTrait.eqb (fv_kind fv) ValidateTrait.complex
           then l_fast_validates s ++ fv_nested fv
           else l_fast_validates s ++ [fv]
       | None => l_fast_validates s
       end;
     l_slow_validates :=
       match fv with
       | Some _ => l_slow_validates s
       | None => l_slow_validates s ++ [TraitHandler.validate handler]
       end;
     l_post_setattrs :=
       match post_setattr with
       | Some p => l_post_setattrs s ++ [p]
       | None => l_post_setattrs s
       end;
     l_is_mapped :=
       if TraitHandler.is_mapped handler then true else l_is_mapped s;
     l_mapped_handlers :=
       if TraitHandler.is_mapped handler
       then l_mapped_handlers s ++ [handler]
       else l_mapped_handlers s;
     l_reversable :=
       if TraitHandler.is_mapped handler then l_reversable s else false;
     l_has_items :=
       if TraitHandler.has_items handler then true else l_has_items s |}.

Definition loop (handlers : list Handler) : loop_state :=
  fold_left loop_body handlers loop_start.

Definition set_validate (self : t) : t :=
  let s := loop (handlers self) in
  let fast_validates := l_fast_validates s in
  let slow_validates := l_slow_validates s in
  let hooks := l_post_setattrs s in
  {| handlers := handlers self;
     is_mapped := l_is_mapped s;
     has_items := l_has_items s;
     reversable := l_reversable s;
     validates := l_validates s;
     slow_validates := slow_validates;
     mapped_handlers :=
       if l_is_mapped s then Some (l_mapped_handlers s) else None;
     fast_validate :=
       if (0 <? List.length fast_validates)%nat then
         let fast_validates :=
           if (0 <? List.length slow_validates)%nat
           then fast_validates ++ [FV ValidateTrait.slow []]
           else fast_validates in
         Some (FV ValidateTrait.complex fast_validates)
       else None;
     post_setattrs :=
       if (0 <? List.length hooks)%nat then Some hooks
       else post_setattrs self;
     has_post_setattr := (0 <? List.length hooks)%nat |}.

(** The object as [__init__] has it before it calls [set_validate]: only
    [handlers] is set, the flags read the defaults of the base class. *)
Definition fresh (handlers : list Handler) : t :=
  {| handlers := handlers;
     is_mapped := TraitHandler.default_is_mapped;
     has_items := TraitHandler.default_has_items;
     reversable := false;
     validates := [];
     slow_validates := [];
     mapped_handlers := None;
     fast_validate := None;
     post_setattrs := None;
     has_post_setattr := false |}.

Definition init (a : args) : t :=
  let handlers := match a with
                  | Star handlers => handlers
                  | Sequence handlers => handlers
                  end in
  set_validate (fresh handlers).

(** [for validate in methods: try: return validate(...)
                              except TraitError: pass]
    followed by [otherwise]. *)
Fixpoint first_valid (methods : list validate_method)
         (object : pyobject) (name : string) (value : pyvalue)
         (otherwise : M World pyvalue) : M World pyvalue :=
  match methods with
  | [] => otherwise
  | validate :: rest =>
      catch_trait (validate object name value)
                  (first_valid rest object name value otherwise)
  end.

Definition slow_validate (self : t) (object : pyobject) (name : string)
           (value : pyvalue) : M World pyvalue :=
  first_valid (slow_validates self) object name value
              (lift (TraitHandler.error object name value)).

Definition validate (self : t) (object : pyobject) (name : string)
           (value : pyvalue) : M World pyvalue :=
  first_valid (validates self) object name value
              (slow_validate self object name value).

(** [for post_setattr in hooks: try: post_setattr(...); return
                                except TraitError: pass]
    followed by [setattr(object, name + "_", value)]. *)
Fixpoint first_post_setattr (hooks : list post_setattr_method)
         (object : pyobject) (name : string) (value : pyvalue)
  : M World unit :=
  match hooks with
  | [] => setattr object (name ++ "_")%string value
  | post_setattr :: rest =>
      catch_trait (post_setattr object name value)
                  (first_post_setattr rest object name value)
  end.

Definition _post_setattr (self : t) (object : pyobject) (name : string)
           (value : pyvalue) : M World unit :=
  match post_setattrs self with
  | Some hooks => first_post_setattr hooks object name value
  | None => raise AttributeError
  end.

(** [getattr(self, "post_setattr", None)] *)
Definition post_setattr (self : t) : option post_setattr_method :=
  if has_post_setattr self then Some (_post_setattr self) else None.

Definition as_handler (self : t) : Handler :=
  {| TraitHandler.fast_validate := fast_validate self;
     TraitHandler.validate := validate self;
     TraitHandler.post_setattr := post_setattr self;
     TraitHandler.is_mapped := is_mapped self;
     TraitHandler.has_items := has_items self |}.

End Compound.
End TraitCompound.

(** ** TraitTuple *)

Module TraitTuple.
Section Tuple.
Context {World : Type}.

(** A trait object as the tuple handler uses it: its [handler]
    attribute, which is [None] for a trait without handler. *)
Record ctrait : Type := {
  handler : option (TraitHandler.Handler World)
}.

(** [trait_from] of [trait_converters] turns a constructor argument into
    a trait object. *)
Variable TraitArg : Type.
Variable trait_from : TraitArg -> ctrait.

Record t : Type := {
  types : list ctrait;
  fast_validate : fast_validator
}.

Definition init (args : list TraitArg) : t :=
  {| types := List.map trait_from args;
     fast_validate := FV ValidateTrait.tuple [] |}.

(** [for i, type in enumerate(types):
       values.append(type.handler.validate(object, name, value[i]))],
    from index [i] on, with [values] as collected so far. *)
Fixpoint validate_items (object : pyobject) (name : string)
         (value : list pyvalue) (i : nat) (types : list ctrait)
         (values : list pyvalue) : M World (list pyvalue) :=
  match types with
  | [] => ret values
  | type :: rest =>
      match handler type with
      | None => raise AttributeError
      | Some h =>
          match nth_error value i with
          | None => raise IndexError
          | Some item =>
              bind (TraitHandler.validate h object name item)
                   (fun v =>
                      validate_items object name value (S i) rest
                                     (values ++ [v]))
          end
      end
  end.

(** The [try] block: [Some r] when it returns [r], [None] when it falls
    through to [self.error]. *)
Definition validate_try (self : t) (object : pyobject) (name : string)
           (value : pyvalue) : M World (option pyvalue) :=
  match value with
  | VTuple items =>
      let types := types self in
      if (List.length items =? List.length types)%nat then
        bind (validate_items object name items 0 types [])
             (fun values => ret (Some (VTuple values)))
      else ret None
  | _ => ret None
  end.

Definition validate (self : t) (object : pyobject) (name : string)
           (value : pyvalue) : M World pyvalue :=
  bind (catch_all (validate_try self object name value) (ret None))
       (fun r =>
          match r with
          | Some v => ret v
          | None => lift (TraitHandler.error object name value)
          end).

End Tuple.
End TraitTuple.

(** ** Handler objects in a store *)

(** The container handlers are objects that are cloned and then assigned
    to: they live in a store and are named by reference. *)
Definition ref : Type := nat.

(** A trait object as the container handlers use it: its [handler]
    attribute is a reference to a handler object, or [None]. *)
Module CTrait.
Record t : Type := {
  handler : option ref
}.
End CTrait.

(** [sys.maxsize] (of a 64-bit interpreter). *)
Definition sys_maxsize : Z := 2 ^ 63 - 1.

(** ** TraitList *)

Module TraitList.
Section TraitList.
Context {World : Type}.

(** [trait_from] of [trait_converters]; [ctrait_arg c] is the trait
    object [c] passed as a constructor argument. *)
Variable TraitArg : Type.
Variable trait_from : TraitArg -> CTrait.t.
Variable ctrait_arg : CTrait.t -> TraitArg.

Record t : Type := {
  item_trait : CTrait.t;
  minlen : Z;
  maxlen : Z;
  has_items : bool
}.

(** The defaults of the keyword arguments of [__init__]. *)
Definition default_minlen : Z := 0.
Definition default_maxlen : Z := sys_maxsize.
Definition default_has_items : bool := true.

Definition init (trait : TraitArg) (minlen maxlen : Z) (has_items : bool)
  : t :=
  {| item_trait := trait_from trait;
     minlen := Z.max 0 minlen;
     maxlen := Z.max minlen maxlen;
     has_items := has_items |}.

Definition clone (self : t) : t :=
  init (ctrait_arg (item_trait self)) (minlen self) (maxlen self)
       (has_items self).

(** The constructor of the observable list, [TraitListObject(self,
    object, name, value)] of [trait_list_object]. *)
Variable TraitListObject :
  t -> pyobject -> string -> list pyvalue -> M World pyvalue.

Definition validate (self : t) (object : pyobject) (name : string)
           (value : pyvalue) : M World pyvalue :=
  match value with
  | VList items =>
      let len := Z.of_nat (List.length items) in
      if (minlen self <=? len) && (len <=? maxlen self)
      then TraitListObject self object name items
      else lift (TraitHandler.error object name value)
  | _ => lift (TraitHandler.error object name value)
  end.

End TraitList.
End TraitList.

(** ** TraitDict *)

Module TraitDict.
Section TraitDict.
Variable TraitArg : Type.
Variable trait_from : TraitArg -> CTrait.t.
Variable ctrait_arg : CTrait.t -> TraitArg.

Record t : Type := {
  key_trait : CTrait.t;
  value_trait : CTrait.t;
  has_items : bool;
  value_handler : ref
}.

(** The handler objects of the store: the two container handlers, which
    define [clone], and handlers of the classes that do not. *)
Inductive handler_object : Type :=
| ListHandler (l : TraitList.t)
| DictHandler (d : t)
| OtherHandler (has_items : bool).

Definition store : Type := list handler_object.

Definition lookup (s : store) (r : ref) : option handler_object :=
  nth_error s r.

(** A new object gets the next reference. *)
Definition alloc (s : store) (o : handler_object) : ref * store :=
  (List.length s, s ++ [o]).

Fixpoint update (s : store) (r : ref) (o : handler_object) : store :=
  match s, r with
  | [], _ => []
  | _ :: s', O => o :: s'
  | x :: s', S r' => x :: update s' r' o
  end.

(** [handler.has_items] *)
Definition get_has_items (o : handler_object) : bool :=
  match o with
  | ListHandler l => TraitList.has_items l
  | DictHandler d => has_items d
  | OtherHandler b => b
  end.

(** The object after [handler.has_items = b]. *)
Definition with_has_items (o : handler_object) (b : bool)
  : handler_object :=
  match o with
  | ListHandler l =>
      ListHandler {| TraitList.item_trait := TraitList.item_trait l;
                     TraitList.minlen := TraitList.minlen l;
                     TraitList.maxlen := TraitList.maxlen l;
                     TraitList.has_items := b |}
  | DictHandler d =>
      DictHandler {| key_trait := key_trait d;
                     value_trait := value_trait d;
                     has_items := b;
                     value_handler := value_handler d |}
  | OtherHandler _ => OtherHandler b
  end.

(** [handler.has_items = b] on the object at [r]. *)
Definition set_has_items (s : store) (r : ref) (b : bool) : store :=
  match lookup s r with
  | Some o => update s r (with_has_items o b)
  | None => s
  end.

(** [TraitDict(key_trait, value_trait, has_items)]: runs [__init__] and
    returns the reference of the new object with the store it leaves.
    Cloning a [TraitDict] value handler constructs a [TraitDict] again,
    so the recursion follows the references of the store and is bounded
    by [fuel]; the result is [None] when the fuel runs out or a
    reference is not in the store. *)
Fixpoint new (fuel : nat) (key_trait value_trait : TraitArg)
         (has_items : bool) (s : store) : option (Res ref * store) :=
  match fuel with
  | O => None
  | S fuel' =>
      let key_trait := trait_from key_trait in
      let value_trait := trait_from value_trait in
      let finish (handler : ref) (s : store) :=
        alloc s (DictHandler {| key_trait := key_trait;
                                value_trait := value_trait;
                                has_items := has_items;
                                value_handler := handler |}) in
      match CTrait.handler value_trait with
      | None => Some (Raise AttributeError, s)
      | Some handler =>
          match lookup s handler with
          | None => None
          | Some o =>
              if get_has_items o then
                (* handler = handler.clone() *)
                let cloned :=
                  match o with
                  | ListHandler l =>
                      let (c, s1) :=
                        alloc s (ListHandler
                                   (TraitList.clone trait_from ctrait_arg l))
                      in Some (Ok c, s1)
                  | DictHandler d =>
                      new fuel' (ctrait_arg (TraitDict.key_trait d))
                          (ctrait_arg (TraitDict.value_trait d))
                          (TraitDict.has_items d) s
                  | OtherHandler _ => Some (Raise AttributeError, s)
                  end in
                match cloned with
                | None => None
                | Some (Raise e, s1) => Some (Raise e, s1)
                | Some (Ok c, s1) =>
                    (* handler.has_items = False *)
                    let s2 := set_has_items s1 c false in
                    let (r, s3) := finish c s2 in
                    Some (Ok r, s3)
                end
              else
                let (r, s1) := finish handler s in
                Some (Ok r, s1)
          end
      end
  end.

(** [self.clone()] for the [TraitDict] object [d]. *)
Definition clone (fuel : nat) (d : t) (s : store)
  : option (Res ref * store) :=
  new fuel (ctrait_arg (key_trait d)) (ctrait_arg (value_trait d))
      (has_items d) s.

End TraitDict.
End TraitDict.

(** ** TraitCastType *)

Module TraitCastType.

(** [fast_validate] is the pair [(ValidateTrait.cast, aType)]. *)
Record t : Type := {
  aType : pytype;
  fast_validate : ValidateTrait.t * pytype
}.

Definition init (a : TraitCoerceType.arg) : t :=
  let aType := match a with
               | TraitCoerceType.OfType ty => ty
               | TraitCoerceType.OfValue v => type_of v
               end in
  {| aType := aType; fast_validate := (ValidateTrait.cast, aType) |}.

Section Validate.
(** [T(value)]: the call of a built-in type on a value. *)
Variable call : pytype -> pyvalue -> Res pyvalue.

Definition validate (self : t) (object : pyobject) (name : string)
           (value : pyvalue) : Res pyvalue :=
  if pytype_eqb (type_of value) (aType self) then Ok value
  else
    match call (aType self) value with
    | Ok r => Ok r
    | Raise _ => TraitHandler.error object name value
    end.
End Validate.

End TraitCastType.

(** ** TraitFunction *)

Module TraitFunction.
Section TraitFunction.
Context {World : Type}.

(** The constructor argument: a function or method (an instance of
    [CallableTypes]), given by what it does when called with
    [(object, name, value)], or any other value. *)
Inductive arg : Type :=
| Callable (aFunc : pyobject -> string -> pyvalue -> M World pyvalue)
| NotCallable (v : pyvalue).

Record t : Type := {
  aFunc : pyobject -> string -> pyvalue -> M World pyvalue;
  fast_validate : fast_validator
}.

Definition init (a : arg) : Res t :=
  match a with
  | NotCallable _ => Raise (TraitError (Message "Argument must be callable."))
  | Callable aFunc =>
      Ok {| aFunc := aFunc; fast_validate := FV ValidateTrait.function [] |}
  end.

Definition validate (self : t) (object : pyobject) (name : string)
           (value : pyvalue) : M World pyvalue :=
  catch_trait (aFunc self object name value)
              (lift (TraitHandler.error object name value)).

Definition as_handler (self : t) : TraitHandler.Handler World :=
  {| TraitHandler.fast_validate := Some (fast_validate self);
     TraitHandler.validate := validate self;
     TraitHandler.post_setattr := None;
     TraitHandler.is_mapped := TraitHandler.default_is_mapped;
     TraitHandler.has_items := TraitHandler.default_has_items |}.

End TraitFunction.
End TraitFunction.

(** ** TraitPrefixMap *)

Module TraitPrefixMap.

(** [map] is the dict given; [_map] caches, for every string resolved so
    far, the key of [map] it stands for. *)
Record t : Type := {
  map : dict;
  _map : dict;
  fast_validate : fast_validator
}.

(** [map.keys()], in the order of the dict. *)
Definition keys (d : dict) : list pyvalue := List.map fst d.

Definition init (map : dict) : Res t :=
  res_bind (TraitPrefixList.fill (keys map) [])
    (fun _map =>
       Ok {| map := map;
             _map := _map;
             fast_validate := FV ValidateTrait.prefix_map [] |}).

Definition with_cache (self : t) (_map : dict) : t :=
  {| map := map self; _map := _map; fast_validate := fast_validate self |}.

(** The same loop as [TraitPrefixList.validate], over the keys of [map]
    and with the cache [_map]. *)
Definition validate (self : t) (object : pyobject) (name : string)
           (value : pyvalue) : Res pyvalue * t :=
  let failed (s : t) := (TraitHandler.error object name value, s) in
  match dict_contains (_map self) value with
  | Raise _ => failed self
  | Ok true =>
      match dict_getitem (_map self) value with
      | Ok r => (Ok r, self)
      | Raise _ => failed self
      end
  | Ok false =>
      match py_len value with
      | Raise _ => failed self
      | Ok n =>
          match TraitPrefixList.scan value n (keys (map self)) None with
          | Raise _ | Ok None => failed self
          | Ok (Some match_) =>
              match dict_setitem (_map self) value match_ with
              | Raise _ => failed self
              | Ok d =>
                  let self' := with_cache self d in
                  match dict_getitem d value with
                  | Ok r => (Ok r, self')
                  | Raise _ => failed self'
                  end
              end
          end
      end
  end.

(** [mapped_value], inherited from [TraitMap]. *)
Definition mapped_value (self : t) (value : pyvalue) : Res pyvalue :=
  dict_getitem (map self) value.

Section PostSetattr.
Context {World : Type}.
Variable setattr : pyobject -> string -> pyvalue -> M World unit.

(** [post_setattr], inherited from [TraitMap]. *)
Definition post_setattr (self : t) (object : pyobject) (name : string)
           (value : pyvalue) : M World unit :=
  catch_all
    (bind (lift (mapped_value self value))
          (fun mapped => setattr object (name ++ "_")%string mapped))
    (raise TraitMap.Unmappable).
End PostSetattr.

End TraitPrefixMap.

(** ** TraitInstance *)

(** [s.rfind(c)]: the index of the last occurrence of the character [c],
    [None] for Python's [-1]. *)
Fixpoint rfind (c : ascii) (s : string) : option nat :=
  match s with
  | EmptyString => None
  | String a rest =>
      match rfind c rest with
      | Some i => Some (S i)
      | None => if Ascii.eqb a c then Some O else None
      end
  end.

Module TraitInstance.

(** The attribute [aClass]: a class, or the dotted name of one that is
    still to be resolved. *)
Inductive class_ref : Type :=
| Class (c : pytype)
| Name (path : string).

(** The constructor argument [aClass]: a class, or a value; a string value
    is the name of a class, any other value stands for its class. *)
Inductive arg : Type :=
| OfClass (c : pytype)
| OfValue (v : pyvalue).

(** [fast_validate] is the tuple [(kind, None, aClass)] or
    [(kind, aClass)]; an item is [None] or the class reference. *)
Record t : Type := {
  _allow_none : bool;
  module : string;
  aClass : class_ref;
  fast_validate : option (ValidateTrait.t * list (option class_ref))
}.

Section TraitInstance.
Context {World : Type}.

(** [TypeTypes] of [trait_base]: the classes validated as types. *)
Variable TypeTypes : list pytype.

(** [getattr(sys.modules.get(module), klass, None)]: the class named
    [klass] of the module [module] when that module is loaded. *)
Variable loaded : string -> string -> World -> option pytype.

(** [getattr(import_module(module), klass, None)]: importing may raise
    and may load modules. *)
Variable imported : string -> string -> M World (option pytype).

Definition set_fast_validate (self : t) : t :=
  let items := if _allow_none self
               then [None; Some (aClass self)]
               else [Some (aClass self)] in
  let kind := match aClass self with
              | Class c =>
                  if type_in c TypeTypes then ValidateTrait.type
                  else ValidateTrait.instance
              | Name _ => ValidateTrait.instance
              end in
  {| _allow_none := _allow_none self;
     module := module self;
     aClass := aClass self;
     fast_validate := Some (kind, items) |}.

Definition init (a : arg) (allow_none : bool) (module : string) : t :=
  let unresolved (path : string) :=
    {| _allow_none := allow_none;
       module := module;
       aClass := Name path;
       fast_validate := None |} in
  let resolved (c : pytype) :=
    set_fast_validate {| _allow_none := allow_none;
                         module := module;
                         aClass := Class c;
                         fast_validate := None |} in
  match a with
  | OfValue (VStr path) => unresolved path
  | OfValue v => resolved (type_of v)
  | OfClass c => resolved c
  end.

(** The method [allow_none()]. *)
Definition allow_none (self : t) : t :=
  let self' := {| _allow_none := true;
                  module := module self;
                  aClass := aClass self;
                  fast_validate := fast_validate self |} in
  match fast_validate self with
  | Some _ => set_fast_validate self'
  | None => self'
  end.

(** [find_class]: only an exception deriving from [Exception] is caught
    around the import; any other one leaves the method. *)
Definition find_class (self : t) (klass : string)
  : M World (option pytype) :=
  fun w =>
    let col := rfind "." klass in
    let module := match col with
                  | Some col => substring 0 col klass
                  | None => module self
                  end in
    let klass := match col with
                 | Some col =>
                     substring (S col) (String.length klass - S col) klass
                 | None => klass
                 end in
    match loaded module klass w, col with
    | None, Some _ =>
        catch_exception (imported module klass) (ret None) w
    | theClass, _ => (Ok theClass, w)
    end.

(** The end of [resolve_class]: the trait of the owner that refers to the
    handler is given the new fast validator
    ([object.base_trait(name)] ... [trait.set_validate(...)]). *)
Variable retarget : t -> pyobject -> string -> M World unit.

(** [resolve_class], for a handler whose [aClass] is the name [path]: it
    returns the handler as it leaves it. *)
Definition resolve_class (self : t) (path : string) (object : pyobject)
           (name : string) (value : pyvalue)
  : World -> (Res unit * t) * World :=
  fun w =>
    match find_class self path w with
    | (Raise e, w1) => ((Raise e, self), w1)
    | (Ok None, w1) => ((TraitHandler.error object name value, self), w1)
    | (Ok (Some c), w1) =>
        let self1 :=
          set_fast_validate {| _allow_none := _allow_none self;
                               module := module self;
                               aClass := Class c;
                               fast_validate := fast_validate self |} in
        match retarget self1 object name w1 with
        | (Ok _, w2) => ((Ok tt, self1), w2)
        | (Raise e, w2) => ((Raise e, self1), w2)
        end
    end.

(** [isinstance(value, self.aClass)] for a resolved class. *)
Definition accepts (self : t) (object : pyobject) (name : string)
           (value : pyvalue) : Res pyvalue :=
  match aClass self with
  | Class c =>
      if isinstance value c then Ok value
      else TraitHandler.error object name value
  | Name _ => Raise TypeError
  end.

Definition validate (self : t) (object : pyobject) (name : string)
           (value : pyvalue) : World -> (Res pyvalue * t) * World :=
  fun w =>
    match value with
    | VNone =>
        if _allow_none self then ((Ok value, self), w)
        else ((TraitHandler.error object name value, self), w)
    | _ =>
        match aClass self with
        | Name path =>
            match resolve_class self path object name value w with
            | ((Ok _, self1), w1) =>
                ((accepts self1 object name value, self1), w1)
            | ((Raise e, self1), w1) => ((Raise e, self1), w1)
            end
        | Class _ => ((accepts self object name value, self), w)
        end
    end.

End TraitInstance.
End TraitInstance.

(** * Properties *)

Unset Implicit Arguments.

(** ** Sample owners and worlds *)

Module Sample.

(** A world that records the attributes written so far. *)
Definition World : Type := list (pyobject * string * pyvalue).

(** An owner that accepts every attribute. *)
Definition setattr (object : pyobject) (name : string) (value : pyvalue)
  : M World unit :=
  fun w => (Ok tt, (object, name, value) :: w).

(** An owner whose attributes cannot be written. *)
Definition setattr_readonly (object : pyobject) (name : string)
           (value : pyvalue) : M World unit :=
  fun w => (Raise AttributeError, w).

Definition owner : pyobject := Instance 1.

(** A conversion that accepts integers only, as a stand-in for the
    interpreter's [float(...)] and [complex(...)]: an integer is
    converted as [float(...)] converts it, and the new float object has
    the identity 0. *)
Definition call (T : pytype) (v : pyvalue) : Res pyvalue :=
  match T, v with
  | Tfloat, VInt z => res_bind (float_of_int z) (fun f => Ok (VFloat 0 f))
  | _, _ => Raise TypeError
  end.

End Sample.

(** The widening table in the words of the description: integer widens to
    real, and real or integer widen to complex. *)
Definition widens_to (source target : pytype) : bool :=
  match source, target with
  | Tint, Tfloat => true
  | Tfloat, Tcomplex => true
  | Tint, Tcomplex => true
  | _, _ => false
  end.


(** The legal values of [strs] that a candidate [s] is a prefix of: those
    whose prefix of the length of [s] is [s], in the order of the tuple. *)
Definition prefix_matches (s : string) (strs : list string) : list string :=
  filter (fun key => String.eqb s (substring 0 (String.length s) key)) strs.

Module SamplePrefix.

Definition yes : pyvalue := VStr "yes".
Definition no : pyvalue := VStr "no".

(** [TraitPrefixList("yes", "no")] as constructed. *)
Definition married : TraitPrefixList.t :=
  {| TraitPrefixList.values := [yes; no];
     TraitPrefixList.values_ := [(yes, yes); (no, no)];
     TraitPrefixList.fast_validate := FV ValidateTrait.prefix_map [] |}.

End SamplePrefix.

(** [k] is the object [v] or equals it. *)
Definition same_or_equal (k v : pyvalue) : Prop :=
  k = v \/ py_eq k v = true.

(** [v] is a key of the dict [d]: it can be hashed, and a key of an entry
    of [d] is [v] or equals it. *)
Definition is_key (d : dict) (v : pyvalue) : Prop :=
  hashable v = true /\ exists k x, In (k, x) d /\ same_or_equal k v.

(** [maps_to d v x]: the dict [d] maps the key [v] to [x], that is [x] is
    stored in the entry of [d] whose key is [v] or equals it (the first
    such entry, were there several). *)
Inductive maps_to : dict -> pyvalue -> pyvalue -> Prop :=
| maps_here (k x : pyvalue) (d : dict) (v : pyvalue) :
    same_or_equal k v -> maps_to ((k, x) :: d) v x
| maps_later (k x' : pyvalue) (d : dict) (v x : pyvalue) :
    ~ same_or_equal k v -> maps_to d v x -> maps_to ((k, x') :: d) v x.

Module SampleMap.

(** [TraitMap({"yes": 1, "no": 0})] *)
Definition married : TraitMap.t :=
  TraitMap.init [(VStr "yes", VInt 1); (VStr "no", VInt 0)].

(** A second map, [TraitMap({"maybe": 2})]. *)
Definition undecided : TraitMap.t :=
  TraitMap.init [(VStr "maybe", VInt 2)].

End SampleMap.

(** ** Runs of rejected attempts *)

Section Rejections.
Context {World A : Type}.

(** [all_rejected calls w w']: run one after the other from the world
    [w], every call of [calls] raises a [TraitError], and [w'] is the
    world the last one leaves. *)
Inductive all_rejected : list (M World A) -> World -> World -> Prop :=
| rejected_nil (w : World) : all_rejected [] w w
| rejected_cons (call : M World A) (calls : list (M World A))
                (w w1 w2 : World) (args : trait_error_args) :
    call w = (Raise (TraitError args), w1) ->
    all_rejected calls w1 w2 ->
    all_rejected (call :: calls) w w2.

(** [first_accepted calls otherwise w r]: [r] is what the first call of
    [calls] that does not raise a [TraitError] gives, run in the world
    that the calls before it, all of which raise a [TraitError], leave;
    when every call raises a [TraitError], [r] is what [otherwise]
    gives in the world they leave. *)
Definition first_accepted (calls : list (M World A)) (otherwise : M World A)
           (w : World) (r : Res A * World) : Prop :=
  (exists before call after w1,
      calls = before ++ call :: after
      /\ all_rejected before w w1
      /\ is_trait_error (fst (call w1)) = false
      /\ r = call w1)
  \/ (exists w1, all_rejected calls w w1 /\ r = otherwise w1).
End Rejections.

Section CompoundOrder.
Context {World : Type}.

(** The handlers given to the constructor. *)
Definition handlers_of (a : @TraitCompound.args World)
  : list (TraitHandler.Handler World) :=
  match a with
  | TraitCompound.Star handlers => handlers
  | TraitCompound.Sequence handlers => handlers
  end.

(** The handler exposes a fast validator. *)
Definition has_fast_validate (h : TraitHandler.Handler World) : bool :=
  match TraitHandler.fast_validate h with
  | Some _ => true
  | None => false
  end.

(** The order in which [validate] tries the handlers: those with a fast
    validator in the order given, then those without. *)
Definition try_order (handlers : list (TraitHandler.Handler World))
  : list (TraitHandler.Handler World) :=
  filter has_fast_validate handlers
  ++ filter (fun h => negb (has_fast_validate h)) handlers.

(** The [validate] calls of the handlers on one candidate. *)
Definition validate_calls (handlers : list (TraitHandler.Handler World))
           (object : pyobject) (name : string) (value : pyvalue)
  : list (M World pyvalue) :=
  List.map (fun h => TraitHandler.validate h object name value) handlers.

(** The [post_setattr] hooks of the handlers that define one. *)
Definition hooks_of (handlers : list (TraitHandler.Handler World))
  : list (pyobject -> string -> pyvalue -> M World unit) :=
  flat_map (fun h => match TraitHandler.post_setattr h with
                     | Some hook => [hook]
                     | None => []
                     end) handlers.

(** The calls of hooks on one value. *)
Definition hook_calls
           (hooks : list (pyobject -> string -> pyvalue -> M World unit))
           (object : pyobject) (name : string) (value : pyvalue)
  : list (M World unit) :=
  List.map (fun hook => hook object name value) hooks.
End CompoundOrder.

Module SampleCompound.

(** An owner whose shadow attributes hold integers: the write of any
    other value is refused with the validation error of the attribute. *)
Definition setattr_int (object : pyobject) (name : string)
           (value : pyvalue) : M Sample.World unit :=
  fun w =>
    match value with
    | VInt _ => (Ok tt, (object, name, value) :: w)
    | _ => (Raise (TraitError (Invalid object name value)), w)
    end.

(** [TraitEnum("a", "b")] *)
Definition letters : TraitEnum.t := TraitEnum.init [VStr "a"; VStr "b"].

(** [TraitCompound(TraitMap({"yes": 1, "no": 0}))] *)
Definition inner : @TraitCompound.t Sample.World :=
  TraitCompound.init
    (TraitCompound.Star [TraitMap.as_handler setattr_int SampleMap.married]).

(** [TraitCompound(inner, TraitMap({"maybe": 2}))] *)
Definition outer : @TraitCompound.t Sample.World :=
  TraitCompound.init
    (TraitCompound.Star
       [TraitCompound.as_handler setattr_int inner;
        TraitMap.as_handler setattr_int SampleMap.undecided]).

(** A handler that accepts every candidate and returns [result], with or
    without a fast validator. *)
Definition constant (fast : bool) (result : pyvalue)
  : TraitHandler.Handler Sample.World :=
  {| TraitHandler.fast_validate :=
       if fast then Some (FV ValidateTrait.function []) else None;
     TraitHandler.validate := fun _ _ _ => ret result;
     TraitHandler.post_setattr := None;
     TraitHandler.is_mapped := false;
     TraitHandler.has_items := false |}.

(** [TraitCompound(TraitEnum("a", "b"))]: no handler with a hook. *)
Definition plain : @TraitCompound.t Sample.World :=
  TraitCompound.init (TraitCompound.Star [TraitEnum.as_handler letters]).

End SampleCompound.

(** ** Slot-wise acceptance of a tuple *)

Section TupleSlots.
Context {World : Type}.
Variables (object : pyobject) (name : string).

(** [slots_accept types items w values w']: the lists [types] and
    [items] have the same length; every trait of [types] has a handler,
    whose [validate] accepts the item at its position and returns the
    value at that position of [values]; the handlers run from the first
    position on, from the world [w] to the world [w']. *)
Inductive slots_accept :
  list (@TraitTuple.ctrait World) -> list pyvalue -> World ->
  list pyvalue -> World -> Prop :=
| slots_nil (w : World) : slots_accept [] [] w [] w
| slots_cons (type : TraitTuple.ctrait) (types : list TraitTuple.ctrait)
             (item : pyvalue) (items : list pyvalue)
             (h : TraitHandler.Handler World)
             (v : pyvalue) (values : list pyvalue) (w w1 w2 : World) :
    TraitTuple.handler type = Some h ->
    TraitHandler.validate h object name item w = (Ok v, w1) ->
    slots_accept types items w1 values w2 ->
    slots_accept (type :: types) (item :: items) w (v :: values) w2.
End TupleSlots.

Module SampleTuple.

(** A constructor argument that is a handler becomes the trait of that
    handler. *)
Definition trait_from (h : TraitHandler.Handler Sample.World)
  : @TraitTuple.ctrait Sample.World :=
  {| TraitTuple.handler := Some h |}.

Definition rank : TraitEnum.t :=
  TraitEnum.init (List.map VInt [1; 2; 3; 4; 5; 6; 7; 8; 9; 10; 11; 12; 13]).

Definition suit : TraitEnum.t :=
  TraitEnum.init [VStr "H"; VStr "D"; VStr "S"; VStr "C"].

(** [TraitTuple(rank, suit)] *)
Definition card : @TraitTuple.t Sample.World :=
  TraitTuple.init trait_from
                  [TraitEnum.as_handler rank; TraitEnum.as_handler suit].

End SampleTuple.

(** ** Stores of container handlers *)

Section StoreShape.
Variable TraitArg : Type.
Variable trait_from : TraitArg -> CTrait.t.
Variable ctrait_arg : CTrait.t -> TraitArg.

(** The object defines [clone]: it is one of the container handlers. *)
Definition has_clone (o : TraitDict.handler_object) : bool :=
  match o with
  | TraitDict.ListHandler _ | TraitDict.DictHandler _ => true
  | TraitDict.OtherHandler _ => false
  end.

(** [c] is what [o.clone()] constructs, with [has_items] set to
    [False]: a [TraitList] built from the item trait, the bounds and the
    flag of [o], or a [TraitDict] built from the key and value traits of
    [o]. *)
Definition clone_without_items (o c : TraitDict.handler_object) : Prop :=
  match o, c with
  | TraitDict.ListHandler l, TraitDict.ListHandler l' =>
      l' = {| TraitList.item_trait :=
                trait_from (ctrait_arg (TraitList.item_trait l));
              TraitList.minlen := Z.max 0 (TraitList.minlen l);
              TraitList.maxlen :=
                Z.max (TraitList.minlen l) (TraitList.maxlen l);
              TraitList.has_items := false |}
  | TraitDict.DictHandler d, TraitDict.DictHandler d' =>
      TraitDict.key_trait d'
      = trait_from (ctrait_arg (TraitDict.key_trait d))
      /\ TraitDict.value_trait d'
         = trait_from (ctrait_arg (TraitDict.value_trait d))
      /\ TraitDict.has_items d' = false
  | _, _ => False
  end.

(** What a construction that returns [r] leaves: the objects of the
    store are as they were, [r] is a new [TraitDict] object with the
    traits and the flag given, and its value handler is the handler of
    the value trait itself when that handler has no items, and else a
    new object: its clone with [has_items] set to [False]. *)
Definition built (key_trait value_trait : TraitArg) (has_items : bool)
           (s : TraitDict.store) (r : ref) (s' : TraitDict.store) : Prop :=
  (forall r0,
      (r0 < List.length s)%nat ->
      TraitDict.lookup s' r0 = TraitDict.lookup s r0)
  /\ (List.length s <= r)%nat
  /\ exists d h o,
      TraitDict.lookup s' r = Some (TraitDict.DictHandler d)
      /\ TraitDict.key_trait d = trait_from key_trait
      /\ TraitDict.value_trait d = trait_from value_trait
      /\ TraitDict.has_items d = has_items
      /\ CTrait.handler (trait_from value_trait) = Some h
      /\ TraitDict.lookup s h = Some o
      /\ (TraitDict.get_has_items o = false -> TraitDict.value_handler d = h)
      /\ (TraitDict.get_has_items o = true ->
          (List.length s <= TraitDict.value_handler d)%nat
          /\ exists c,
              TraitDict.lookup s' (TraitDict.value_handler d) = Some c
              /\ TraitDict.get_has_items c = false
              /\ clone_without_items o c).

(** A store as constructions leave it: the value trait of every
    [TraitDict] object names a handler that was constructed before the
    object and that defines [clone] when it has items. *)
Definition constructed (s : TraitDict.store) : Prop :=
  forall r d,
    TraitDict.lookup s r = Some (TraitDict.DictHandler d) ->
    exists h o,
      CTrait.handler (trait_from (ctrait_arg (TraitDict.value_trait d)))
      = Some h
      /\ (h < r)%nat
      /\ TraitDict.lookup s h = Some o
      /\ (TraitDict.get_has_items o = true -> has_clone o = true).
End StoreShape.

Module SampleStore.

(** Constructor arguments that are trait objects already. *)
Definition trait_from (c : CTrait.t) : CTrait.t := c.
Definition ctrait_arg (c : CTrait.t) : CTrait.t := c.

Definition no_handler : CTrait.t := {| CTrait.handler := None |}.

(** [TraitList(None, 0, 52)], which tracks its items. *)
Definition cards : TraitList.t :=
  TraitList.init trait_from no_handler 0 52 true.

(** The store holding [cards], and the trait whose handler it is. *)
Definition store : TraitDict.store := [TraitDict.ListHandler cards].
Definition cards_trait : CTrait.t := {| CTrait.handler := Some 0%nat |}.

(** A handler that has items, as a compound handler reads a [TraitList]
    handler. *)
Definition tracked : TraitHandler.Handler Sample.World :=
  {| TraitHandler.fast_validate := None;
     TraitHandler.validate := fun _ _ value => ret value;
     TraitHandler.post_setattr := None;
     TraitHandler.is_mapped := false;
     TraitHandler.has_items := true |}.

(** [TraitCompound(tracked)], and the object it is in a store: a
    [TraitCompound] defines no [clone]. *)
Definition either : @TraitCompound.t Sample.World :=
  TraitCompound.init (TraitCompound.Star [tracked]).

Definition either_object : TraitDict.handler_object :=
  TraitDict.OtherHandler (TraitCompound.has_items either).

End SampleStore.

(** ** Further definitions for the properties *)

(** A call [T(value)] that returns does return an instance of exactly
    [T], as the built-in types do. *)
Definition constructs (call : pytype -> pyvalue -> Res pyvalue) : Prop :=
  forall T v r, call T v = Ok r -> type_of r = T.

(** The keys of the dict are strings. *)
Definition str_keys (d : dict) : Prop :=
  forall k v, In (k, v) d -> exists s, k = VStr s.

(** The cache of a prefix handler over the legal strings [strs] is in
    order: every legal string stands for itself, and every entry maps a
    string to a legal string that it is a prefix of. *)
Definition prefix_cache_ok (strs : list string) (cache : dict) : Prop :=
  (forall s, In s strs -> dict_find cache (VStr s) = Some (VStr s))
  /\ (forall k v,
         In (k, v) cache ->
         exists s t,
           k = VStr s /\ v = VStr t /\ In t strs
           /\ substring 0 (String.length s) t = s).

(** The [TraitPrefixList] that has the keys of the map of a
    [TraitPrefixMap] as its values, and its cache. *)
Definition as_prefix_list (self : TraitPrefixMap.t) : TraitPrefixList.t :=
  {| TraitPrefixList.values := TraitPrefixMap.keys (TraitPrefixMap.map self);
     TraitPrefixList.values_ := TraitPrefixMap._map self;
     TraitPrefixList.fast_validate := TraitPrefixMap.fast_validate self |}.

Module SamplePrefix2.

(** [TraitPrefixList("ab", "abc")]: one value is a prefix of the other. *)
Definition nested : TraitPrefixList.t :=
  {| TraitPrefixList.values := [VStr "ab"; VStr "abc"];
     TraitPrefixList.values_ := [(VStr "ab", VStr "ab");
                                 (VStr "abc", VStr "abc")];
     TraitPrefixList.fast_validate := FV ValidateTrait.prefix_map [] |}.

(** [TraitPrefixMap({"true": 1, "yes": 1, "false": 0, "no": 0})] *)
Definition boolean_dict : dict :=
  [(VStr "true", VInt 1); (VStr "yes", VInt 1);
   (VStr "false", VInt 0); (VStr "no", VInt 0)].

Definition boolean_map : TraitPrefixMap.t :=
  {| TraitPrefixMap.map := boolean_dict;
     TraitPrefixMap._map := [(VStr "true", VStr "true");
                             (VStr "yes", VStr "yes");
                             (VStr "false", VStr "false");
                             (VStr "no", VStr "no")];
     TraitPrefixMap.fast_validate := FV ValidateTrait.prefix_map [] |}.

End SamplePrefix2.

(** ** Fast validators of a compound *)

Definition is_complex (fv : fast_validator) : bool :=
  ValidateTrait.eqb (fv_kind fv) ValidateTrait.complex.

(** A fast validator is flat: a [complex] one nests no [complex] one. *)
Definition flat (fv : fast_validator) : bool :=
  if is_complex fv
  then forallb (fun item => negb (is_complex item)) (fv_nested fv)
  else true.

Section CompoundFast.
Context {World : Type}.

(** What a handler contributes to the fast validators of a compound: the
    items of its [complex] fast validator, or its fast validator, or
    nothing when it has none. *)
Definition fast_items (h : TraitHandler.Handler World)
  : list fast_validator :=
  match TraitHandler.fast_validate h with
  | Some fv => if is_complex fv then fv_nested fv else [fv]
  | None => []
  end.
End CompoundFast.

Module SampleCompound2.

(** A handler that rejects every candidate, in a world that counts the
    calls. *)
Definition rejecting (fast : bool) : TraitHandler.Handler Sample.World :=
  {| TraitHandler.fast_validate :=
       if fast then Some (FV ValidateTrait.function []) else None;
     TraitHandler.validate :=
       fun object name value w =>
         (Raise (TraitError (Invalid object name value)),
          (object, name, value) :: w);
     TraitHandler.post_setattr := None;
     TraitHandler.is_mapped := false;
     TraitHandler.has_items := false |}.

End SampleCompound2.

Module SampleStore2.

(** The [TraitDict] over [cards], as its construction leaves it. *)
Definition cards_dict : TraitDict.t :=
  {| TraitDict.key_trait := SampleStore.no_handler;
     TraitDict.value_trait := SampleStore.cards_trait;
     TraitDict.has_items := true;
     TraitDict.value_handler := 1%nat |}.

(** The store after that construction: [cards], its clone without items
    and the [TraitDict]. *)
Definition store : TraitDict.store :=
  [TraitDict.ListHandler SampleStore.cards;
   TraitDict.ListHandler
     {| TraitList.item_trait := SampleStore.no_handler;
        TraitList.minlen := 0;
        TraitList.maxlen := 52;
        TraitList.has_items := false |};
   TraitDict.DictHandler cards_dict].

End SampleStore2.

(** The handler [self] once its class is resolved to [c]: the class is
    stored and the fast validator is set. *)
Definition resolved_as (TypeTypes : list pytype) (self : TraitInstance.t)
           (c : pytype) : TraitInstance.t :=
  TraitInstance.set_fast_validate
    TypeTypes
    {| TraitInstance._allow_none := TraitInstance._allow_none self;
       TraitInstance.module := TraitInstance.module self;
       TraitInstance.aClass := TraitInstance.Class c;
       TraitInstance.fast_validate := TraitInstance.fast_validate self |}.

Module SampleInstance.

(** The only loaded module is [builtins], which holds [int] and
    [float]. *)
Definition loaded (module klass : string) (w : Sample.World)
  : option pytype :=
  if String.eqb module "builtins" then
    if String.eqb klass "int" then Some Tint
    else if String.eqb klass "float" then Some Tfloat
    else None
  else None.

(** No other module can be imported. *)
Definition imported (module klass : string)
  : M Sample.World (option pytype) :=
  raise (OtherError "ModuleNotFoundError").

(** An import that is interrupted from the keyboard. *)
Definition interrupted (module klass : string)
  : M Sample.World (option pytype) :=
  raise (BaseExceptionOnly "KeyboardInterrupt").

(** The owner records the retargeting of its trait. *)
Definition retarget (self : TraitInstance.t) (object : pyobject)
           (name : string) : M Sample.World unit :=
  fun w => (Ok tt, (object, name, VNone) :: w).

Definition TypeTypes : list pytype :=
  [Tstr; Tint; Tfloat; Tcomplex; Tlist; Ttuple; Tbool].

(** [TraitInstance("builtins.int", allow_none=False)] *)
Definition by_name : TraitInstance.t :=
  TraitInstance.init TypeTypes (TraitInstance.OfValue (VStr "builtins.int"))
                     false "".

(** [TraitInstance("no.such.Class", allow_none=False)] *)
Definition missing : TraitInstance.t :=
  TraitInstance.init TypeTypes (TraitInstance.OfValue (VStr "no.such.Class"))
                     false "".

End SampleInstance.

(** ** Values: identity and equality *)

Lemma spec_float_eqb_eq (a b : spec_float) :
  spec_float_eqb a b = true <-> a = b.
Proof.
  destruct a as [s | s | | s m e], b as [t | t | | t n f]; simpl;
    try (split; [discriminate | discriminate]).
  - rewrite Bool.eqb_true_iff. split; congruence.
  - rewrite Bool.eqb_true_iff. split; congruence.
  - split; reflexivity.
  - rewrite !andb_true_iff, Bool.eqb_true_iff, Pos.eqb_eq, Z.eqb_eq.
    split; [intros [[-> ->] ->]; reflexivity |].
    intros H. injection H as -> -> ->. repeat split.
Qed.

(** [identical] holds of a value and itself, and of nothing else. *)
Lemma identical_eq : forall a b : pyvalue, identical a b = true <-> a = b.
Proof.
  fix IH 1. intros a b.
  assert (Hall : forall l m : list pyvalue,
             (forall x, In x l -> forall y, identical x y = true <-> x = y) ->
             (fix all_identical (l m : list pyvalue) {struct l} : bool :=
                match l, m with
                | [], [] => true
                | x :: l', y :: m' => identical x y && all_identical l' m'
                | _, _ => false
                end) l m = true <-> l = m).
  { clear IH. induction l as [| x l IHl]; intros [| y m] Hx;
      try (split; [discriminate | discriminate]); [split; reflexivity |].
    rewrite andb_true_iff, (Hx x (or_introl eq_refl) y).
    rewrite (IHl m (fun x0 H0 => Hx x0 (or_intror H0))).
    split; [intros [-> ->]; reflexivity |].
    intros H. injection H as -> ->. split; reflexivity. }
  destruct a as [| x | x | i f | i r1 i1 | s | l | l];
    destruct b as [| y | y | j g | j r2 i2 | t | m | m]; simpl;
    try (split; [discriminate | discriminate]).
  - split; reflexivity.
  - rewrite Bool.eqb_true_iff. split; congruence.
  - rewrite Z.eqb_eq. split; congruence.
  - rewrite andb_true_iff, Nat.eqb_eq, spec_float_eqb_eq.
    split; [intros [-> ->]; reflexivity |].
    intros H. injection H as -> ->. split; reflexivity.
  - rewrite !andb_true_iff, Nat.eqb_eq, !spec_float_eqb_eq.
    split; [intros [[-> ->] ->]; reflexivity |].
    intros H. injection H as -> -> ->. repeat split.
  - rewrite String.eqb_eq. split; congruence.
  - rewrite (Hall l m).
    + split; congruence.
    + clear Hall. induction l as [| x l IHl]; intros x0 [].
      * subst x0. apply IH.
      * now apply IHl.
  - rewrite (Hall l m).
    + split; congruence.
    + clear Hall. induction l as [| x l IHl]; intros x0 [].
      * subst x0. apply IH.
      * now apply IHl.
Qed.

Lemma identical_refl (a : pyvalue) : identical a a = true.
Proof. now apply identical_eq. Qed.

(** The comparison of a containment test: the same object, or equal. *)
Lemma is_or_eq_iff (k v : pyvalue) :
  is_or_eq k v = true <-> same_or_equal k v.
Proof.
  unfold is_or_eq, same_or_equal.
  rewrite orb_true_iff, identical_eq. reflexivity.
Qed.

Lemma is_or_eq_false_iff (k v : pyvalue) :
  is_or_eq k v = false <-> ~ same_or_equal k v.
Proof.
  rewrite <- is_or_eq_iff. destruct (is_or_eq k v); split; congruence.
Qed.

Lemma is_or_eq_refl (a : pyvalue) : is_or_eq a a = true.
Proof. unfold is_or_eq. now rewrite identical_refl. Qed.

(** For strings the comparison is the equality of strings. *)
Lemma is_or_eq_str (s t : string) :
  is_or_eq (VStr s) (VStr t) = String.eqb s t.
Proof. unfold is_or_eq. simpl. apply orb_diag. Qed.

Lemma is_or_eq_str_l (s : string) (b : pyvalue) :
  is_or_eq (VStr s) b = true -> b = VStr s.
Proof.
  unfold is_or_eq. destruct b; simpl; try discriminate.
  rewrite orb_diag. intros H. apply String.eqb_eq in H. now subst.
Qed.

Lemma is_or_eq_str_r (a : pyvalue) (s : string) :
  is_or_eq a (VStr s) = true -> a = VStr s.
Proof.
  unfold is_or_eq.
  destruct a as [| x | x | i f | i r1 i1 | t | l | l]; simpl;
    try discriminate.
  rewrite orb_diag. intros H. apply String.eqb_eq in H. now subst.
Qed.

(** ** The conversion of an integer to a float *)

















(** ** TraitCoerceType *)

Lemma pytype_eqb_eq (a b : pytype) : pytype_eqb a b = true <-> a = b.
Proof. destruct a, b; simpl; split; congruence. Qed.

Lemma pytype_eqb_refl (a : pytype) : pytype_eqb a a = true.
Proof. now apply pytype_eqb_eq. Qed.

Lemma pytype_eqb_neq (a b : pytype) : pytype_eqb a b = false <-> a <> b.
Proof. destruct a, b; simpl; split; congruence. Qed.

(** The target of the handler is its [aType], and its entries [fv[2:]] are
    the types that widen to it. *)
Lemma TraitCoerceType_init_table (a : TraitCoerceType.arg) :
  let self := TraitCoerceType.init a in
  exists types,
    TraitCoerceType.fast_validate self
    = (ValidateTrait.coerce, TraitCoerceType.aType self, types)
    /\ forall s, type_in s types = widens_to s (TraitCoerceType.aType self).
Proof.
  destruct a as [ty | v]; simpl.
  - destruct ty; simpl; eexists; (split; [reflexivity |]);
      intros []; reflexivity.
  - destruct (type_of v); simpl; eexists; (split; [reflexivity |]);
      intros []; reflexivity.
Qed.

Lemma coerce_from_spec call target tv types value :
  TraitCoerceType.coerce_from call target tv types value
  = if type_in tv types then Some (call target value) else None.
Proof.
  induction types as [| ty rest IH]; simpl; [reflexivity |].
  destruct (pytype_eqb tv ty); simpl; [reflexivity | exact IH].
Qed.

Section CoerceCases.
Variable call : pytype -> pyvalue -> Res pyvalue.
Variables (a : TraitCoerceType.arg) (object : pyobject) (name : string).
Variable value : pyvalue.

Let self := TraitCoerceType.init a.
Let T := TraitCoerceType.aType self.

Lemma coerce_validate_cases :
  TraitCoerceType.validate call self object name value
  = if pytype_eqb (type_of value) T then Ok value
    else if widens_to (type_of value) T then call T value
         else Raise (TraitError (Invalid object name value)).
Proof.
  destruct (TraitCoerceType_init_table a) as (types & Hfv & Htab).
  unfold TraitCoerceType.validate, self, T.
  rewrite Hfv, coerce_from_spec, Htab.
  destruct (pytype_eqb _ _); [reflexivity |].
  destruct (widens_to _ _); reflexivity.
Qed.

Lemma coerce_validate_same :
  type_of value = T ->
  TraitCoerceType.validate call self object name value = Ok value.
Proof.
  intros H. rewrite coerce_validate_cases, H, pytype_eqb_refl. reflexivity.
Qed.


Lemma coerce_validate_reject :
  type_of value <> T -> widens_to (type_of value) T = false ->
  TraitCoerceType.validate call self object name value
  = Raise (TraitError (Invalid object name value)).
Proof.
  intros Hne Hw. apply pytype_eqb_neq in Hne.
  rewrite coerce_validate_cases, Hne, Hw. reflexivity.
Qed.
End CoerceCases.





(** C10: the test is on the exact type: a value whose type is a strict
    subclass of the target type, and does not widen to it, raises the
    validation error; a boolean is rejected by the handler of [int]. *)
Theorem TraitCoerceType_validate_exact_type :
  forall (call : pytype -> pyvalue -> Res pyvalue)
         (a : TraitCoerceType.arg) (object : pyobject) (name : string)
         (value : pyvalue),
    strict_subclass (type_of value)
                    (TraitCoerceType.aType (TraitCoerceType.init a)) = true ->
    widens_to (type_of value)
              (TraitCoerceType.aType (TraitCoerceType.init a)) = false ->
    isinstance value (TraitCoerceType.aType (TraitCoerceType.init a)) = true
    /\ TraitCoerceType.validate call (TraitCoerceType.init a) object name
                                value
       = Raise (TraitError (Invalid object name value)).
Proof.
  intros call a object name value Hsub Hw.
  unfold strict_subclass in Hsub. apply andb_true_iff in Hsub.
  destruct Hsub as [Hsub Hne]. apply negb_true_iff in Hne.
  split; [exact Hsub |].
  apply coerce_validate_reject; [now apply pytype_eqb_neq | exact Hw].
Qed.

Lemma TraitCoerceType_validate_exact_type_witness :
  isinstance (VBool true) Tint = true
  /\ TraitCoerceType.validate
       Sample.call (TraitCoerceType.init (TraitCoerceType.OfType Tint))
       Sample.owner "count" (VBool true)
     = Raise (TraitError (Invalid Sample.owner "count" (VBool true))).
Proof.
  apply (TraitCoerceType_validate_exact_type
           Sample.call (TraitCoerceType.OfType Tint) Sample.owner "count"
           (VBool true)); reflexivity.
Defined.

(** ** TraitPrefixList *)

Lemma py_eq_str (s t : string) : py_eq (VStr s) (VStr t) = String.eqb s t.
Proof. reflexivity. Qed.

Lemma dict_find_store_same (d : dict) (k v : pyvalue) :
  dict_find (dict_store d k v) k = Some v.
Proof.
  induction d as [| [k' v'] d IH]; simpl.
  - now rewrite is_or_eq_refl.
  - destruct (is_or_eq k' k) eqn:E; simpl; rewrite E; [reflexivity | exact IH].
Qed.

(** Storing under a key that the dict does not hold appends the entry. *)
Lemma dict_store_absent (d : dict) (k v : pyvalue) :
  dict_find d k = None -> dict_store d k v = d ++ [(k, v)].
Proof.
  induction d as [| [k' v'] d IH]; simpl; [reflexivity |].
  destruct (is_or_eq k' k); [discriminate |].
  intros H. now rewrite IH.
Qed.

(** The scan over string values, once a match is held: it keeps the match
    when no later value matches and gives it up otherwise. *)
Lemma scan_held (s : string) (strs : list string) (m : pyvalue) :
  TraitPrefixList.scan (VStr s) (String.length s) (List.map VStr strs)
                       (Some m)
  = Ok (match prefix_matches s strs with
        | [] => Some m
        | _ :: _ => None
        end).
Proof.
  induction strs as [| key rest IH]; simpl; [reflexivity |].
  unfold prefix_matches in *. simpl.
  destruct (String.eqb s (substring 0 (String.length s) key));
    [reflexivity | exact IH].
Qed.

(** The scan over string values from the start: the match is the value the
    candidate is a prefix of when there is exactly one. *)
Lemma scan_unique (s : string) (strs : list string) :
  TraitPrefixList.scan (VStr s) (String.length s) (List.map VStr strs) None
  = Ok (match prefix_matches s strs with
        | [key] => Some (VStr key)
        | _ => None
        end).
Proof.
  induction strs as [| key rest IH]; simpl; [reflexivity |].
  unfold prefix_matches in *. simpl.
  destruct (String.eqb s (substring 0 (String.length s) key)).
  - rewrite scan_held. unfold prefix_matches.
    destruct (filter _ rest); reflexivity.
  - exact IH.
Qed.

(** C3: for string values and a string candidate that is not in the cache,
    [validate] compares the candidate with the prefix, of the candidate's
    length, of every value; when exactly one value matches, that value is
    returned and the handler is left with the entry (candidate, value)
    added to its cache, where the candidate is then found; when none or
    several match, the validation error is raised and the handler is left
    as it was. *)
Theorem TraitPrefixList_validate_unique_prefix :
  forall (self : TraitPrefixList.t) (strs : list string) (s : string)
         (object : pyobject) (name : string),
    TraitPrefixList.values self = List.map VStr strs ->
    dict_contains (TraitPrefixList.values_ self) (VStr s) = Ok false ->
    (forall key,
        prefix_matches s strs = [key] ->
        TraitPrefixList.validate self object name (VStr s)
        = (Ok (VStr key),
           {| TraitPrefixList.values := TraitPrefixList.values self;
              TraitPrefixList.values_ :=
                TraitPrefixList.values_ self ++ [(VStr s, VStr key)];
              TraitPrefixList.fast_validate :=
                TraitPrefixList.fast_validate self |})
        /\ dict_contains
             (TraitPrefixList.values_ self ++ [(VStr s, VStr key)]) (VStr s)
           = Ok true
        /\ dict_getitem
             (TraitPrefixList.values_ self ++ [(VStr s, VStr key)]) (VStr s)
           = Ok (VStr key))
    /\ (List.length (prefix_matches s strs) <> 1%nat ->
        TraitPrefixList.validate self object name (VStr s)
        = (Raise (TraitError (Invalid object name (VStr s))), self)).
Proof.
  intros self strs s object name Hvalues Hcache.
  assert (Habsent : dict_find (TraitPrefixList.values_ self) (VStr s) = None).
  { unfold dict_contains in Hcache. simpl in Hcache.
    destruct (dict_find _ _); [discriminate | reflexivity]. }
  assert (Hfind : forall key,
             dict_find (TraitPrefixList.values_ self ++ [(VStr s, VStr key)])
                       (VStr s) = Some (VStr key)).
  { intros key. rewrite <- (dict_store_absent _ _ _ Habsent).
    apply dict_find_store_same. }
  unfold TraitPrefixList.validate.
  rewrite Hcache, Hvalues. simpl py_len. cbv iota beta.
  rewrite scan_unique.
  split.
  - intros key Hone. rewrite Hone. unfold dict_setitem, dict_contains.
    simpl hashable. cbv iota.
    rewrite (dict_store_absent _ _ _ Habsent).
    unfold dict_getitem. simpl hashable. cbv iota.
    rewrite Hfind. unfold TraitPrefixList.with_cache. rewrite Hvalues.
    repeat split.
  - intros Hlen.
    destruct (prefix_matches s strs) as [| k1 [| k2 rest]];
      try reflexivity.
    simpl in Hlen. congruence.
Qed.

(** C3 at [TraitPrefixList("yes", "no")] and the candidate ["y"]: the
    cache gains the entry for ["y"]. *)
Lemma TraitPrefixList_validate_unique_prefix_witness :
  TraitPrefixList.validate SamplePrefix.married Sample.owner "married"
                           (VStr "y")
  = (Ok (VStr "yes"),
     {| TraitPrefixList.values := [VStr "yes"; VStr "no"];
        TraitPrefixList.values_ :=
          [(VStr "yes", VStr "yes"); (VStr "no", VStr "no");
           (VStr "y", VStr "yes")];
        TraitPrefixList.fast_validate := FV ValidateTrait.prefix_map [] |}).
Proof.
  destruct (TraitPrefixList_validate_unique_prefix
              SamplePrefix.married ["yes"; "no"] "y" Sample.owner "married"
              eq_refl eq_refl) as [Hone _].
  apply (Hone "yes"). reflexivity.
Defined.

(** The constructor and the examples of the description: ["y"], ["ye"] and
    ["yes"] resolve to ["yes"], ["n"] and ["no"] to ["no"], and the empty
    string, a prefix of both, is rejected. *)
Example TraitPrefixList_yes_no :
  TraitPrefixList.init [VStr "yes"; VStr "no"] = Ok SamplePrefix.married
  /\ List.map
       (fun s => fst (TraitPrefixList.validate
                        SamplePrefix.married Sample.owner "married" (VStr s)))
       ["y"; "ye"; "yes"; "n"; "no"; ""]
     = [Ok (VStr "yes"); Ok (VStr "yes"); Ok (VStr "yes");
        Ok (VStr "no"); Ok (VStr "no");
        Raise (TraitError (Invalid Sample.owner "married" (VStr "")))].
Proof. split; reflexivity. Qed.

(** With a third value ["yep"] the candidate ["ye"] is a prefix of two
    values and is rejected. *)
Example TraitPrefixList_yes_no_yep :
  exists self,
    TraitPrefixList.init [VStr "yes"; VStr "no"; VStr "yep"] = Ok self
    /\ fst (TraitPrefixList.validate self Sample.owner "married" (VStr "ye"))
       = Raise (TraitError (Invalid Sample.owner "married" (VStr "ye"))).
Proof. eexists. split; reflexivity. Qed.

(** ** TraitMap *)

Lemma dict_find_some (d : dict) (v : pyvalue) :
  (exists x, dict_find d v = Some x)
  <-> exists k x, In (k, x) d /\ same_or_equal k v.
Proof.
  induction d as [| [k' x'] d IH]; simpl.
  - split; [intros [x H]; discriminate | intros (k & x & [] & _)].
  - destruct (is_or_eq k' v) eqn:E.
    + split; [| now eexists].
      intros _. exists k', x'. split; [now left | now apply is_or_eq_iff].
    + rewrite IH. split.
      * intros (k & x & Hin & Heq). exists k, x. split; [now right | exact Heq].
      * intros (k & x & [Hhd | Hin] & Heq).
        -- injection Hhd as -> ->. apply is_or_eq_iff in Heq. congruence.
        -- now exists k, x.
Qed.

(** The lookup finds the value that the dict maps the key to. *)
Lemma dict_find_maps_to (d : dict) (v x : pyvalue) :
  dict_find d v = Some x <-> maps_to d v x.
Proof.
  split.
  - induction d as [| [k' x'] d IH]; simpl; [discriminate |].
    destruct (is_or_eq k' v) eqn:E.
    + intros H. injection H as ->. apply maps_here. now apply is_or_eq_iff.
    + intros H. apply maps_later; [now apply is_or_eq_false_iff | auto].
  - induction 1 as [k x d v H | k x' d v x H _ IH]; simpl.
    + apply is_or_eq_iff in H. now rewrite H.
    + apply is_or_eq_false_iff in H. now rewrite H.
Qed.

Lemma dict_contains_is_key (d : dict) (v : pyvalue) :
  dict_contains d v = Ok true <-> is_key d v.
Proof.
  unfold dict_contains, is_key. destruct (hashable v).
  - rewrite <- dict_find_some. split.
    + destruct (dict_find d v) as [x |]; [| discriminate].
      intros _. split; [reflexivity | now exists x].
    + intros [_ [x ->]]. reflexivity.
  - split; [discriminate | intros [H _]; discriminate].
Qed.

(** [d[v]] returns for a key, and raises for anything else. *)
Lemma dict_getitem_is_key (d : dict) (v : pyvalue) :
  is_ok (dict_getitem d v) = true <-> is_key d v.
Proof.
  unfold dict_getitem, is_key. destruct (hashable v).
  - rewrite <- dict_find_some. split.
    + destruct (dict_find d v) as [x |]; [| discriminate].
      intros _. split; [reflexivity | now exists x].
    + intros [_ [x ->]]. reflexivity.
  - split; [discriminate | intros [H _]; discriminate].
Qed.

Lemma dict_getitem_maps_to (d : dict) (v x : pyvalue) :
  hashable v = true -> maps_to d v x -> dict_getitem d v = Ok x.
Proof.
  intros Hh Hm. unfold dict_getitem. rewrite Hh.
  apply dict_find_maps_to in Hm. now rewrite Hm.
Qed.

Section MapPostSetattr.
Context {World : Type}.
Variable setattr : pyobject -> string -> pyvalue -> M World unit.
Variables (self : TraitMap.t) (object : pyobject) (name : string).
Variable value : pyvalue.

Lemma map_post_setattr_cases (w : World) :
  TraitMap.post_setattr setattr self object name value w
  = match TraitMap.mapped_value self value with
    | Ok mapped =>
        match setattr object (name ++ "_")%string mapped w with
        | (Ok u, w') => (Ok u, w')
        | (Raise _, w') => (Raise TraitMap.Unmappable, w')
        end
    | Raise _ => (Raise TraitMap.Unmappable, w)
    end.
Proof.
  unfold TraitMap.post_setattr, catch_all, bind, lift, raise.
  destruct (TraitMap.mapped_value self value) as [mapped | e];
    [| reflexivity].
  destruct (setattr object (name ++ "_")%string mapped w) as [[u | e] w'];
    reflexivity.
Qed.
End MapPostSetattr.

(** C4: [validate] succeeds exactly when the candidate is a key of the
    map, and then returns the candidate itself, never the mapped value;
    otherwise it raises the validation error.  The map maps every key to
    a value, and [post_setattr] writes that mapped value to the attribute
    named [name + "_"]; when the write raises, and when the value is not
    a key, so that no mapped value can be computed, it raises
    [TraitError("Unmappable")], which is not the validation error. *)
Theorem TraitMap_validate_post_setattr :
  forall (World : Type)
         (setattr : pyobject -> string -> pyvalue -> M World unit)
         (self : TraitMap.t) (object : pyobject) (name : string)
         (value : pyvalue),
    (forall r,
        TraitMap.validate self object name value = Ok r
        <-> is_key (TraitMap.map self) value /\ r = value)
    /\ (~ is_key (TraitMap.map self) value ->
        TraitMap.validate self object name value
        = Raise (TraitError (Invalid object name value)))
    /\ (is_key (TraitMap.map self) value ->
        exists mapped, maps_to (TraitMap.map self) value mapped)
    /\ (forall mapped w,
           hashable value = true ->
           maps_to (TraitMap.map self) value mapped ->
           is_ok (fst (setattr object (name ++ "_")%string mapped w)) = true ->
           TraitMap.post_setattr setattr self object name value w
           = setattr object (name ++ "_")%string mapped w)
    /\ (forall mapped w,
           hashable value = true ->
           maps_to (TraitMap.map self) value mapped ->
           is_ok (fst (setattr object (name ++ "_")%string mapped w)) = false ->
           TraitMap.post_setattr setattr self object name value w
           = (Raise (TraitError (Message "Unmappable")),
              snd (setattr object (name ++ "_")%string mapped w)))
    /\ (forall w,
           ~ is_key (TraitMap.map self) value ->
           TraitMap.post_setattr setattr self object name value w
           = (Raise (TraitError (Message "Unmappable")), w)).
Proof.
  intros World setattr self object name value.
  assert (Hval : TraitMap.validate self object name value
                 = match dict_contains (TraitMap.map self) value with
                   | Ok true => Ok value
                   | _ => Raise (TraitError (Invalid object name value))
                   end).
  { unfold TraitMap.validate, TraitHandler.error.
    destruct (dict_contains _ _) as [[|] | e]; reflexivity. }
  split; [intros r; split | split; [| split; [| split; [| split]]]].
  - rewrite Hval. destruct (dict_contains _ _) as [[|] | e] eqn:E;
      try discriminate.
    intros Hr. split; [now apply dict_contains_is_key | congruence].
  - intros [Hkey ->]. apply dict_contains_is_key in Hkey.
    rewrite Hval, Hkey. reflexivity.
  - intros Hno. rewrite Hval.
    destruct (dict_contains _ _) as [[|] | e] eqn:E; try reflexivity.
    exfalso. apply Hno. now apply dict_contains_is_key.
  - intros [_ Hin]. apply dict_find_some in Hin. destruct Hin as [x Hx].
    exists x. now apply dict_find_maps_to.
  - intros mapped w Hh Hmap Hok. rewrite map_post_setattr_cases.
    unfold TraitMap.mapped_value.
    rewrite (dict_getitem_maps_to _ _ _ Hh Hmap).
    destruct (setattr object (name ++ "_")%string mapped w) as [[u | e] w'];
      [reflexivity | discriminate].
  - intros mapped w Hh Hmap Hok. rewrite map_post_setattr_cases.
    unfold TraitMap.mapped_value.
    rewrite (dict_getitem_maps_to _ _ _ Hh Hmap).
    destruct (setattr object (name ++ "_")%string mapped w) as [[u | e] w'];
      [discriminate | reflexivity].
  - intros w Hno. rewrite map_post_setattr_cases.
    unfold TraitMap.mapped_value.
    destruct (dict_getitem (TraitMap.map self) value) eqn:E;
      [| reflexivity].
    exfalso. apply Hno. apply dict_getitem_is_key. now rewrite E.
Qed.

(** C4 at [TraitMap({"yes": 1, "no": 0})] on the attribute [married]:
    ["yes"] is returned as it is and [married_] is set to 1; on an owner
    that refuses the write, and for a value that is not a key, the hook
    raises [TraitError("Unmappable")]. *)
Lemma TraitMap_validate_post_setattr_witness :
  TraitMap.validate SampleMap.married Sample.owner "married" (VStr "yes")
  = Ok (VStr "yes")
  /\ TraitMap.post_setattr Sample.setattr SampleMap.married Sample.owner
                           "married" (VStr "yes") []
     = (Ok tt, [(Sample.owner, "married_", VInt 1)])
  /\ TraitMap.post_setattr Sample.setattr_readonly SampleMap.married
                           Sample.owner "married" (VStr "yes") []
     = (Raise (TraitError (Message "Unmappable")), [])
  /\ TraitMap.post_setattr Sample.setattr SampleMap.married Sample.owner
                           "married" (VStr "perhaps") []
     = (Raise (TraitError (Message "Unmappable")), []).
Proof.
  assert (Hyes : maps_to (TraitMap.map SampleMap.married) (VStr "yes")
                         (VInt 1)).
  { apply maps_here. now left. }
  split; [| split; [| split]].
  - destruct (TraitMap_validate_post_setattr
                Sample.World Sample.setattr SampleMap.married Sample.owner
                "married" (VStr "yes")) as (Hiff & _).
    apply Hiff. split; [| reflexivity].
    split; [reflexivity |].
    exists (VStr "yes"), (VInt 1). split; [now left | now left].
  - destruct (TraitMap_validate_post_setattr
                Sample.World Sample.setattr SampleMap.married Sample.owner
                "married" (VStr "yes")) as (_ & _ & _ & Hwrite & _).
    apply (Hwrite (VInt 1) [] eq_refl Hyes). reflexivity.
  - destruct (TraitMap_validate_post_setattr
                Sample.World Sample.setattr_readonly SampleMap.married
                Sample.owner "married" (VStr "yes"))
      as (_ & _ & _ & _ & Hfail & _).
    apply (Hfail (VInt 1) [] eq_refl Hyes). reflexivity.
  - destruct (TraitMap_validate_post_setattr
                Sample.World Sample.setattr SampleMap.married Sample.owner
                "married" (VStr "perhaps")) as (_ & _ & _ & _ & _ & Hnokey).
    apply (Hnokey []).
    intros [_ (k & x & Hin & Hsame)].
    apply is_or_eq_iff in Hsame. apply is_or_eq_str_r in Hsame. subst k.
    simpl in Hin. destruct Hin as [H | [H | []]]; discriminate H.
Defined.

(** A NaN is a key of the map that holds it, as the same object: with
    [nan] the float object 1, [TraitMap({nan: 1})] accepts [nan] itself
    and maps it to 1, and rejects another NaN object. *)
Example TraitMap_NaN_key :
  TraitMap.validate (TraitMap.init [(VFloat 1 S754_nan, VInt 1)])
                    Sample.owner "x" (VFloat 1 S754_nan)
  = Ok (VFloat 1 S754_nan)
  /\ TraitMap.mapped_value (TraitMap.init [(VFloat 1 S754_nan, VInt 1)])
                           (VFloat 1 S754_nan)
     = Ok (VInt 1)
  /\ TraitMap.validate (TraitMap.init [(VFloat 1 S754_nan, VInt 1)])
                       Sample.owner "x" (VFloat 2 S754_nan)
     = Raise (TraitError (Invalid Sample.owner "x" (VFloat 2 S754_nan)))
  /\ py_eq (VFloat 1 S754_nan) (VFloat 1 S754_nan) = false.
Proof. repeat split. Qed.

(** ** TraitCompound *)

Section CompoundLoop.
Context {World : Type}.
Let Handler : Type := TraitHandler.Handler World.

(** What the loop of [set_validate] adds to its variables. *)
Lemma loop_from (handlers : list Handler)
      (s : @TraitCompound.loop_state World) :
  let s' := fold_left TraitCompound.loop_body handlers s in
  TraitCompound.l_validates s'
  = TraitCompound.l_validates s
    ++ List.map (@TraitHandler.validate World)
                (filter has_fast_validate handlers)
  /\ TraitCompound.l_slow_validates s'
     = TraitCompound.l_slow_validates s
       ++ List.map (@TraitHandler.validate World)
                   (filter (fun h => negb (has_fast_validate h)) handlers)
  /\ TraitCompound.l_post_setattrs s'
     = TraitCompound.l_post_setattrs s ++ hooks_of handlers
  /\ TraitCompound.l_is_mapped s'
     = TraitCompound.l_is_mapped s
       || existsb (@TraitHandler.is_mapped World) handlers
  /\ TraitCompound.l_reversable s'
     = TraitCompound.l_reversable s
       && forallb (@TraitHandler.is_mapped World) handlers
  /\ TraitCompound.l_has_items s'
     = TraitCompound.l_has_items s
       || existsb (@TraitHandler.has_items World) handlers.
Proof.
  revert s. induction handlers as [| h rest IH]; intros s; simpl.
  - rewrite !app_nil_r, !orb_false_r, andb_true_r. repeat split.
  - destruct (IH (TraitCompound.loop_body s h))
      as (Hv & Hs & Hp & Hm & Hr & Hi).
    rewrite Hv, Hs, Hp, Hm, Hr, Hi. clear.
    unfold has_fast_validate. simpl.
    destruct (TraitHandler.fast_validate h),
             (TraitHandler.post_setattr h),
             (TraitHandler.is_mapped h),
             (TraitHandler.has_items h);
      simpl; rewrite <- ?app_assoc; simpl;
      rewrite ?orb_true_r, ?andb_false_r, ?orb_false_r;
      repeat split; try reflexivity;
      destruct (TraitCompound.l_is_mapped s),
               (TraitCompound.l_reversable s),
               (TraitCompound.l_has_items s); reflexivity.
Qed.

Lemma init_validates (a : @TraitCompound.args World) :
  TraitCompound.validates (TraitCompound.init a)
  = List.map (@TraitHandler.validate World)
             (filter has_fast_validate (handlers_of a))
  /\ TraitCompound.slow_validates (TraitCompound.init a)
     = List.map (@TraitHandler.validate World)
                (filter (fun h => negb (has_fast_validate h))
                        (handlers_of a)).
Proof.
  destruct a as [hs | hs]; simpl;
    destruct (loop_from hs TraitCompound.loop_start) as (Hv & Hs & _);
    split; assumption.
Qed.

Lemma init_flags (a : @TraitCompound.args World) :
  TraitCompound.is_mapped (TraitCompound.init a)
  = existsb (@TraitHandler.is_mapped World) (handlers_of a)
  /\ TraitCompound.reversable (TraitCompound.init a)
     = forallb (@TraitHandler.is_mapped World) (handlers_of a)
  /\ TraitCompound.has_items (TraitCompound.init a)
     = existsb (@TraitHandler.has_items World) (handlers_of a).
Proof.
  destruct a as [hs | hs]; simpl;
    destruct (loop_from hs TraitCompound.loop_start)
      as (_ & _ & _ & Hm & Hr & Hi);
    repeat split; assumption.
Qed.

Lemma init_post_setattrs (a : @TraitCompound.args World) :
  TraitCompound.has_post_setattr (TraitCompound.init a)
  = negb (Nat.eqb (List.length (hooks_of (handlers_of a))) 0)
  /\ TraitCompound.post_setattrs (TraitCompound.init a)
     = if Nat.eqb (List.length (hooks_of (handlers_of a))) 0 then None
       else Some (hooks_of (handlers_of a)).
Proof.
  destruct a as [hs | hs]; simpl;
    destruct (loop_from hs TraitCompound.loop_start)
      as (_ & _ & Hp & _); simpl in Hp;
    unfold TraitCompound.loop; rewrite Hp;
    destruct (hooks_of hs); split; reflexivity.
Qed.
End CompoundLoop.

Section FirstAccepted.
Context {World A : Type}.

(** A chain of [try: return call  except TraitError: pass] gives what
    the first call that does not raise a [TraitError] gives. *)
Lemma catch_chain_first_accepted (calls : list (M World A))
      (otherwise : M World A) (w : World) :
  first_accepted calls otherwise w
                 (fold_right catch_trait otherwise calls w).
Proof.
  revert w. induction calls as [| call calls IH]; intros w; simpl.
  - right. exists w. split; [constructor | reflexivity].
  - unfold catch_trait at 1.
    destruct (call w) as [r w1] eqn:Hcall.
    assert (Hcase : (exists args, r = Raise (TraitError args))
                    \/ is_trait_error r = false).
    { destruct r as [x | []]; simpl; eauto. }
    destruct Hcase as [[args ->] | Hok].
    + destruct (IH w1) as [(before & c & after & w2 & -> & Hrej & Hc & Hr)
                          | (w2 & Hrej & Hr)].
      * left. exists (call :: before), c, after, w2.
        repeat split; try assumption.
        econstructor; eassumption.
      * right. exists w2. split; [| assumption].
        econstructor; eassumption.
    + left. exists [], call, calls, w. rewrite Hcall.
      repeat split; [constructor | exact Hok |].
      destruct r as [x | []]; try reflexivity. discriminate.
Qed.
End FirstAccepted.

Section CompoundChains.
Context {World : Type}.
Variable setattr : pyobject -> string -> pyvalue -> M World unit.
Variables (object : pyobject) (name : string) (value : pyvalue).

Lemma first_valid_fold
      (methods : list (pyobject -> string -> pyvalue -> M World pyvalue))
      (otherwise : M World pyvalue) :
  TraitCompound.first_valid methods object name value otherwise
  = fold_right catch_trait otherwise
               (List.map (fun m => m object name value) methods).
Proof.
  induction methods as [| m rest IH]; simpl; [reflexivity |].
  now rewrite IH.
Qed.

Lemma first_post_setattr_fold
      (hooks : list (pyobject -> string -> pyvalue -> M World unit)) :
  TraitCompound.first_post_setattr setattr hooks object name value
  = fold_right catch_trait (setattr object (name ++ "_")%string value)
               (hook_calls hooks object name value).
Proof.
  induction hooks as [| h rest IH]; simpl; [reflexivity |].
  now rewrite IH.
Qed.

(** [validate] is one chain over the handlers in the order tried. *)
Lemma compound_validate_fold (a : @TraitCompound.args World) :
  TraitCompound.validate (TraitCompound.init a) object name value
  = fold_right catch_trait
               (lift (TraitHandler.error object name value))
               (validate_calls (try_order (handlers_of a))
                               object name value).
Proof.
  unfold TraitCompound.validate, TraitCompound.slow_validate.
  destruct (init_validates a) as [-> ->].
  rewrite !first_valid_fold. unfold validate_calls, try_order.
  rewrite !List.map_map, List.map_app, fold_right_app. reflexivity.
Qed.
End CompoundChains.

(** C1: [validate] tries the [validate] method of the handlers that expose
    a fast validator, in the order given, then the handlers that expose
    none, in the order given; it gives what the first of them that does not
    raise a [TraitError] gives (in the world left by the rejected attempts
    before it), and raises the validation error when all of them raise a
    [TraitError]. *)
Theorem TraitCompound_validate_first_match :
  forall (World : Type) (a : @TraitCompound.args World) (object : pyobject)
         (name : string) (value : pyvalue) (w : World),
    TraitCompound.validates (TraitCompound.init a)
    = List.map (@TraitHandler.validate World)
               (filter has_fast_validate (handlers_of a))
    /\ TraitCompound.slow_validates (TraitCompound.init a)
       = List.map (@TraitHandler.validate World)
                  (filter (fun h => negb (has_fast_validate h))
                          (handlers_of a))
    /\ first_accepted
         (validate_calls (try_order (handlers_of a)) object name value)
         (fun w1 => (Raise (TraitError (Invalid object name value)), w1))
         w
         (TraitCompound.validate (TraitCompound.init a) object name value w).
Proof.
  intros World a object name value w.
  destruct (init_validates a) as [Hv Hs].
  split; [exact Hv | split; [exact Hs |]].
  rewrite compound_validate_fold.
  apply (catch_chain_first_accepted
           (validate_calls (try_order (handlers_of a)) object name value)
           (lift (TraitHandler.error object name value)) w).
Qed.

(** Three handlers that accept everything: the first two that expose a
    fast validator are tried in the order given, and both before the
    handler without one, wherever that one is declared. *)
Example TraitCompound_fast_before_slow :
  TraitCompound.validate
    (TraitCompound.init
       (TraitCompound.Star [SampleCompound.constant false (VInt 1);
                            SampleCompound.constant true (VInt 2);
                            SampleCompound.constant true (VInt 3)]))
    Sample.owner "x" VNone []
  = (Ok (VInt 2), [])
  /\ TraitCompound.validate
       (TraitCompound.init
          (TraitCompound.Sequence [SampleCompound.constant true (VInt 3);
                                   SampleCompound.constant true (VInt 2)]))
       Sample.owner "x" VNone []
     = (Ok (VInt 3), [])
  /\ TraitCompound.validate
       (TraitCompound.init
          (TraitCompound.Star [TraitEnum.as_handler SampleCompound.letters;
                               TraitMap.as_handler SampleCompound.setattr_int
                                                   SampleMap.married]))
       Sample.owner "x" (VStr "c") []
     = (Raise (TraitError (Invalid Sample.owner "x" (VStr "c"))), []).
Proof. repeat split. Qed.

(** C2: after construction [is_mapped] holds exactly when some handler is
    mapped, and [reversable] exactly when every handler is mapped.  A
    compound of two [TraitMap] handlers is reversable; a compound of a
    [TraitMap] and a [TraitEnum] is mapped and not reversable. *)
Theorem TraitCompound_mapped_flags :
  forall (World : Type)
         (setattr : pyobject -> string -> pyvalue -> M World unit)
         (a : @TraitCompound.args World) (m1 m2 : TraitMap.t)
         (e : TraitEnum.t),
    (TraitCompound.is_mapped (TraitCompound.init a) = true
     <-> exists h, In h (handlers_of a) /\ TraitHandler.is_mapped h = true)
    /\ (TraitCompound.reversable (TraitCompound.init a) = true
        <-> forall h, In h (handlers_of a) -> TraitHandler.is_mapped h = true)
    /\ TraitCompound.reversable
         (TraitCompound.init
            (TraitCompound.Star [TraitMap.as_handler setattr m1;
                                 TraitMap.as_handler setattr m2])) = true
    /\ TraitCompound.is_mapped
         (TraitCompound.init
            (TraitCompound.Star [TraitMap.as_handler setattr m1;
                                 TraitEnum.as_handler e])) = true
    /\ TraitCompound.reversable
         (TraitCompound.init
            (TraitCompound.Star [TraitMap.as_handler setattr m1;
                                 TraitEnum.as_handler e])) = false.
Proof.
  intros World setattr a m1 m2 e.
  destruct (init_flags a) as (-> & -> & _).
  split; [| split; [| repeat split]].
  - rewrite existsb_exists. reflexivity.
  - rewrite forallb_forall. reflexivity.
Qed.

(** The hooks of a compound of a nested compound and a map, on an owner
    whose shadow attribute holds integers, for the value ["maybe"]: the
    hook of the nested compound raises the validation error of the shadow
    attribute, which is not [TraitError("Unmappable")]; the compound does
    not stop there: it goes on to the hook of the map, which writes 2. *)
Lemma TraitCompound_post_setattr_catches_any_TraitError :
  TraitCompound.post_setattrs SampleCompound.outer
  = Some [TraitCompound._post_setattr SampleCompound.setattr_int
                                      SampleCompound.inner;
          TraitMap.post_setattr SampleCompound.setattr_int
                                SampleMap.undecided]
  /\ TraitCompound._post_setattr SampleCompound.setattr_int
                                 SampleCompound.inner
                                 Sample.owner "married" (VStr "maybe") []
     = (Raise (TraitError (Invalid Sample.owner "married_" (VStr "maybe"))),
        [])
  /\ TraitCompound._post_setattr SampleCompound.setattr_int
                                 SampleCompound.outer
                                 Sample.owner "married" (VStr "maybe") []
     = (Ok tt, [(Sample.owner, "married_", VInt 2)]).
Proof. repeat split. Qed.

(** C5, amended: when some handler defines a [post_setattr] hook, the hook
    of the compound tries the hooks of the handlers that define one, in
    the order given, and stops at the first that does not raise a
    [TraitError], whatever its arguments ([TraitError("Unmappable")] and
    any other); when every hook raises a [TraitError], it writes the value
    as it is to the attribute named [name + "_"]; when no handler defines
    a hook, the compound defines none. *)
Theorem TraitCompound_post_setattr_first_accepted :
  forall (World : Type)
         (setattr : pyobject -> string -> pyvalue -> M World unit)
         (a : @TraitCompound.args World) (object : pyobject) (name : string)
         (value : pyvalue) (w : World),
    (hooks_of (handlers_of a) = [] ->
     TraitCompound.post_setattr setattr (TraitCompound.init a) = None)
    /\ (hooks_of (handlers_of a) <> [] ->
        TraitCompound.post_setattr setattr (TraitCompound.init a)
        = Some (TraitCompound._post_setattr setattr (TraitCompound.init a))
        /\ first_accepted
             (hook_calls (hooks_of (handlers_of a)) object name value)
             (setattr object (name ++ "_")%string value)
             w
             (TraitCompound._post_setattr setattr (TraitCompound.init a)
                                          object name value w)).
Proof.
  intros World setattr a object name value w.
  destruct (init_post_setattrs a) as [Hflag Hhooks].
  unfold TraitCompound.post_setattr, TraitCompound._post_setattr.
  rewrite Hflag, Hhooks.
  split; intros H.
  - rewrite H. reflexivity.
  - destruct (hooks_of (handlers_of a)) as [| hook hooks] eqn:E;
      [congruence |].
    cbn [List.length Nat.eqb negb].
    split; [reflexivity |].
    rewrite first_post_setattr_fold.
    apply catch_chain_first_accepted.
Qed.

(** C5 at the two sample compounds: one with hooks, one without. *)
Lemma TraitCompound_post_setattr_first_accepted_witness :
  (TraitCompound.post_setattr SampleCompound.setattr_int SampleCompound.outer
   = Some (TraitCompound._post_setattr SampleCompound.setattr_int
                                       SampleCompound.outer)
   /\ first_accepted
        (hook_calls
           [TraitCompound._post_setattr SampleCompound.setattr_int
                                        SampleCompound.inner;
            TraitMap.post_setattr SampleCompound.setattr_int
                                  SampleMap.undecided]
           Sample.owner "married" (VStr "maybe"))
        (SampleCompound.setattr_int Sample.owner "married_" (VStr "maybe"))
        []
        (TraitCompound._post_setattr SampleCompound.setattr_int
                                     SampleCompound.outer
                                     Sample.owner "married" (VStr "maybe")
                                     []))
  /\ TraitCompound.post_setattr SampleCompound.setattr_int
                                SampleCompound.plain = None.
Proof.
  split.
  - apply (proj2 (TraitCompound_post_setattr_first_accepted
                    Sample.World SampleCompound.setattr_int
                    (TraitCompound.Star
                       [TraitCompound.as_handler SampleCompound.setattr_int
                                                 SampleCompound.inner;
                        TraitMap.as_handler SampleCompound.setattr_int
                                            SampleMap.undecided])
                    Sample.owner "married" (VStr "maybe") [])).
    discriminate.
  - apply (proj1 (TraitCompound_post_setattr_first_accepted
                    Sample.World SampleCompound.setattr_int
                    (TraitCompound.Star
                       [TraitEnum.as_handler SampleCompound.letters])
                    Sample.owner "married" (VStr "maybe") [])).
    reflexivity.
Defined.

(** ** TraitTuple *)

Lemma nth_error_skipn {A : Type} (l : list A) (i : nat) (x : A) :
  nth_error l i = Some x -> skipn i l = x :: skipn (S i) l.
Proof.
  revert l. induction i as [| i IH]; intros [| y l] H; try discriminate.
  - injection H as ->. reflexivity.
  - apply (IH l H).
Qed.

Section TupleItems.
Context {World : Type}.
Variables (object : pyobject) (name : string).

Lemma slots_accept_length (types : list (@TraitTuple.ctrait World))
      (items values : list pyvalue) (w w' : World) :
  slots_accept object name types items w values w' ->
  List.length items = List.length types
  /\ List.length values = List.length types.
Proof.
  induction 1 as [| ? ? ? ? ? ? ? ? ? ? _ _ _ [IH1 IH2]]; simpl;
    [split; reflexivity | split; congruence].
Qed.

(** The loop of [validate] returns exactly when the handlers accept the
    remaining items slot by slot, and then returns the collected values
    followed by the values the handlers return. *)
Lemma validate_items_accepts (value : list pyvalue) :
  forall (types : list (@TraitTuple.ctrait World)) (i : nat)
         (values result : list pyvalue) (w w' : World),
    List.length value = (i + List.length types)%nat ->
    (TraitTuple.validate_items object name value i types values w
     = (Ok result, w')
     <-> exists more,
          result = values ++ more
          /\ slots_accept object name types (skipn i value) w more w').
Proof.
  induction types as [| type rest IH]; intros i values result w w' Hlen;
    cbn [TraitTuple.validate_items List.length] in *.
  - assert (Hskip : skipn i value = []) by (apply skipn_all2; lia).
    rewrite Hskip. unfold ret. split.
    + intros H. injection H as <- <-. exists [].
      rewrite app_nil_r. split; [reflexivity | constructor].
    + intros (more & -> & Hacc). inversion Hacc; subst.
      now rewrite app_nil_r.
  - destruct (nth_error value i) as [item |] eqn:Hitem.
    2: { apply nth_error_None in Hitem. lia. }
    rewrite (nth_error_skipn value i item Hitem).
    destruct (TraitTuple.handler type) as [h |] eqn:Hh.
    2: { split; [discriminate |].
         intros (more & _ & Hacc). inversion Hacc; subst. congruence. }
    unfold bind.
    destruct (TraitHandler.validate h object name item w) as [[v | e] w1]
      eqn:Hv.
    + rewrite (IH (S i) (values ++ [v]) result w1 w') by lia. split.
      * intros (more & -> & Hacc). exists (v :: more).
        rewrite <- app_assoc. split; [reflexivity |].
        econstructor; eassumption.
      * intros (more & -> & Hacc). inversion Hacc; subst.
        assert (h0 = h) by congruence. subst h0.
        match goal with
        | H : TraitHandler.validate h object name item w = _ |- _ =>
            rewrite Hv in H; injection H as <- <-
        end.
        eexists. rewrite <- app_assoc. split; [reflexivity | eassumption].
    + split; [discriminate |].
      intros (more & _ & Hacc). inversion Hacc; subst.
      assert (h0 = h) by congruence. subst h0. congruence.
Qed.
End TupleItems.

Section TupleValidate.
Context {World TraitArg : Type}.
Variable trait_from : TraitArg -> @TraitTuple.ctrait World.
Variables (args : list TraitArg) (object : pyobject) (name : string).

(** [validate], with the [try] and its [except: pass] resolved. *)
Lemma tuple_validate_cases (value : pyvalue) (w : World) :
  TraitTuple.validate (TraitTuple.init trait_from args) object name value w
  = match value with
    | VTuple items =>
        if Nat.eqb (List.length items)
                   (List.length (List.map trait_from args))
        then
          match TraitTuple.validate_items
                  object name items 0 (List.map trait_from args) [] w with
          | (Ok values, w1) => (Ok (VTuple values), w1)
          | (Raise _, w1) =>
              (Raise (TraitError (Invalid object name value)), w1)
          end
        else (Raise (TraitError (Invalid object name value)), w)
    | _ => (Raise (TraitError (Invalid object name value)), w)
    end.
Proof.
  unfold TraitTuple.validate, TraitTuple.validate_try, bind, catch_all,
    ret, lift, TraitHandler.error.
  cbn [TraitTuple.types TraitTuple.init].
  destruct value; try reflexivity.
  destruct (Nat.eqb _ _); [| reflexivity].
  destruct (TraitTuple.validate_items _ _ _ _ _ _ _) as [[values | e] w1];
    reflexivity.
Qed.
End TupleValidate.

(** C7: [validate] accepts exactly a tuple that has one item per
    configured trait and whose items the handlers of the traits accept slot
    by slot; it then returns the new tuple of the values the handlers
    return.  In every other case (not a tuple, another length, a slot that
    raises anything) it raises the validation error and returns nothing. *)
Theorem TraitTuple_validate_slots :
  forall (World TraitArg : Type)
         (trait_from : TraitArg -> @TraitTuple.ctrait World)
         (args : list TraitArg) (object : pyobject) (name : string)
         (value : pyvalue) (w : World),
    TraitTuple.types (TraitTuple.init trait_from args)
    = List.map trait_from args
    /\ (forall r w',
           TraitTuple.validate (TraitTuple.init trait_from args)
                               object name value w = (Ok r, w')
           <-> exists items values,
               value = VTuple items
               /\ List.length items = List.length args
               /\ slots_accept object name (List.map trait_from args)
                               items w values w'
               /\ r = VTuple values)
    /\ (forall e w',
           TraitTuple.validate (TraitTuple.init trait_from args)
                               object name value w = (Raise e, w')
           -> e = TraitError (Invalid object name value)).
Proof.
  intros World TraitArg trait_from args object name value w.
  split; [reflexivity |].
  rewrite tuple_validate_cases.
  destruct value as [| b | z | f | re im | s | items | items];
    try (split; [intros r w'; split;
                   [discriminate
                   | intros (items' & values & Hv & _); discriminate]
                | intros e w' H; injection H as <- _; reflexivity]).
  destruct (Nat.eqb_spec (List.length items)
                         (List.length (List.map trait_from args)))
    as [Hlen | Hlen].
  - pose proof (fun result w' =>
                  validate_items_accepts
                    object name items (List.map trait_from args)
                    0 [] result w w' Hlen) as Hspec.
    cbn [skipn app] in Hspec.
    destruct (TraitTuple.validate_items object name items 0
                                        (List.map trait_from args) [] w)
      as [[values | e] w1] eqn:Hrun.
    + split.
      * intros r w'. split.
        -- intros H. injection H as <- <-.
           destruct (proj1 (Hspec values w1) eq_refl) as (more & -> & Hacc).
           exists items, more. rewrite length_map in Hlen.
           repeat split; assumption.
        -- intros (items' & values' & Hv & _ & Hacc & ->).
           injection Hv as <-.
           assert (H : (Ok values, w1) = (Ok values', w')).
           { apply Hspec. exists values'. split; [reflexivity | exact Hacc]. }
           injection H as <- <-. reflexivity.
      * intros e w' H. discriminate.
    + split.
      * intros r w'. split; [discriminate |].
        intros (items' & values' & Hv & _ & Hacc & ->).
        injection Hv as <-.
        assert (H : (@Raise (list pyvalue) e, w1) = (Ok values', w')).
        { apply Hspec. exists values'. split; [reflexivity | exact Hacc]. }
        discriminate.
      * intros e' w' H. injection H as <- _. reflexivity.
  - split.
    + intros r w'. split; [discriminate |].
      intros (items' & values' & Hv & _ & Hacc & _). injection Hv as <-.
      exfalso. apply Hlen.
      apply (slots_accept_length _ _ _ _ _ _ _ Hacc).
    + intros e w' H. injection H as <- _. reflexivity.
Qed.

(** C7 at [TraitTuple(rank, suit)]: both slots accept [(5, "H")]. *)
Lemma TraitTuple_validate_slots_witness :
  TraitTuple.validate
    (TraitTuple.init SampleTuple.trait_from
                     [TraitEnum.as_handler SampleTuple.rank;
                      TraitEnum.as_handler SampleTuple.suit])
    Sample.owner "value" (VTuple [VInt 5; VStr "H"]) []
  = (Ok (VTuple [VInt 5; VStr "H"]), []).
Proof.
  destruct (TraitTuple_validate_slots
              Sample.World _ SampleTuple.trait_from
              [TraitEnum.as_handler SampleTuple.rank;
               TraitEnum.as_handler SampleTuple.suit]
              Sample.owner "value" (VTuple [VInt 5; VStr "H"]) [])
    as (_ & Haccept & _).
  apply Haccept. exists [VInt 5; VStr "H"], [VInt 5; VStr "H"].
  split; [reflexivity | split; [reflexivity | split; [| reflexivity]]].
  eapply slots_cons; [reflexivity | reflexivity |].
  eapply slots_cons; [reflexivity | reflexivity |].
  apply slots_nil.
Defined.

(** The card example: [(5, "H")] is accepted; [(5, "Z")] and a tuple of
    three items are rejected. *)
Example TraitTuple_card :
  TraitTuple.validate SampleTuple.card Sample.owner "value"
                      (VTuple [VInt 5; VStr "H"]) []
  = (Ok (VTuple [VInt 5; VStr "H"]), [])
  /\ TraitTuple.validate SampleTuple.card Sample.owner "value"
                         (VTuple [VInt 5; VStr "Z"]) []
     = (Raise (TraitError (Invalid Sample.owner "value"
                                   (VTuple [VInt 5; VStr "Z"]))), [])
  /\ TraitTuple.validate SampleTuple.card Sample.owner "value"
                         (VTuple [VInt 5; VStr "H"; VInt 1]) []
     = (Raise (TraitError (Invalid Sample.owner "value"
                                   (VTuple [VInt 5; VStr "H"; VInt 1]))), []).
Proof. repeat split. Qed.

(** ** TraitList *)

Section ListBounds.
Context {World TraitArg : Type}.
Variable trait_from : TraitArg -> CTrait.t.
Variable TraitListObject :
  TraitList.t -> pyobject -> string -> list pyvalue -> M World pyvalue.

(** The stored minimum length is never negative. *)
Lemma TraitList_init_minlen (trait : TraitArg) (minlen maxlen : Z)
      (has_items : bool) :
  0 <= TraitList.minlen (TraitList.init trait_from trait minlen maxlen
                                        has_items).
Proof. simpl. lia. Qed.

(** The stored maximum length is at least the [minlen] argument; it is
    at least the stored minimum length when that argument is not
    negative. *)
Lemma TraitList_init_maxlen (trait : TraitArg) (minlen maxlen : Z)
      (has_items : bool) :
  minlen <= TraitList.maxlen (TraitList.init trait_from trait minlen maxlen
                                             has_items)
  /\ (0 <= minlen ->
      TraitList.minlen (TraitList.init trait_from trait minlen maxlen
                                       has_items)
      <= TraitList.maxlen (TraitList.init trait_from trait minlen maxlen
                                          has_items)).
Proof. simpl. lia. Qed.

(** A list is passed on to the observable list exactly when its length
    lies within the stored bounds; anything else raises the validation
    error. *)
Lemma TraitList_validate_bounds (self : TraitList.t) (object : pyobject)
      (name : string) (value : pyvalue) (w : World) :
  (forall items,
      value = VList items ->
      TraitList.minlen self <= Z.of_nat (List.length items)
                            <= TraitList.maxlen self ->
      TraitList.validate TraitListObject self object name value w
      = TraitListObject self object name items w)
  /\ ((forall items,
          value = VList items ->
          ~ (TraitList.minlen self <= Z.of_nat (List.length items)
                                   <= TraitList.maxlen self)) ->
      TraitList.validate TraitListObject self object name value w
      = (Raise (TraitError (Invalid object name value)), w)).
Proof.
  unfold TraitList.validate. split.
  - intros items -> [Hlo Hhi].
    apply Z.leb_le in Hlo, Hhi. now rewrite Hlo, Hhi.
  - intros Hout. destruct value; try reflexivity.
    destruct (Z.leb_spec (TraitList.minlen self)
                         (Z.of_nat (List.length items)));
      destruct (Z.leb_spec (Z.of_nat (List.length items))
                           (TraitList.maxlen self));
      try reflexivity.
    exfalso. apply (Hout items eq_refl). lia.
Qed.
End ListBounds.

(** C8, at [TraitList(trait, minlen=-5, maxlen=-3)]: the stored minimum
    length is 0 and the stored maximum length is -3, below the stored
    minimum: [maxlen] is clamped against the [minlen] argument and not
    against the stored, clamped minimum.  No list lies within such
    bounds, so every list is rejected. *)
Theorem TraitList_init_negative_bounds :
  forall (World TraitArg : Type) (trait_from : TraitArg -> CTrait.t)
         (TraitListObject :
            TraitList.t -> pyobject -> string -> list pyvalue ->
            M World pyvalue)
         (trait : TraitArg) (has_items : bool)
         (object : pyobject) (name : string) (items : list pyvalue)
         (w : World),
    TraitList.minlen (TraitList.init trait_from trait (-5) (-3) has_items) = 0
    /\ TraitList.maxlen (TraitList.init trait_from trait (-5) (-3) has_items)
       = -3
    /\ TraitList.validate
         TraitListObject
         (TraitList.init trait_from trait (-5) (-3) has_items)
         object name (VList items) w
       = (Raise (TraitError (Invalid object name (VList items))), w).
Proof.
  intros. split; [reflexivity | split; [reflexivity |]].
  apply TraitList_validate_bounds. intros items' _. simpl. lia.
Qed.

(** ** TraitDict *)

Section StoreLemmas.
Import TraitDict.

Lemma lookup_alloc_old (s : store) (o : handler_object) (r : ref) :
  (r < List.length s)%nat -> lookup (s ++ [o]) r = lookup s r.
Proof. intros H. unfold lookup. now rewrite nth_error_app1. Qed.

Lemma lookup_alloc_new (s : store) (o : handler_object) :
  lookup (s ++ [o]) (List.length s) = Some o.
Proof.
  unfold lookup. rewrite nth_error_app2 by lia.
  now rewrite Nat.sub_diag.
Qed.

Lemma lookup_lt (s : store) (r : ref) (o : handler_object) :
  lookup s r = Some o -> (r < List.length s)%nat.
Proof. intros H. apply nth_error_Some. unfold lookup in H. congruence. Qed.

Lemma update_length (s : store) (r : ref) (o : handler_object) :
  List.length (update s r o) = List.length s.
Proof.
  revert r. induction s as [| x s IH]; intros [| r]; simpl; auto.
Qed.

Lemma lookup_update_same (s : store) (r : ref) (o : handler_object) :
  (r < List.length s)%nat -> lookup (update s r o) r = Some o.
Proof.
  revert r. induction s as [| x s IH]; intros [| r] H; simpl in *;
    try lia; [reflexivity |].
  apply IH. lia.
Qed.

Lemma lookup_update_other (s : store) (r r' : ref) (o : handler_object) :
  r <> r' -> lookup (update s r o) r' = lookup s r'.
Proof.
  revert r r'. induction s as [| x s IH]; intros [| r] [| r'] H; simpl;
    try reflexivity; try congruence.
  apply IH. congruence.
Qed.

Lemma set_has_items_length (s : store) (r : ref) (b : bool) :
  List.length (set_has_items s r b) = List.length s.
Proof.
  unfold set_has_items. destruct (lookup s r); [| reflexivity].
  apply update_length.
Qed.

Lemma set_has_items_other (s : store) (r r' : ref) (b : bool) :
  r <> r' -> lookup (set_has_items s r b) r' = lookup s r'.
Proof.
  intros H. unfold set_has_items. destruct (lookup s r); [| reflexivity].
  now apply lookup_update_other.
Qed.

Lemma set_has_items_same (s : store) (r : ref) (b : bool)
      (o : handler_object) :
  lookup s r = Some o ->
  lookup (set_has_items s r b) r = Some (with_has_items o b).
Proof.
  intros H. unfold set_has_items. rewrite H.
  apply lookup_update_same. eapply lookup_lt; eassumption.
Qed.

Lemma get_with_has_items (o : handler_object) (b : bool) :
  get_has_items (with_has_items o b) = b.
Proof. destruct o; reflexivity. Qed.
End StoreLemmas.

Section DictNew.
Import TraitDict.
Variable TraitArg : Type.
Variable trait_from : TraitArg -> CTrait.t.
Variable ctrait_arg : CTrait.t -> TraitArg.

Lemma new_built (fuel : nat) :
  forall (key_trait value_trait : TraitArg) (has_items : bool)
         (s : store) (r : ref) (s' : store),
    new trait_from ctrait_arg fuel key_trait value_trait has_items s
    = Some (Ok r, s') ->
    built TraitArg trait_from ctrait_arg key_trait value_trait has_items
          s r s'.
Proof.
  induction fuel as [| fuel IH];
    intros key_trait value_trait has_items s r s' Hnew;
    [discriminate |].
  cbn [new] in Hnew.
  destruct (CTrait.handler (trait_from value_trait)) as [h |] eqn:Hh;
    [| discriminate].
  destruct (lookup s h) as [o |] eqn:Ho; [| discriminate].
  destruct (get_has_items o) eqn:Hitems.
  - (* the handler is cloned *)
    destruct o as [l | d0 | b].
    + (* a TraitList *)
      cbn in Hnew. injection Hnew as <- <-.
      set (cloned := ListHandler (TraitList.clone trait_from ctrait_arg l)).
      assert (Hlen : List.length (set_has_items (s ++ [cloned])
                                                (List.length s) false)
                     = S (List.length s)).
      { rewrite set_has_items_length, length_app. simpl. lia. }
      rewrite Hlen.
      split; [| split; [lia |]].
      * intros r0 Hr0. rewrite lookup_alloc_old by lia.
        rewrite set_has_items_other by lia.
        now apply lookup_alloc_old.
      * exists {| TraitDict.key_trait := trait_from key_trait;
                  TraitDict.value_trait := trait_from value_trait;
                  TraitDict.has_items := has_items;
                  value_handler := List.length s |},
               h, (ListHandler l).
        split; [rewrite <- Hlen; apply lookup_alloc_new |].
        do 5 (split; [reflexivity || assumption |]).
        split; [intros; congruence |].
        intros _. split; [cbn; lia |].
        exists (with_has_items cloned false).
        split; [| split; reflexivity].
        cbn [value_handler]. rewrite lookup_alloc_old by lia.
        apply set_has_items_same. apply lookup_alloc_new.
    + (* a TraitDict *)
      destruct (new trait_from ctrait_arg fuel
                    (ctrait_arg (TraitDict.key_trait d0))
                    (ctrait_arg (TraitDict.value_trait d0))
                    (TraitDict.has_items d0) s)
        as [[[c | e] s1] |] eqn:Hclone; try discriminate.
      cbn in Hnew. injection Hnew as <- <-.
      destruct (IH _ _ _ _ _ _ Hclone)
        as (Hframe & Hfresh & d' & h' & o' & Hc & Hk & Hv & Hi & _).
      pose proof (lookup_lt _ _ _ Hc) as Hclt.
      assert (Hlen : List.length (set_has_items s1 c false)
                     = List.length s1)
        by apply set_has_items_length.
      rewrite Hlen.
      split; [| split; [lia |]].
      * intros r0 Hr0. rewrite lookup_alloc_old by lia.
        rewrite set_has_items_other by lia.
        now apply Hframe.
      * exists {| TraitDict.key_trait := trait_from key_trait;
                  TraitDict.value_trait := trait_from value_trait;
                  TraitDict.has_items := has_items;
                  value_handler := c |},
               h, (DictHandler d0).
        split; [rewrite <- Hlen; apply lookup_alloc_new |].
        do 5 (split; [reflexivity || assumption |]).
        split; [intros; congruence |].
        intros _. split; [cbn; lia |].
        exists (with_has_items (DictHandler d') false).
        split; [| split; [reflexivity |]].
        -- cbn [value_handler]. rewrite lookup_alloc_old by lia.
           now apply set_has_items_same.
        -- cbn. repeat split; assumption.
    + discriminate.
  - (* the handler is used as it is *)
    cbn in Hnew. injection Hnew as <- <-.
    split; [| split; [lia |]].
    + intros r0 Hr0. now apply lookup_alloc_old.
    + exists {| TraitDict.key_trait := trait_from key_trait;
                TraitDict.value_trait := trait_from value_trait;
                TraitDict.has_items := has_items;
                value_handler := h |},
             h, o.
      split; [apply lookup_alloc_new |].
      do 5 (split; [reflexivity || assumption |]).
      split; [reflexivity | intros; congruence].
Qed.

(** In a store left by constructions, a construction over a handler
    that defines [clone] when it has items returns, given fuel beyond
    the reference of that handler. *)
Lemma new_returns (fuel : nat) :
  forall (key_trait value_trait : TraitArg) (has_items : bool)
         (s : store) (h : ref) (o : handler_object),
    constructed TraitArg trait_from ctrait_arg s ->
    CTrait.handler (trait_from value_trait) = Some h ->
    lookup s h = Some o ->
    (get_has_items o = true -> has_clone o = true) ->
    (h < fuel)%nat ->
    exists r s',
      new trait_from ctrait_arg fuel key_trait value_trait has_items s
      = Some (Ok r, s').
Proof.
  induction fuel as [| fuel IH];
    intros key_trait value_trait has_items s h o Hs Hh Ho Hclone Hfuel;
    [lia |].
  cbn [new]. rewrite Hh, Ho.
  destruct (get_has_items o) eqn:Hitems.
  - destruct o as [l | d0 | b].
    + cbn. eauto.
    + destruct (Hs h d0 Ho) as (h' & o' & Hh' & Hlt & Ho' & Hclone').
      destruct (IH (ctrait_arg (TraitDict.key_trait d0))
                   (ctrait_arg (TraitDict.value_trait d0))
                   (TraitDict.has_items d0) s h' o' Hs Hh' Ho' Hclone')
        as (c & s1 & ->); [lia |].
      cbn. eauto.
    + specialize (Hclone eq_refl). discriminate.
  - cbn. eauto.
Qed.
End DictNew.

(** [TraitDict(None, TraitCompound(tracked))]: the compound handler has
    items, since [tracked] has, and defines no [clone]; the construction
    raises [AttributeError] at [handler.clone()] and leaves the store as
    it was. *)
Lemma TraitDict_init_value_handler_without_clone :
  TraitDict.get_has_items SampleStore.either_object = true
  /\ has_clone SampleStore.either_object = false
  /\ TraitDict.new SampleStore.trait_from SampleStore.ctrait_arg 1
                   SampleStore.no_handler
                   {| CTrait.handler := Some 0%nat |} true
                   [SampleStore.either_object]
     = Some (Raise AttributeError, [SampleStore.either_object]).
Proof. repeat split. Qed.

(** C9, amended: when the handler of the value trait has items and
    defines [clone] (the container handlers do), the construction returns
    a [TraitDict] whose [value_handler] is a new object, the clone of
    that handler with [has_items] set to [False]; the handler of the
    value trait itself, like every object of the store, is left as it
    was.  When the handler has items and defines no [clone], the
    construction raises [AttributeError] and leaves the store as it
    was. *)
Theorem TraitDict_init_clones_value_handler :
  forall (TraitArg : Type) (trait_from : TraitArg -> CTrait.t)
         (ctrait_arg : CTrait.t -> TraitArg) (fuel : nat)
         (key_trait value_trait : TraitArg) (has_items : bool)
         (s : TraitDict.store) (h : ref) (o : TraitDict.handler_object),
    constructed TraitArg trait_from ctrait_arg s ->
    CTrait.handler (trait_from value_trait) = Some h ->
    TraitDict.lookup s h = Some o ->
    TraitDict.get_has_items o = true ->
    (h < fuel)%nat ->
    (has_clone o = true ->
     exists r s' d c,
       TraitDict.new trait_from ctrait_arg fuel key_trait value_trait
                     has_items s
       = Some (Ok r, s')
       /\ TraitDict.lookup s' r = Some (TraitDict.DictHandler d)
       /\ TraitDict.value_handler d <> h
       /\ TraitDict.lookup s' (TraitDict.value_handler d) = Some c
       /\ TraitDict.get_has_items c = false
       /\ clone_without_items TraitArg trait_from ctrait_arg o c
       /\ TraitDict.lookup s' h = Some o
       /\ (forall r0 o0,
              TraitDict.lookup s r0 = Some o0 ->
              TraitDict.lookup s' r0 = Some o0))
    /\ (has_clone o = false ->
        TraitDict.new trait_from ctrait_arg fuel key_trait value_trait
                      has_items s
        = Some (Raise AttributeError, s)).
Proof.
  intros TraitArg trait_from ctrait_arg fuel key_trait value_trait has_items
         s h o Hs Hh Ho Hitems Hfuel.
  split; intros Hclone.
  - destruct (new_returns TraitArg trait_from ctrait_arg fuel
                          key_trait value_trait has_items s h o
                          Hs Hh Ho (fun _ => Hclone) Hfuel)
      as (r & s' & Hnew).
    destruct (new_built TraitArg trait_from ctrait_arg fuel _ _ _ _ _ _ Hnew)
      as (Hframe & Hfresh & d & h' & o' & Hr & _ & _ & _ & Hh' & Ho' & _
          & Hcloned).
    assert (h' = h) by congruence. subst h'.
    assert (o' = o) by congruence. subst o'.
    destruct (Hcloned Hitems) as (Hnewref & c & Hc & Hcitems & Hcclone).
    pose proof (lookup_lt _ _ _ Ho) as Hlt.
    exists r, s', d, c.
    split; [exact Hnew |].
    split; [exact Hr |].
    split; [lia |].
    split; [exact Hc |].
    split; [exact Hcitems |].
    split; [exact Hcclone |].
    split.
    + rewrite Hframe by exact Hlt. exact Ho.
    + intros r0 o0 H0. rewrite Hframe by (eapply lookup_lt; eassumption).
      exact H0.
  - destruct fuel as [| fuel]; [lia |].
    cbn [TraitDict.new]. rewrite Hh, Ho, Hitems.
    destruct o as [l | d0 | b]; [discriminate | discriminate | reflexivity].
Qed.

(** C9 at a [TraitDict] over the list handler [TraitList(None, 0, 52)]:
    the dict gets the reference 2 and its value handler, the clone without
    items, the reference 1; the list handler at 0 still has items. *)
Lemma TraitDict_init_clones_value_handler_witness :
  exists r s' d c,
    TraitDict.new SampleStore.trait_from SampleStore.ctrait_arg 1
                  SampleStore.no_handler SampleStore.cards_trait true
                  SampleStore.store
    = Some (Ok r, s')
    /\ TraitDict.lookup s' r = Some (TraitDict.DictHandler d)
    /\ TraitDict.value_handler d <> 0%nat
    /\ TraitDict.lookup s' (TraitDict.value_handler d) = Some c
    /\ TraitDict.get_has_items c = false
    /\ clone_without_items CTrait.t SampleStore.trait_from
                           SampleStore.ctrait_arg
                           (TraitDict.ListHandler SampleStore.cards) c
    /\ TraitDict.lookup s' 0%nat
       = Some (TraitDict.ListHandler SampleStore.cards)
    /\ (forall r0 o0,
           TraitDict.lookup SampleStore.store r0 = Some o0 ->
           TraitDict.lookup s' r0 = Some o0).
Proof.
  apply (TraitDict_init_clones_value_handler
           CTrait.t SampleStore.trait_from SampleStore.ctrait_arg 1%nat
           SampleStore.no_handler SampleStore.cards_trait true
           SampleStore.store 0%nat (TraitDict.ListHandler SampleStore.cards)).
  - intros [| [| r]] d H; discriminate H.
  - reflexivity.
  - reflexivity.
  - reflexivity.
  - apply Nat.lt_0_1.
  - reflexivity.
Defined.

(** The same construction, run: the store it leaves. *)
Example TraitDict_over_cards :
  TraitDict.new SampleStore.trait_from SampleStore.ctrait_arg 1
                SampleStore.no_handler SampleStore.cards_trait true
                SampleStore.store
  = Some
      (Ok 2%nat,
       [TraitDict.ListHandler SampleStore.cards;
        TraitDict.ListHandler
          {| TraitList.item_trait := SampleStore.no_handler;
             TraitList.minlen := 0;
             TraitList.maxlen := 52;
             TraitList.has_items := false |};
        TraitDict.DictHandler
          {| TraitDict.key_trait := SampleStore.no_handler;
             TraitDict.value_trait := SampleStore.cards_trait;
             TraitDict.has_items := true;
             TraitDict.value_handler := 1%nat |}]).
Proof. reflexivity. Qed.

(** A [TraitDict] over that [TraitDict]: the inner dict is cloned, which
    clones the list handler once more; the objects at 0, 1 and 2 stay. *)
Example TraitDict_over_dict :
  forall s1,
    TraitDict.new SampleStore.trait_from SampleStore.ctrait_arg 1
                  SampleStore.no_handler SampleStore.cards_trait true
                  SampleStore.store
    = Some (Ok 2%nat, s1) ->
    exists s2,
      TraitDict.new SampleStore.trait_from SampleStore.ctrait_arg 2
                    SampleStore.no_handler
                    {| CTrait.handler := Some 2%nat |} true s1
      = Some (Ok 5%nat, s2)
      /\ firstn 3 s2 = s1
      /\ List.map TraitDict.get_has_items s2
         = [true; false; true; false; false; true].
Proof.
  intros s1 H. rewrite TraitDict_over_cards in H. injection H as <-.
  eexists. repeat split.
Qed.

(** * Further properties *)

(** ** TraitCoerceType and TraitCastType *)

Lemma Sample_call_constructs : constructs Sample.call.
Proof.
  intros T v r. unfold Sample.call.
  destruct T, v; try discriminate.
  destruct (float_of_int z); simpl; [| discriminate].
  intros H. injection H as <-. reflexivity.
Qed.

Lemma widens_to_irrefl (T : pytype) : widens_to T T = false.
Proof. destruct T; reflexivity. Qed.

(** What [TraitCoerceType.validate] returns has exactly the target type,
    and validating it again returns it unchanged. *)
Theorem TraitCoerceType_validate_idempotent :
  forall (call : pytype -> pyvalue -> Res pyvalue)
         (a : TraitCoerceType.arg) (object : pyobject) (name : string)
         (value r : pyvalue),
    constructs call ->
    TraitCoerceType.validate call (TraitCoerceType.init a) object name value
    = Ok r ->
    type_of r = TraitCoerceType.aType (TraitCoerceType.init a)
    /\ TraitCoerceType.validate call (TraitCoerceType.init a) object name r
       = Ok r.
Proof.
  intros call a object name value r Hcall Hv.
  assert (Hty : type_of r = TraitCoerceType.aType (TraitCoerceType.init a)).
  { rewrite coerce_validate_cases in Hv.
    destruct (pytype_eqb (type_of value) _) eqn:E.
    - injection Hv as <-. now apply pytype_eqb_eq.
    - destruct (widens_to (type_of value) _); [| discriminate].
      exact (Hcall _ _ _ Hv). }
  split; [exact Hty |].
  now apply coerce_validate_same.
Qed.

Lemma TraitCoerceType_validate_idempotent_witness :
  type_of (VFloat 0 (binary_normalize 53 1024 180 0 false)) = Tfloat
  /\ TraitCoerceType.validate
       Sample.call (TraitCoerceType.init (TraitCoerceType.OfType Tfloat))
       Sample.owner "weight" (VFloat 0 (binary_normalize 53 1024 180 0 false))
     = Ok (VFloat 0 (binary_normalize 53 1024 180 0 false)).
Proof.
  apply (TraitCoerceType_validate_idempotent
           Sample.call (TraitCoerceType.OfType Tfloat) Sample.owner "weight"
           (VInt 180) _ Sample_call_constructs).
  reflexivity.
Defined.

Section CastCases.
Variable call : pytype -> pyvalue -> Res pyvalue.
Variables (a : TraitCoerceType.arg) (object : pyobject) (name : string).
Variable value : pyvalue.

Lemma cast_validate_cases :
  TraitCastType.validate call (TraitCastType.init a) object name value
  = if pytype_eqb (type_of value) (TraitCastType.aType (TraitCastType.init a))
    then Ok value
    else match call (TraitCastType.aType (TraitCastType.init a)) value with
         | Ok r => Ok r
         | Raise _ => Raise (TraitError (Invalid object name value))
         end.
Proof. reflexivity. Qed.

Lemma cast_coerce_aType :
  TraitCastType.aType (TraitCastType.init a)
  = TraitCoerceType.aType (TraitCoerceType.init a).
Proof. destruct a; reflexivity. Qed.
End CastCases.

(** [TraitCastType.validate] returns a value of the target type as it is,
    without calling the type; any other value is given to the type, and
    whatever that call raises becomes the validation error. *)
Theorem TraitCastType_validate_cases :
  forall (call : pytype -> pyvalue -> Res pyvalue)
         (a : TraitCoerceType.arg) (object : pyobject) (name : string)
         (value : pyvalue),
    (type_of value = TraitCastType.aType (TraitCastType.init a) ->
     TraitCastType.validate call (TraitCastType.init a) object name value
     = Ok value)
    /\ (type_of value <> TraitCastType.aType (TraitCastType.init a) ->
        forall r,
          call (TraitCastType.aType (TraitCastType.init a)) value = Ok r ->
          TraitCastType.validate call (TraitCastType.init a) object name value
          = Ok r)
    /\ (type_of value <> TraitCastType.aType (TraitCastType.init a) ->
        forall e,
          call (TraitCastType.aType (TraitCastType.init a)) value = Raise e ->
          TraitCastType.validate call (TraitCastType.init a) object name value
          = Raise (TraitError (Invalid object name value))).
Proof.
  intros call a object name value. rewrite cast_validate_cases.
  split; [| split].
  - intros ->. now rewrite pytype_eqb_refl.
  - intros Hne r Hr. apply pytype_eqb_neq in Hne. now rewrite Hne, Hr.
  - intros Hne e He. apply pytype_eqb_neq in Hne. now rewrite Hne, He.
Qed.

Lemma TraitCastType_validate_cases_witness :
  TraitCastType.validate
    Sample.call (TraitCastType.init (TraitCoerceType.OfType Tfloat))
    Sample.owner "cweight" (VInt 180)
  = Ok (VFloat 0 (binary_normalize 53 1024 180 0 false))
  /\ TraitCastType.validate
       Sample.call (TraitCastType.init (TraitCoerceType.OfType Tfloat))
       Sample.owner "cweight" (VStr "heavy")
     = Raise (TraitError (Invalid Sample.owner "cweight" (VStr "heavy"))).
Proof.
  split.
  - destruct (TraitCastType_validate_cases
                Sample.call (TraitCoerceType.OfType Tfloat) Sample.owner
                "cweight" (VInt 180)) as (_ & Hcall & _).
    apply Hcall; [discriminate | reflexivity].
  - destruct (TraitCastType_validate_cases
                Sample.call (TraitCoerceType.OfType Tfloat) Sample.owner
                "cweight" (VStr "heavy")) as (_ & _ & Hraise).
    apply (Hraise ltac:(discriminate) TypeError). reflexivity.
Defined.

(** Casting is idempotent: what [TraitCastType.validate] returns has the
    target type and is returned unchanged when validated again. *)
Theorem TraitCastType_validate_idempotent :
  forall (call : pytype -> pyvalue -> Res pyvalue)
         (a : TraitCoerceType.arg) (object : pyobject) (name : string)
         (value r : pyvalue),
    constructs call ->
    TraitCastType.validate call (TraitCastType.init a) object name value
    = Ok r ->
    type_of r = TraitCastType.aType (TraitCastType.init a)
    /\ TraitCastType.validate call (TraitCastType.init a) object name r
       = Ok r.
Proof.
  intros call a object name value r Hcall Hv.
  assert (Hty : type_of r = TraitCastType.aType (TraitCastType.init a)).
  { rewrite cast_validate_cases in Hv.
    destruct (pytype_eqb (type_of value) _) eqn:E.
    - injection Hv as <-. now apply pytype_eqb_eq.
    - destruct (call _ value) as [r' | e] eqn:Hr; [| discriminate].
      injection Hv as <-. exact (Hcall _ _ _ Hr). }
  split; [exact Hty |].
  rewrite cast_validate_cases, Hty, pytype_eqb_refl. reflexivity.
Qed.

Lemma TraitCastType_validate_idempotent_witness :
  type_of (VFloat 0 (binary_normalize 53 1024 180 0 false)) = Tfloat
  /\ TraitCastType.validate
       Sample.call (TraitCastType.init (TraitCoerceType.OfType Tfloat))
       Sample.owner "cweight" (VFloat 0 (binary_normalize 53 1024 180 0 false))
     = Ok (VFloat 0 (binary_normalize 53 1024 180 0 false)).
Proof.
  apply (TraitCastType_validate_idempotent
           Sample.call (TraitCoerceType.OfType Tfloat) Sample.owner "cweight"
           (VInt 180) _ Sample_call_constructs).
  reflexivity.
Defined.

(** Whatever the coercing handler of a type accepts, the casting handler
    of that type accepts with the same result. *)
Theorem TraitCastType_accepts_what_coerce_accepts :
  forall (call : pytype -> pyvalue -> Res pyvalue)
         (a : TraitCoerceType.arg) (object : pyobject) (name : string)
         (value r : pyvalue),
    TraitCoerceType.validate call (TraitCoerceType.init a) object name value
    = Ok r ->
    TraitCastType.validate call (TraitCastType.init a) object name value
    = Ok r.
Proof.
  intros call a object name value r Hv.
  rewrite coerce_validate_cases in Hv.
  rewrite cast_validate_cases, cast_coerce_aType.
  destruct (pytype_eqb (type_of value) _); [exact Hv |].
  destruct (widens_to (type_of value) _); [| discriminate].
  now rewrite Hv.
Qed.

Lemma TraitCastType_accepts_what_coerce_accepts_witness :
  TraitCastType.validate
    Sample.call (TraitCastType.init (TraitCoerceType.OfType Tfloat))
    Sample.owner "weight" (VInt 180)
  = Ok (VFloat 0 (binary_normalize 53 1024 180 0 false)).
Proof.
  apply (TraitCastType_accepts_what_coerce_accepts
           Sample.call (TraitCoerceType.OfType Tfloat) Sample.owner "weight"
           (VInt 180)).
  reflexivity.
Defined.

(** ** TraitEnum *)

(** [TraitEnum.validate] accepts exactly the candidates that are a legal
    value (the same object) or equal ([==]) one, and returns the candidate
    itself; so [1.0] (the float [2^52 * 2^-52]) is accepted by
    [TraitEnum(1, 2, 3)] and returned as the float it is, and a NaN is
    accepted by the [TraitEnum] that holds that very object, although it
    equals nothing, and no other NaN is. *)
Theorem TraitEnum_validate_membership :
  forall (self : TraitEnum.t) (object : pyobject) (name : string)
         (value : pyvalue),
    (forall r,
        TraitEnum.validate self object name value = Ok r
        <-> (exists member,
                In member (TraitEnum.values self)
                /\ same_or_equal member value)
            /\ r = value)
    /\ (forall e,
           TraitEnum.validate self object name value = Raise e ->
           e = TraitError (Invalid object name value))
    /\ TraitEnum.validate (TraitEnum.init [VInt 1; VInt 2; VInt 3])
                          object name
                          (VFloat 0 (S754_finite false 4503599627370496 (-52)))
       = Ok (VFloat 0 (S754_finite false 4503599627370496 (-52)))
    /\ TraitEnum.validate (TraitEnum.init [VFloat 1 S754_nan])
                          object name (VFloat 1 S754_nan)
       = Ok (VFloat 1 S754_nan)
    /\ TraitEnum.validate (TraitEnum.init [VFloat 1 S754_nan])
                          object name (VFloat 2 S754_nan)
       = Raise (TraitError (Invalid object name (VFloat 2 S754_nan))).
Proof.
  intros self object name value. unfold TraitEnum.validate, seq_contains.
  split; [| split; [| repeat split]].
  - intros r. destruct (existsb _ _) eqn:E.
    + apply existsb_exists in E. destruct E as (member & Hin & Heq).
      apply is_or_eq_iff in Heq. split.
      * intros H. injection H as <-. split; [now exists member | reflexivity].
      * intros [_ ->]. reflexivity.
    + split; [discriminate |].
      intros [(member & Hin & Heq) _]. apply is_or_eq_iff in Heq.
      assert (existsb (fun y => is_or_eq y value) (TraitEnum.values self)
              = true) by (apply existsb_exists; now exists member).
      congruence.
  - intros e. destruct (existsb _ _); [discriminate |].
    intros H. injection H as <-. reflexivity.
Qed.

Lemma star_values_plain (l : list pyvalue) :
  (forall x, l = [x] -> type_in (type_of x) SequenceTypes = false) ->
  star_values l = l.
Proof.
  intros H. destruct l as [| x [| y l]]; try reflexivity.
  unfold star_values. now rewrite (H x eq_refl).
Qed.

(** The legal values may be given as one list or tuple: [TraitEnum([a, b,
    ...])] and [TraitEnum((a, b, ...))] are [TraitEnum(a, b, ...)], unless
    the values are themselves one single list or tuple. *)
Theorem TraitEnum_init_sequence_argument :
  forall (l : list pyvalue),
    (forall x, l = [x] -> type_in (type_of x) SequenceTypes = false) ->
    TraitEnum.init [VList l] = TraitEnum.init l
    /\ TraitEnum.init [VTuple l] = TraitEnum.init l
    /\ TraitEnum.values (TraitEnum.init l) = l.
Proof.
  intros l H. unfold TraitEnum.init.
  rewrite (star_values_plain l H). repeat split.
Qed.

Lemma TraitEnum_init_sequence_argument_witness :
  TraitEnum.init [VList [VStr "white"; VStr "yellow"; VStr "red"]]
  = TraitEnum.init [VStr "white"; VStr "yellow"; VStr "red"]
  /\ TraitEnum.init [VTuple [VStr "white"; VStr "yellow"; VStr "red"]]
     = TraitEnum.init [VStr "white"; VStr "yellow"; VStr "red"]
  /\ TraitEnum.values
       (TraitEnum.init [VStr "white"; VStr "yellow"; VStr "red"])
     = [VStr "white"; VStr "yellow"; VStr "red"].
Proof.
  apply (TraitEnum_init_sequence_argument
           [VStr "white"; VStr "yellow"; VStr "red"]).
  intros x H. discriminate H.
Defined.

(** ** TraitPrefixList: the cache *)

Lemma py_eq_str_l (s : string) (v : pyvalue) :
  py_eq (VStr s) v = true -> v = VStr s.
Proof.
  destruct v; simpl; try discriminate.
  intros H. apply String.eqb_eq in H. now subst.
Qed.

Lemma py_eq_str_r (v : pyvalue) (s : string) :
  py_eq v (VStr s) = true -> v = VStr s.
Proof.
  destruct v as [| b | z | f | re im | t | l | l]; simpl;
    try discriminate.
  intros H. apply String.eqb_eq in H. now subst.
Qed.

Lemma py_eq_non_str (v : pyvalue) (s : string) :
  (forall t, v <> VStr t) -> py_eq v (VStr s) = false.
Proof.
  intros H. destruct (py_eq v (VStr s)) eqn:E; [| reflexivity].
  apply py_eq_str_r in E. congruence.
Qed.

Lemma substring_whole (s : string) : substring 0 (String.length s) s = s.
Proof. induction s as [| c s IH]; simpl; [reflexivity | now rewrite IH]. Qed.

Section StringKeyed.
Lemma dict_find_in (d : dict) (s : string) (v : pyvalue) :
  dict_find d (VStr s) = Some v -> In (VStr s, v) d.
Proof.
  induction d as [| [k' v'] d IH]; simpl; [discriminate |].
  destruct (is_or_eq k' (VStr s)) eqn:E.
  - intros H. injection H as <-. apply is_or_eq_str_r in E. subst. now left.
  - intros H. right. now apply IH.
Qed.

Lemma dict_find_non_str (d : dict) (v : pyvalue) :
  str_keys d -> (forall t, v <> VStr t) -> dict_find d v = None.
Proof.
  intros Hd Hv. induction d as [| [k' v'] d IH]; simpl; [reflexivity |].
  destruct (Hd k' v' (or_introl eq_refl)) as [s ->].
  destruct (is_or_eq (VStr s) v) eqn:E.
  - apply is_or_eq_str_l in E. congruence.
  - apply IH. intros k x Hin. apply (Hd k x). now right.
Qed.

Lemma dict_store_find (d : dict) (s0 s : string) (v0 : pyvalue) :
  str_keys d ->
  dict_find (dict_store d (VStr s0) v0) (VStr s)
  = if String.eqb s0 s then Some v0 else dict_find d (VStr s).
Proof.
  intros Hd. induction d as [| [k' v'] d IH]; simpl.
  - now rewrite is_or_eq_str.
  - destruct (Hd k' v' (or_introl eq_refl)) as [s' ->].
    assert (Hd' : str_keys d).
    { intros k x Hin. apply (Hd k x). now right. }
    specialize (IH Hd'). rewrite is_or_eq_str.
    destruct (String.eqb_spec s' s0) as [-> | Hne]; simpl;
      rewrite ?is_or_eq_str.
    + destruct (String.eqb s0 s); reflexivity.
    + rewrite IH. destruct (String.eqb_spec s' s) as [-> | Hne'].
      * destruct (String.eqb_spec s0 s); [congruence | reflexivity].
      * reflexivity.
Qed.

Lemma dict_store_in (d : dict) (k0 v0 k v : pyvalue) :
  In (k, v) (dict_store d k0 v0) ->
  In (k, v) d \/ (v = v0 /\ is_or_eq k k0 = true) \/ (k = k0 /\ v = v0).
Proof.
  induction d as [| [k' v'] d IH]; simpl.
  - intros [H | []]. injection H as <- <-. right. right. now split.
  - destruct (is_or_eq k' k0) eqn:E; simpl.
    + intros [H | H].
      * injection H as <- <-. right. left. now split.
      * left. now right.
    + intros [H | H].
      * left. now left.
      * destruct (IH H) as [Hin | Hnew]; [left; now right | now right].
Qed.
End StringKeyed.

Lemma prefix_cache_str_keys (strs : list string) (cache : dict) :
  prefix_cache_ok strs cache -> str_keys cache.
Proof.
  intros [_ H] k v Hin. destruct (H k v Hin) as (s & t & -> & _).
  now exists s.
Qed.

Lemma prefix_matches_in (s key : string) (strs : list string) :
  In key (prefix_matches s strs) ->
  In key strs /\ substring 0 (String.length s) key = s.
Proof.
  unfold prefix_matches. rewrite filter_In. intros [Hin Heq].
  apply String.eqb_eq in Heq. split; [exact Hin | now symmetry].
Qed.

Lemma star_values_strings (strs : list string) :
  star_values (List.map VStr strs) = List.map VStr strs.
Proof. destruct strs as [| s [| t strs]]; reflexivity. Qed.

(** The filling of the cache by the constructor, over strings. *)
Lemma fill_strings (strs all : list string) :
  forall (d : dict),
    (forall k v,
        In (k, v) d ->
        exists s t,
          k = VStr s /\ v = VStr t /\ In t all
          /\ substring 0 (String.length s) t = s) ->
    (forall s, In s strs -> In s all) ->
    (forall s, In s all -> In s strs \/ dict_find d (VStr s) = Some (VStr s))
    ->
    exists d',
      TraitPrefixList.fill (List.map VStr strs) d = Ok d'
      /\ prefix_cache_ok all d'.
Proof.
  induction strs as [| s0 strs IH]; intros d Hd Hsub Hcov; simpl.
  - exists d. split; [reflexivity | split; [| exact Hd]].
    intros s Hs. destruct (Hcov s Hs) as [[] | H]. exact H.
  - unfold dict_setitem. simpl hashable. cbv iota. simpl res_bind.
    assert (Hkeys : str_keys d).
    { intros k v Hin. destruct (Hd k v Hin) as (s & _ & -> & _).
      now exists s. }
    apply IH.
    + intros k v Hin.
      destruct (dict_store_in _ _ _ _ _ Hin) as [Hold | [[-> Hk] | [-> ->]]].
      * now apply Hd.
      * apply is_or_eq_str_r in Hk. subst k.
        exists s0, s0. repeat split; [| apply substring_whole].
        apply Hsub. now left.
      * exists s0, s0. repeat split; [| apply substring_whole].
        apply Hsub. now left.
    + intros s Hs. apply Hsub. now right.
    + intros s Hs. rewrite dict_store_find by exact Hkeys.
      destruct (String.eqb_spec s0 s) as [-> | Hne]; [now right |].
      destruct (Hcov s Hs) as [[-> | H] | H];
        [congruence | now left | now right].
Qed.

Lemma prefix_init_strings (strs : list string) :
  exists self,
    TraitPrefixList.init (List.map VStr strs) = Ok self
    /\ TraitPrefixList.values self = List.map VStr strs
    /\ prefix_cache_ok strs (TraitPrefixList.values_ self).
Proof.
  unfold TraitPrefixList.init. rewrite star_values_strings.
  destruct (fill_strings strs strs []) as (d & -> & Hok).
  - intros k v [].
  - auto.
  - intros s Hs. now left.
  - eexists. split; [reflexivity |]. split; [reflexivity | exact Hok].
Qed.

Section PrefixListCases.
Variables (self : TraitPrefixList.t) (strs : list string).
Variables (object : pyobject) (name : string).
Hypothesis Hvalues : TraitPrefixList.values self = List.map VStr strs.

(** [validate] on a string, with the [try] resolved. *)
Lemma prefix_validate_string (s : string) :
  TraitPrefixList.validate self object name (VStr s)
  = match dict_find (TraitPrefixList.values_ self) (VStr s) with
    | Some r => (Ok r, self)
    | None =>
        match prefix_matches s strs with
        | [key] =>
            (Ok (VStr key),
             TraitPrefixList.with_cache
               self (dict_store (TraitPrefixList.values_ self)
                                (VStr s) (VStr key)))
        | _ => (Raise (TraitError (Invalid object name (VStr s))), self)
        end
    end.
Proof.
  unfold TraitPrefixList.validate, dict_contains, dict_getitem, dict_setitem.
  simpl hashable. cbv iota.
  destruct (dict_find (TraitPrefixList.values_ self) (VStr s)) as [r |] eqn:E;
    [reflexivity |].
  rewrite Hvalues. simpl py_len. cbv iota. rewrite scan_unique.
  destruct (prefix_matches s strs) as [| key [| k2 rest]]; try reflexivity.
  now rewrite dict_find_store_same.
Qed.

(** [validate] on anything but a string, when the keys of the cache are
    strings. *)
Lemma prefix_validate_non_string (value : pyvalue) :
  str_keys (TraitPrefixList.values_ self) ->
  (forall t, value <> VStr t) ->
  TraitPrefixList.validate self object name value
  = (Raise (TraitError (Invalid object name value)), self).
Proof.
  intros Hkeys Hv.
  unfold TraitPrefixList.validate, dict_contains.
  destruct (hashable value); [| reflexivity].
  rewrite (dict_find_non_str _ _ Hkeys Hv).
  destruct (py_len value) as [n | e]; [| reflexivity].
  assert (Hscan : forall keys m,
             TraitPrefixList.scan value n (List.map VStr keys) m = Ok m).
  { induction keys as [| key keys IH]; intros m; simpl; [reflexivity |].
    rewrite (py_eq_non_str _ _ Hv). apply IH. }
  rewrite Hvalues, Hscan. reflexivity.
Qed.

Lemma prefix_validate_keeps_values (value : pyvalue) :
  TraitPrefixList.values
    (snd (TraitPrefixList.validate self object name value))
  = TraitPrefixList.values self.
Proof.
  unfold TraitPrefixList.validate.
  repeat match goal with
         | |- context [match ?x with _ => _ end] => destruct x
         end; reflexivity.
Qed.

Lemma prefix_validate_keeps_cache_ok (value : pyvalue) :
  prefix_cache_ok strs (TraitPrefixList.values_ self) ->
  prefix_cache_ok
    strs
    (TraitPrefixList.values_
       (snd (TraitPrefixList.validate self object name value))).
Proof.
  intros Hok. pose proof (prefix_cache_str_keys _ _ Hok) as Hkeys.
  assert (Hcase : (exists s, value = VStr s) \/ forall t, value <> VStr t).
  { destruct value; try (right; intros t; discriminate). left. now eexists. }
  destruct Hcase as [[s ->] | Hv].
  2: { now rewrite prefix_validate_non_string. }
  rewrite prefix_validate_string.
  destruct (dict_find _ (VStr s)) as [r |] eqn:E; [exact Hok |].
  destruct (prefix_matches s strs) as [| key [| k2 rest]] eqn:Hm;
    try exact Hok.
  destruct (prefix_matches_in s key strs) as [Hin Hpre];
    [rewrite Hm; now left |].
  simpl. split.
  - intros s0 Hs0. rewrite dict_store_find by exact Hkeys.
    destruct (String.eqb_spec s s0) as [-> | Hne].
    + rewrite (proj1 Hok s0 Hs0) in E. discriminate.
    + now apply Hok.
  - intros k v Hkv.
    destruct (dict_store_in _ _ _ _ _ Hkv) as [Hold | [[-> Hk] | [-> ->]]].
    + now apply Hok.
    + apply is_or_eq_str_r in Hk. subst k. now exists s, key.
    + now exists s, key.
Qed.

Lemma prefix_validate_result (value r : pyvalue) (self' : TraitPrefixList.t) :
  prefix_cache_ok strs (TraitPrefixList.values_ self) ->
  TraitPrefixList.validate self object name value = (Ok r, self') ->
  exists s t,
    value = VStr s /\ r = VStr t /\ In t strs
    /\ substring 0 (String.length s) t = s
    /\ dict_find (TraitPrefixList.values_ self') (VStr s) = Some (VStr t).
Proof.
  intros Hok Hv. pose proof (prefix_cache_str_keys _ _ Hok) as Hkeys.
  assert (Hcase : (exists s, value = VStr s) \/ forall t, value <> VStr t).
  { destruct value; try (right; intros t; discriminate). left. now eexists. }
  destruct Hcase as [[s ->] | Hne].
  2: { rewrite prefix_validate_non_string in Hv by assumption. discriminate. }
  rewrite prefix_validate_string in Hv.
  destruct (dict_find _ (VStr s)) as [r0 |] eqn:E.
  - injection Hv as <- <-.
    destruct (proj2 Hok _ _ (dict_find_in _ _ _ E))
      as (s1 & t & Hs & -> & Hin & Hpre).
    injection Hs as <-. now exists s, t.
  - destruct (prefix_matches s strs) as [| key [| k2 rest]] eqn:Hm;
      try discriminate.
    injection Hv as <- <-.
    destruct (prefix_matches_in s key strs) as [Hin Hpre];
      [rewrite Hm; now left |].
    exists s, key. repeat split; try assumption.
    simpl. rewrite dict_store_find by exact Hkeys.
    now rewrite String.eqb_refl.
Qed.
End PrefixListCases.

Lemma married_cache_ok :
  prefix_cache_ok ["yes"; "no"]
                  (TraitPrefixList.values_ SamplePrefix.married).
Proof.
  destruct (prefix_init_strings ["yes"; "no"]) as (self & Hinit & _ & Hok).
  injection Hinit as <-. exact Hok.
Qed.

Lemma nested_cache_ok :
  prefix_cache_ok ["ab"; "abc"]
                  (TraitPrefixList.values_ SamplePrefix2.nested).
Proof.
  destruct (prefix_init_strings ["ab"; "abc"]) as (self & Hinit & _ & Hok).
  injection Hinit as <-. exact Hok.
Qed.

(** The constructor over strings leaves the cache in order (every legal
    string stands for itself), and [validate] keeps the legal values and
    keeps the cache in order, whatever the candidate: every cached
    candidate is a string cached with a legal string it is a prefix of. *)
Theorem TraitPrefixList_cache_invariant :
  forall (strs : list string),
    (exists self,
        TraitPrefixList.init (List.map VStr strs) = Ok self
        /\ TraitPrefixList.values self = List.map VStr strs
        /\ prefix_cache_ok strs (TraitPrefixList.values_ self))
    /\ (forall self object name value,
           TraitPrefixList.values self = List.map VStr strs ->
           prefix_cache_ok strs (TraitPrefixList.values_ self) ->
           TraitPrefixList.values
             (snd (TraitPrefixList.validate self object name value))
           = List.map VStr strs
           /\ prefix_cache_ok
                strs
                (TraitPrefixList.values_
                   (snd (TraitPrefixList.validate self object name value)))).
Proof.
  intros strs. split; [apply prefix_init_strings |].
  intros self object name value Hvalues Hok. split.
  - now rewrite prefix_validate_keeps_values.
  - now apply prefix_validate_keeps_cache_ok.
Qed.

(** Whatever [validate] accepts is a string, and what it returns is a
    legal value that the candidate is a prefix of. *)
Theorem TraitPrefixList_validate_returns_legal_value :
  forall (self self' : TraitPrefixList.t) (strs : list string)
         (object : pyobject) (name : string) (value r : pyvalue),
    TraitPrefixList.values self = List.map VStr strs ->
    prefix_cache_ok strs (TraitPrefixList.values_ self) ->
    TraitPrefixList.validate self object name value = (Ok r, self') ->
    exists s t,
      value = VStr s /\ r = VStr t /\ In t strs
      /\ substring 0 (String.length s) t = s.
Proof.
  intros self self' strs object name value r Hvalues Hok Hv.
  destruct (prefix_validate_result self strs object name Hvalues
                                   value r self' Hok Hv)
    as (s & t & H1 & H2 & H3 & H4 & _).
  now exists s, t.
Qed.

Lemma TraitPrefixList_validate_returns_legal_value_witness :
  exists s t,
    VStr "ye" = VStr s /\ VStr "yes" = VStr t /\ In t ["yes"; "no"]
    /\ substring 0 (String.length s) t = s.
Proof.
  apply (TraitPrefixList_validate_returns_legal_value
           SamplePrefix.married
           (TraitPrefixList.with_cache
              SamplePrefix.married
              (dict_store (TraitPrefixList.values_ SamplePrefix.married)
                          (VStr "ye") (VStr "yes")))
           ["yes"; "no"] Sample.owner "married" (VStr "ye") (VStr "yes")
           eq_refl married_cache_ok eq_refl).
Defined.

(** Resolution is idempotent and stable: once [validate] has returned
    [r] for a candidate, validating [r], or the candidate again, returns
    [r] and leaves the handler as it is. *)
Theorem TraitPrefixList_validate_idempotent :
  forall (self self' : TraitPrefixList.t) (strs : list string)
         (object : pyobject) (name : string) (value r : pyvalue),
    TraitPrefixList.values self = List.map VStr strs ->
    prefix_cache_ok strs (TraitPrefixList.values_ self) ->
    TraitPrefixList.validate self object name value = (Ok r, self') ->
    TraitPrefixList.validate self' object name r = (Ok r, self')
    /\ TraitPrefixList.validate self' object name value = (Ok r, self').
Proof.
  intros self self' strs object name value r Hvalues Hok Hv.
  destruct (prefix_validate_result self strs object name Hvalues
                                   value r self' Hok Hv)
    as (s & t & -> & -> & Hin & _ & Hcached).
  assert (Hself' : self' = snd (TraitPrefixList.validate
                                  self object name (VStr s)))
    by now rewrite Hv.
  assert (Hvalues' : TraitPrefixList.values self' = List.map VStr strs).
  { rewrite Hself', prefix_validate_keeps_values. exact Hvalues. }
  assert (Hok' : prefix_cache_ok strs (TraitPrefixList.values_ self')).
  { rewrite Hself'. now apply prefix_validate_keeps_cache_ok. }
  split.
  - rewrite (prefix_validate_string self' strs object name Hvalues' t).
    now rewrite (proj1 Hok' t Hin).
  - rewrite (prefix_validate_string self' strs object name Hvalues' s).
    now rewrite Hcached.
Qed.

Lemma TraitPrefixList_validate_idempotent_witness :
  TraitPrefixList.validate
    (TraitPrefixList.with_cache
       SamplePrefix.married
       (dict_store (TraitPrefixList.values_ SamplePrefix.married)
                   (VStr "ye") (VStr "yes")))
    Sample.owner "married" (VStr "yes")
  = (Ok (VStr "yes"),
     TraitPrefixList.with_cache
       SamplePrefix.married
       (dict_store (TraitPrefixList.values_ SamplePrefix.married)
                   (VStr "ye") (VStr "yes")))
  /\ TraitPrefixList.validate
       (TraitPrefixList.with_cache
          SamplePrefix.married
          (dict_store (TraitPrefixList.values_ SamplePrefix.married)
                      (VStr "ye") (VStr "yes")))
       Sample.owner "married" (VStr "ye")
     = (Ok (VStr "yes"),
        TraitPrefixList.with_cache
          SamplePrefix.married
          (dict_store (TraitPrefixList.values_ SamplePrefix.married)
                      (VStr "ye") (VStr "yes"))).
Proof.
  apply (TraitPrefixList_validate_idempotent
           SamplePrefix.married _ ["yes"; "no"] Sample.owner "married"
           (VStr "ye") (VStr "yes") eq_refl married_cache_ok eq_refl).
Defined.

(** A legal value is always accepted as itself, also when it is a prefix
    of another legal value, and the handler is left as it is. *)
Theorem TraitPrefixList_validate_legal_value :
  forall (self : TraitPrefixList.t) (strs : list string)
         (object : pyobject) (name : string) (s : string),
    TraitPrefixList.values self = List.map VStr strs ->
    prefix_cache_ok strs (TraitPrefixList.values_ self) ->
    In s strs ->
    TraitPrefixList.validate self object name (VStr s) = (Ok (VStr s), self).
Proof.
  intros self strs object name s Hvalues Hok Hin.
  rewrite (prefix_validate_string self strs object name Hvalues s).
  now rewrite (proj1 Hok s Hin).
Qed.

(** ["ab"] is accepted by [TraitPrefixList("ab", "abc")] although it is a
    prefix of both values. *)
Lemma TraitPrefixList_validate_legal_value_witness :
  TraitPrefixList.validate SamplePrefix2.nested Sample.owner "x" (VStr "ab")
  = (Ok (VStr "ab"), SamplePrefix2.nested).
Proof.
  apply (TraitPrefixList_validate_legal_value
           SamplePrefix2.nested ["ab"; "abc"] Sample.owner "x" "ab"
           eq_refl nested_cache_ok).
  now left.
Defined.

(** A candidate that is not a string (a number, [None], a tuple, a list)
    is rejected with the validation error, and the cache is untouched. *)
Theorem TraitPrefixList_validate_rejects_non_strings :
  forall (self : TraitPrefixList.t) (strs : list string)
         (object : pyobject) (name : string) (value : pyvalue),
    TraitPrefixList.values self = List.map VStr strs ->
    prefix_cache_ok strs (TraitPrefixList.values_ self) ->
    type_of value <> Tstr ->
    TraitPrefixList.validate self object name value
    = (Raise (TraitError (Invalid object name value)), self).
Proof.
  intros self strs object name value Hvalues Hok Hty.
  apply (prefix_validate_non_string self strs object name Hvalues).
  - exact (prefix_cache_str_keys _ _ Hok).
  - intros t ->. now apply Hty.
Qed.

Lemma TraitPrefixList_validate_rejects_non_strings_witness :
  TraitPrefixList.validate SamplePrefix.married Sample.owner "married"
                           (VTuple [VStr "y"])
  = (Raise (TraitError (Invalid Sample.owner "married" (VTuple [VStr "y"]))),
     SamplePrefix.married).
Proof.
  apply (TraitPrefixList_validate_rejects_non_strings
           SamplePrefix.married ["yes"; "no"] Sample.owner "married"
           (VTuple [VStr "y"]) eq_refl married_cache_ok).
  discriminate.
Defined.

(** ** TraitMap and TraitPrefixMap: validation and the shadow value *)

Lemma dict_getitem_key (d : dict) (v : pyvalue) :
  is_key d v -> exists mapped, dict_getitem d v = Ok mapped.
Proof.
  intros [Hh Hex]. unfold dict_getitem. rewrite Hh.
  apply dict_find_some in Hex. destruct Hex as [x ->]. now exists x.
Qed.

(** A value that [TraitMap.validate] accepts has a mapped value, so the
    hook can then fail only because the write fails: it is the write of
    the mapped value to [name + "_"] whenever that write succeeds. *)
Theorem TraitMap_validated_value_is_mappable :
  forall (self : TraitMap.t) (object : pyobject) (name : string)
         (value r : pyvalue),
    TraitMap.validate self object name value = Ok r ->
    exists mapped,
      TraitMap.mapped_value self r = Ok mapped
      /\ forall (World : Type)
                (setattr : pyobject -> string -> pyvalue -> M World unit)
                (w : World),
          is_ok (fst (setattr object (name ++ "_")%string mapped w)) = true ->
          TraitMap.post_setattr setattr self object name r w
          = setattr object (name ++ "_")%string mapped w.
Proof.
  intros self object name value r Hv.
  assert (Hkey : is_key (TraitMap.map self) value /\ r = value).
  { unfold TraitMap.validate in Hv.
    destruct (dict_contains (TraitMap.map self) value) as [[|] | e] eqn:E;
      try discriminate.
    injection Hv as <-. split; [now apply dict_contains_is_key | reflexivity]. }
  destruct Hkey as [Hkey ->].
  destruct (dict_getitem_key _ _ Hkey) as [mapped Hm].
  exists mapped. split; [exact Hm |].
  intros World setattr w Hok.
  rewrite map_post_setattr_cases. unfold TraitMap.mapped_value. rewrite Hm.
  destruct (setattr object (name ++ "_")%string mapped w) as [[u | e] w'];
    [reflexivity | discriminate].
Qed.

Lemma TraitMap_validated_value_is_mappable_witness :
  exists mapped,
    TraitMap.mapped_value SampleMap.married (VStr "no") = Ok mapped
    /\ forall (World : Type)
              (setattr : pyobject -> string -> pyvalue -> M World unit)
              (w : World),
        is_ok (fst (setattr Sample.owner ("married" ++ "_")%string mapped w))
        = true ->
        TraitMap.post_setattr setattr SampleMap.married Sample.owner
                              "married" (VStr "no") w
        = setattr Sample.owner ("married" ++ "_")%string mapped w.
Proof.
  apply (TraitMap_validated_value_is_mappable
           SampleMap.married Sample.owner "married" (VStr "no") (VStr "no")).
  reflexivity.
Defined.

Section PrefixMapCases.
Variables (self : TraitPrefixMap.t) (object : pyobject) (name : string).
Variable value : pyvalue.

(** [TraitPrefixMap.validate] is [TraitPrefixList.validate] over the
    keys of the map. *)
Lemma prefix_map_validate_as_list :
  fst (TraitPrefixMap.validate self object name value)
  = fst (TraitPrefixList.validate (as_prefix_list self) object name value)
  /\ as_prefix_list (snd (TraitPrefixMap.validate self object name value))
     = snd (TraitPrefixList.validate (as_prefix_list self) object name value)
  /\ TraitPrefixMap.map (snd (TraitPrefixMap.validate self object name value))
     = TraitPrefixMap.map self.
Proof.
  unfold TraitPrefixMap.validate, TraitPrefixList.validate.
  cbn [as_prefix_list TraitPrefixList.values TraitPrefixList.values_].
  repeat match goal with
         | |- context [match ?x with _ => _ end] => destruct x
         end;
    (split; [reflexivity | split; reflexivity]).
Qed.
End PrefixMapCases.

Section PrefixMapPostSetattr.
Context {World : Type}.
Variable setattr : pyobject -> string -> pyvalue -> M World unit.

Lemma prefix_map_post_setattr_cases (self : TraitPrefixMap.t)
      (object : pyobject) (name : string) (value : pyvalue) (w : World) :
  TraitPrefixMap.post_setattr setattr self object name value w
  = match TraitPrefixMap.mapped_value self value with
    | Ok mapped =>
        match setattr object (name ++ "_")%string mapped w with
        | (Ok u, w') => (Ok u, w')
        | (Raise _, w') => (Raise TraitMap.Unmappable, w')
        end
    | Raise _ => (Raise TraitMap.Unmappable, w)
    end.
Proof.
  unfold TraitPrefixMap.post_setattr, catch_all, bind, lift, raise.
  destruct (TraitPrefixMap.mapped_value self value) as [mapped | e];
    [| reflexivity].
  destruct (setattr object (name ++ "_")%string mapped w) as [[u | e] w'];
    reflexivity.
Qed.
End PrefixMapPostSetattr.

Lemma keys_in (d : dict) (k : pyvalue) :
  In k (TraitPrefixMap.keys d) -> exists x, In (k, x) d.
Proof.
  unfold TraitPrefixMap.keys. rewrite in_map_iff.
  intros ([k' x] & <- & Hin). now exists x.
Qed.

Lemma prefix_map_init_strings (d : dict) (strs : list string) :
  TraitPrefixMap.keys d = List.map VStr strs ->
  exists self,
    TraitPrefixMap.init d = Ok self
    /\ TraitPrefixMap.map self = d
    /\ prefix_cache_ok strs (TraitPrefixMap._map self).
Proof.
  intros Hkeys. unfold TraitPrefixMap.init. rewrite Hkeys.
  destruct (fill_strings strs strs []) as (c & -> & Hok).
  - intros k v [].
  - auto.
  - intros s Hs. now left.
  - eexists. split; [reflexivity |]. split; [reflexivity | exact Hok].
Qed.

Lemma boolean_map_cache_ok :
  prefix_cache_ok ["true"; "yes"; "false"; "no"]
                  (TraitPrefixMap._map SamplePrefix2.boolean_map).
Proof.
  destruct (prefix_map_init_strings SamplePrefix2.boolean_dict
                                    ["true"; "yes"; "false"; "no"] eq_refl)
    as (self & Hinit & _ & Hok).
  injection Hinit as <-. exact Hok.
Qed.

(** [TraitPrefixMap.validate] resolves a candidate exactly as the
    [TraitPrefixList] over the keys of the map does: the same result, the
    same cache afterwards, and the map is never changed. *)
Theorem TraitPrefixMap_validate_as_TraitPrefixList :
  forall (self : TraitPrefixMap.t) (object : pyobject) (name : string)
         (value : pyvalue),
    fst (TraitPrefixMap.validate self object name value)
    = fst (TraitPrefixList.validate (as_prefix_list self) object name value)
    /\ TraitPrefixMap._map
         (snd (TraitPrefixMap.validate self object name value))
       = TraitPrefixList.values_
           (snd (TraitPrefixList.validate (as_prefix_list self)
                                          object name value))
    /\ TraitPrefixMap.map
         (snd (TraitPrefixMap.validate self object name value))
       = TraitPrefixMap.map self.
Proof.
  intros self object name value.
  destruct (prefix_map_validate_as_list self object name value)
    as (Hr & Hs & Hm).
  split; [exact Hr | split; [| exact Hm]].
  rewrite <- Hs. reflexivity.
Qed.

(** For a map with string keys, what [TraitPrefixMap.validate] returns is
    a key of the map that the candidate is a prefix of; it has a mapped
    value, and the hook run on it is the write of that mapped value to
    [name + "_"] whenever the write succeeds. *)
Theorem TraitPrefixMap_validated_value_is_mappable :
  forall (self self' : TraitPrefixMap.t) (strs : list string)
         (object : pyobject) (name : string) (value r : pyvalue),
    TraitPrefixMap.keys (TraitPrefixMap.map self) = List.map VStr strs ->
    prefix_cache_ok strs (TraitPrefixMap._map self) ->
    TraitPrefixMap.validate self object name value = (Ok r, self') ->
    exists s t mapped,
      value = VStr s /\ r = VStr t
      /\ substring 0 (String.length s) t = s
      /\ In (VStr t) (TraitPrefixMap.keys (TraitPrefixMap.map self'))
      /\ TraitPrefixMap.mapped_value self' r = Ok mapped
      /\ forall (World : Type)
                (setattr : pyobject -> string -> pyvalue -> M World unit)
                (w : World),
          is_ok (fst (setattr object (name ++ "_")%string mapped w)) = true ->
          TraitPrefixMap.post_setattr setattr self' object name r w
          = setattr object (name ++ "_")%string mapped w.
Proof.
  intros self self' strs object name value r Hkeys Hok Hv.
  destruct (prefix_map_validate_as_list self object name value)
    as (Hr & Hs & Hm).
  rewrite Hv in Hr, Hs, Hm. simpl in Hr, Hs, Hm.
  destruct (TraitPrefixList.validate (as_prefix_list self) object name value)
    as [r0 pl'] eqn:Hpl.
  simpl in Hr, Hs. subst r0 pl'.
  destruct (prefix_validate_result (as_prefix_list self) strs object name
                                   Hkeys value r _ Hok Hpl)
    as (s & t & -> & -> & Hin & Hpre & _).
  assert (Hkey : In (VStr t) (TraitPrefixMap.keys (TraitPrefixMap.map self'))).
  { rewrite Hm, Hkeys. now apply in_map. }
  assert (Hmapped : exists mapped,
             TraitPrefixMap.mapped_value self' (VStr t) = Ok mapped).
  { unfold TraitPrefixMap.mapped_value. apply dict_getitem_key.
    split; [reflexivity |].
    destruct (keys_in _ _ Hkey) as [x Hx].
    exists (VStr t), x. split; [exact Hx | now left]. }
  destruct Hmapped as [mapped Hmapped].
  exists s, t, mapped.
  repeat (split; [reflexivity || assumption |]).
  intros World setattr w Hw.
  rewrite prefix_map_post_setattr_cases, Hmapped.
  destruct (setattr object (name ++ "_")%string mapped w) as [[u | e] w'];
    [reflexivity | discriminate].
Qed.

(** ["f"] resolves to ["false"] in the boolean map, which maps to 0. *)
Lemma TraitPrefixMap_validated_value_is_mappable_witness :
  exists s t mapped,
    VStr "f" = VStr s /\ VStr "false" = VStr t
    /\ substring 0 (String.length s) t = s
    /\ In (VStr t)
          (TraitPrefixMap.keys
             (TraitPrefixMap.map
                (snd (TraitPrefixMap.validate
                        SamplePrefix2.boolean_map Sample.owner "flag"
                        (VStr "f")))))
    /\ TraitPrefixMap.mapped_value
         (snd (TraitPrefixMap.validate
                 SamplePrefix2.boolean_map Sample.owner "flag" (VStr "f")))
         (VStr "false")
       = Ok mapped
    /\ forall (World : Type)
              (setattr : pyobject -> string -> pyvalue -> M World unit)
              (w : World),
        is_ok (fst (setattr Sample.owner ("flag" ++ "_")%string mapped w))
        = true ->
        TraitPrefixMap.post_setattr
          setattr
          (snd (TraitPrefixMap.validate
                  SamplePrefix2.boolean_map Sample.owner "flag" (VStr "f")))
          Sample.owner "flag" (VStr "false") w
        = setattr Sample.owner ("flag" ++ "_")%string mapped w.
Proof.
  apply (TraitPrefixMap_validated_value_is_mappable
           SamplePrefix2.boolean_map _ ["true"; "yes"; "false"; "no"]
           Sample.owner "flag" (VStr "f") (VStr "false")
           eq_refl boolean_map_cache_ok eq_refl).
Defined.

(** The boolean map of the class documentation: the prefixes resolve to
    the keys, ["t"] to ["true"], and an ambiguous or unknown candidate is
    rejected. *)
Example TraitPrefixMap_boolean :
  TraitPrefixMap.init SamplePrefix2.boolean_dict
  = Ok SamplePrefix2.boolean_map
  /\ List.map
       (fun s => fst (TraitPrefixMap.validate
                        SamplePrefix2.boolean_map Sample.owner "flag"
                        (VStr s)))
       ["t"; "y"; "fa"; "no"; ""; "maybe"]
     = [Ok (VStr "true"); Ok (VStr "yes"); Ok (VStr "false"); Ok (VStr "no");
        Raise (TraitError (Invalid Sample.owner "flag" (VStr "")));
        Raise (TraitError (Invalid Sample.owner "flag" (VStr "maybe")))].
Proof. split; reflexivity. Qed.

(** ** TraitCompound: construction *)

Section CompoundMore.
Context {World : Type}.

Lemma loop_mapped_handlers (handlers : list (TraitHandler.Handler World))
      (s : @TraitCompound.loop_state World) :
  TraitCompound.l_mapped_handlers
    (fold_left TraitCompound.loop_body handlers s)
  = TraitCompound.l_mapped_handlers s
    ++ filter (@TraitHandler.is_mapped World) handlers.
Proof.
  revert s. induction handlers as [| h rest IH]; intros s; simpl.
  - now rewrite app_nil_r.
  - rewrite IH. simpl. destruct (TraitHandler.is_mapped h); simpl;
      [now rewrite <- app_assoc | reflexivity].
Qed.

Lemma loop_fast_validates (handlers : list (TraitHandler.Handler World))
      (s : @TraitCompound.loop_state World) :
  TraitCompound.l_fast_validates
    (fold_left TraitCompound.loop_body handlers s)
  = TraitCompound.l_fast_validates s ++ flat_map fast_items handlers.
Proof.
  revert s. induction handlers as [| h rest IH]; intros s; simpl.
  - now rewrite app_nil_r.
  - rewrite IH. simpl. unfold fast_items, is_complex.
    destruct (TraitHandler.fast_validate h) as [fv |]; simpl;
      [| reflexivity].
    destruct (ValidateTrait.eqb (fv_kind fv) ValidateTrait.complex);
      now rewrite <- app_assoc.
Qed.

Lemma init_handlers (a : @TraitCompound.args World) :
  TraitCompound.handlers (TraitCompound.init a) = handlers_of a.
Proof. destruct a; reflexivity. Qed.

Lemma init_fast_validate (a : @TraitCompound.args World) :
  TraitCompound.fast_validate (TraitCompound.init a)
  = match flat_map fast_items (handlers_of a) with
    | [] => None
    | _ :: _ =>
        Some (FV ValidateTrait.complex
                 (flat_map fast_items (handlers_of a)
                  ++ if forallb has_fast_validate (handlers_of a)
                     then []
                     else [FV ValidateTrait.slow []]))
    end.
Proof.
  assert (Hslow : forall hs : list (TraitHandler.Handler World),
             (0 <? List.length
                     (List.map (@TraitHandler.validate World)
                               (filter (fun h => negb (has_fast_validate h))
                                       hs)))%nat
             = negb (forallb has_fast_validate hs)).
  { induction hs as [| h hs IH]; simpl; [reflexivity |].
    destruct (has_fast_validate h); simpl; [exact IH | reflexivity]. }
  destruct a as [hs | hs]; simpl; unfold TraitCompound.loop;
    destruct (loop_from hs TraitCompound.loop_start) as (_ & Hs & _);
    rewrite Hs, (loop_fast_validates hs TraitCompound.loop_start);
    simpl; rewrite Hslow;
    destruct (flat_map fast_items hs); simpl; try reflexivity;
    destruct (forallb has_fast_validate hs); simpl;
    rewrite ?app_nil_r; reflexivity.
Qed.
End CompoundMore.

(** Running [set_validate] again on a compound whose handlers have not
    changed leaves every attribute as it is. *)
Theorem TraitCompound_set_validate_idempotent :
  forall (World : Type) (self : @TraitCompound.t World),
    TraitCompound.set_validate (TraitCompound.set_validate self)
    = TraitCompound.set_validate self.
Proof.
  intros World self. unfold TraitCompound.set_validate.
  cbn [TraitCompound.handlers TraitCompound.post_setattrs].
  destruct (0 <? List.length
                   (TraitCompound.l_post_setattrs
                      (TraitCompound.loop (TraitCompound.handlers self))))%nat;
    reflexivity.
Qed.

(** After construction [has_items] holds exactly when some handler has
    items, and [mapped_handlers] is present exactly when the compound is
    mapped, and then lists the mapped handlers in the order given. *)
Theorem TraitCompound_has_items_and_mapped_handlers :
  forall (World : Type) (a : @TraitCompound.args World),
    (TraitCompound.has_items (TraitCompound.init a) = true
     <-> exists h, In h (handlers_of a) /\ TraitHandler.has_items h = true)
    /\ (TraitCompound.is_mapped (TraitCompound.init a) = true ->
        TraitCompound.mapped_handlers (TraitCompound.init a)
        = Some (filter (@TraitHandler.is_mapped World) (handlers_of a)))
    /\ (TraitCompound.is_mapped (TraitCompound.init a) = false ->
        TraitCompound.mapped_handlers (TraitCompound.init a) = None).
Proof.
  intros World a.
  destruct (init_flags a) as (Hm & _ & Hi).
  split; [| split].
  - rewrite Hi, existsb_exists. reflexivity.
  - intros H.
    destruct a as [hs | hs]; simpl in *; unfold TraitCompound.loop in *;
      rewrite H, (loop_mapped_handlers hs TraitCompound.loop_start);
      reflexivity.
  - intros H.
    destruct a as [hs | hs]; simpl in *; unfold TraitCompound.loop in *;
      rewrite H; reflexivity.
Qed.

Lemma TraitCompound_has_items_and_mapped_handlers_witness :
  TraitCompound.mapped_handlers
    (TraitCompound.init
       (TraitCompound.Star
          [TraitEnum.as_handler SampleCompound.letters;
           TraitMap.as_handler SampleCompound.setattr_int
                               SampleMap.married]))
  = Some (filter (@TraitHandler.is_mapped Sample.World)
                 [TraitEnum.as_handler SampleCompound.letters;
                  TraitMap.as_handler SampleCompound.setattr_int
                                      SampleMap.married])
  /\ TraitCompound.mapped_handlers SampleCompound.plain = None.
Proof.
  split.
  - apply (TraitCompound_has_items_and_mapped_handlers
             Sample.World
             (TraitCompound.Star
                [TraitEnum.as_handler SampleCompound.letters;
                 TraitMap.as_handler SampleCompound.setattr_int
                                     SampleMap.married])).
    reflexivity.
  - apply (TraitCompound_has_items_and_mapped_handlers
             Sample.World
             (TraitCompound.Star
                [TraitEnum.as_handler SampleCompound.letters])).
    reflexivity.
Defined.

(** The merged fast validator.  The compound has one exactly when its
    handlers contribute an item; it is then a [complex] validator holding
    the items of the handlers in the order given, the items of a nested
    [complex] validator spliced in, followed by one [slow] item exactly
    when some handler has no fast validator.  When the fast validators of
    the handlers are flat, so is the merged one: it nests no [complex]
    validator. *)
Theorem TraitCompound_fast_validate_merged :
  forall (World : Type) (a : @TraitCompound.args World),
    (TraitCompound.fast_validate (TraitCompound.init a) = None
     <-> flat_map fast_items (handlers_of a) = [])
    /\ (forall fv,
           TraitCompound.fast_validate (TraitCompound.init a) = Some fv ->
           fv = FV ValidateTrait.complex
                   (flat_map fast_items (handlers_of a)
                    ++ if forallb has_fast_validate (handlers_of a)
                       then []
                       else [FV ValidateTrait.slow []]))
    /\ ((forall h fv,
            In h (handlers_of a) ->
            TraitHandler.fast_validate h = Some fv -> flat fv = true) ->
        forall fv,
          TraitCompound.fast_validate (TraitCompound.init a) = Some fv ->
          flat fv = true).
Proof.
  intros World a. rewrite init_fast_validate.
  split; [| split].
  - destruct (flat_map fast_items (handlers_of a)); split;
      try reflexivity; discriminate.
  - intros fv.
    destruct (flat_map fast_items (handlers_of a)); [discriminate |].
    intros H. injection H as <-. reflexivity.
  - intros Hflat fv.
    destruct (flat_map fast_items (handlers_of a)) as [| x l] eqn:E;
      [discriminate |].
    rewrite <- E. clear E x l.
    intros H. injection H as <-.
    unfold flat at 1. simpl. rewrite forallb_app. apply andb_true_iff. split.
    + apply forallb_forall. intros item Hin.
      apply in_flat_map in Hin. destruct Hin as (h & Hh & Hitem).
      unfold fast_items in Hitem.
      destruct (TraitHandler.fast_validate h) as [fv |] eqn:Hfv; [| easy].
      specialize (Hflat h fv Hh Hfv). unfold flat in Hflat.
      destruct (is_complex fv) eqn:Hc.
      * rewrite forallb_forall in Hflat. now apply Hflat.
      * destruct Hitem as [<- | []]. now rewrite Hc.
    + destruct (forallb has_fast_validate (handlers_of a)); reflexivity.
Qed.

Lemma TraitCompound_fast_validate_merged_witness :
  flat (FV ValidateTrait.complex
           [FV ValidateTrait.map []; FV ValidateTrait.map []]) = true.
Proof.
  destruct (TraitCompound_fast_validate_merged
              Sample.World
              (TraitCompound.Star
                 [TraitCompound.as_handler SampleCompound.setattr_int
                                           SampleCompound.inner;
                  TraitMap.as_handler SampleCompound.setattr_int
                                      SampleMap.undecided]))
    as (_ & _ & Hflat).
  apply Hflat; [| reflexivity].
  intros h fv [<- | [<- | []]] H; injection H as <-; reflexivity.
Defined.

(** ** TraitCompound: nesting *)

Section CompoundNesting.
Context {World A : Type}.

(** A chain that ends in a raised [TraitError], followed by [k], is the
    chain that ends in [k]. *)
Lemma catch_chain_nested (calls : list (M World A))
      (args : trait_error_args) (k : M World A) (w : World) :
  catch_trait (fold_right catch_trait (lift (Raise (TraitError args))) calls)
              k w
  = fold_right catch_trait k calls w.
Proof.
  revert w. induction calls as [| call calls IH]; intros w; simpl.
  - reflexivity.
  - unfold catch_trait at 1 2 4.
    destruct (call w) as [[x | e] w1]; [reflexivity |].
    destruct e; try reflexivity.
    apply IH.
Qed.
End CompoundNesting.

Lemma filter_all {A : Type} (f : A -> bool) (l : list A) :
  (forall x, In x l -> f x = true) ->
  filter f l = l /\ filter (fun x => negb (f x)) l = [].
Proof.
  induction l as [| x l IH]; intros H; simpl; [split; reflexivity |].
  rewrite (H x (or_introl eq_refl)). simpl.
  destruct IH as [-> ->]; [| split; reflexivity].
  intros y Hy. apply H. now right.
Qed.

(** Nesting does not change validation: when all the handlers of a
    compound expose a fast validator (and so does the compound), using
    the compound as the first handler of another compound validates as
    the compound of all the handlers does. *)
Theorem TraitCompound_validate_nested :
  forall (World : Type)
         (setattr : pyobject -> string -> pyvalue -> M World unit)
         (inner rest : list (TraitHandler.Handler World))
         (object : pyobject) (name : string) (value : pyvalue) (w : World),
    (forall h, In h inner -> has_fast_validate h = true) ->
    TraitCompound.fast_validate
      (TraitCompound.init (TraitCompound.Star inner)) <> None ->
    TraitCompound.validate
      (TraitCompound.init
         (TraitCompound.Star
            (TraitCompound.as_handler
               setattr (TraitCompound.init (TraitCompound.Star inner))
             :: rest)))
      object name value w
    = TraitCompound.validate
        (TraitCompound.init (TraitCompound.Star (inner ++ rest)))
        object name value w.
Proof.
  intros World setattr inner rest object name value w Hfast Hfv.
  rewrite !compound_validate_fold. unfold try_order, validate_calls.
  cbn [handlers_of].
  destruct (filter_all has_fast_validate inner Hfast) as [Hf Hs].
  rewrite !filter_app, Hf, Hs.
  cbn [filter app].
  assert (Hin : has_fast_validate
                  (TraitCompound.as_handler
                     setattr (TraitCompound.init (TraitCompound.Star inner)))
                = true).
  { unfold has_fast_validate. cbn [TraitCompound.as_handler
                                      TraitHandler.fast_validate].
    destruct (TraitCompound.fast_validate
                (TraitCompound.init (TraitCompound.Star inner)));
      [reflexivity | congruence]. }
  rewrite Hin. cbn [negb app List.map fold_right].
  cbn [TraitCompound.as_handler TraitHandler.validate].
  rewrite (compound_validate_fold object name value
                                  (TraitCompound.Star inner)).
  unfold try_order, validate_calls. cbn [handlers_of].
  rewrite Hf, Hs, app_nil_r.
  rewrite !List.map_app, !fold_right_app.
  exact (catch_chain_nested _ (Invalid object name value) _ w).
Qed.

Lemma TraitCompound_validate_nested_witness :
  TraitCompound.validate
    (TraitCompound.init
       (TraitCompound.Star
          [TraitCompound.as_handler
             SampleCompound.setattr_int
             (TraitCompound.init
                (TraitCompound.Star
                   [SampleCompound2.rejecting true;
                    TraitEnum.as_handler SampleCompound.letters]));
           SampleCompound.constant true (VInt 2)]))
    Sample.owner "x" (VStr "c") []
  = TraitCompound.validate
      (TraitCompound.init
         (TraitCompound.Star
            ([SampleCompound2.rejecting true;
              TraitEnum.as_handler SampleCompound.letters]
             ++ [SampleCompound.constant true (VInt 2)])))
      Sample.owner "x" (VStr "c") [].
Proof.
  apply (TraitCompound_validate_nested
           Sample.World SampleCompound.setattr_int
           [SampleCompound2.rejecting true;
            TraitEnum.as_handler SampleCompound.letters]
           [SampleCompound.constant true (VInt 2)]
           Sample.owner "x" (VStr "c") []).
  - intros h [<- | [<- | []]]; reflexivity.
  - discriminate.
Defined.

(** When a handler of the nested compound has no fast validator the
    order does change: the nested compound tries it before the handlers
    that follow the compound, the flat compound after them. *)
Example TraitCompound_nested_slow_handler :
  TraitCompound.validate
    (TraitCompound.init
       (TraitCompound.Star
          [TraitCompound.as_handler
             SampleCompound.setattr_int
             (TraitCompound.init
                (TraitCompound.Star
                   [SampleCompound2.rejecting true;
                    SampleCompound.constant false (VInt 1)]));
           SampleCompound.constant true (VInt 2)]))
    Sample.owner "x" VNone []
  = (Ok (VInt 1), [(Sample.owner, "x", VNone)])
  /\ TraitCompound.validate
       (TraitCompound.init
          (TraitCompound.Star
             [SampleCompound2.rejecting true;
              SampleCompound.constant false (VInt 1);
              SampleCompound.constant true (VInt 2)]))
       Sample.owner "x" VNone []
     = (Ok (VInt 2), [(Sample.owner, "x", VNone)]).
Proof. split; reflexivity. Qed.

(** ** TraitTuple: the first failing slot *)

Section TupleAbort.
Context {World : Type}.
Variables (object : pyobject) (name : string).

(** The loop over slots that accept their items. *)
Lemma validate_items_accepted
      (types : list (@TraitTuple.ctrait World)) (items values : list pyvalue)
      (w w1 : World) :
  slots_accept object name types items w values w1 ->
  forall (value : list pyvalue) (i : nat)
         (rest : list (@TraitTuple.ctrait World)) (acc : list pyvalue),
    (forall j,
        (j < List.length items)%nat ->
        nth_error value (i + j) = nth_error items j) ->
    TraitTuple.validate_items object name value i (types ++ rest) acc w
    = TraitTuple.validate_items object name value
                                (i + List.length types) rest
                                (acc ++ values) w1.
Proof.
  induction 1 as [w | type types item items h v values w w1 w2 Hh Hv _ IH];
    intros value i rest acc Hnth.
  - simpl. now rewrite Nat.add_0_r, app_nil_r.
  - cbn [app TraitTuple.validate_items List.length]. rewrite Hh.
    pose proof (Hnth 0%nat ltac:(simpl; lia)) as H0.
    rewrite Nat.add_0_r in H0. simpl in H0. rewrite H0.
    unfold bind. rewrite Hv.
    rewrite (IH value (S i) rest (acc ++ [v])).
    + rewrite <- app_assoc. cbn [app].
      replace (i + S (List.length types))%nat
        with (S i + List.length types)%nat by lia.
      reflexivity.
    + intros j Hj. specialize (Hnth (S j) ltac:(simpl; lia)).
      cbn [nth_error] in Hnth.
      replace (S i + j)%nat with (i + S j)%nat by lia. exact Hnth.
Qed.
End TupleAbort.

(** [validate] stops at the first slot that raises: when the slots before
    it accept their items and the handler of the next slot raises (a
    [TraitError] or anything else), the slots after it are not run;
    [validate] raises the validation error, in the world that failing
    handler leaves. *)
Theorem TraitTuple_validate_stops_at_failure :
  forall (World : Type) (self : @TraitTuple.t World)
         (before after : list (@TraitTuple.ctrait World))
         (type : @TraitTuple.ctrait World)
         (h : TraitHandler.Handler World)
         (items_before items_after accepted : list pyvalue)
         (item : pyvalue) (object : pyobject) (name : string)
         (w w1 w2 : World) (e : exn),
    TraitTuple.types self = before ++ type :: after ->
    List.length items_after = List.length after ->
    slots_accept object name before items_before w accepted w1 ->
    TraitTuple.handler type = Some h ->
    TraitHandler.validate h object name item w1 = (Raise e, w2) ->
    TraitTuple.validate self object name
                        (VTuple (items_before ++ item :: items_after)) w
    = (Raise (TraitError
                (Invalid object name
                         (VTuple (items_before ++ item :: items_after)))),
       w2).
Proof.
  intros World self before after type h items_before items_after accepted
         item object name w w1 w2 e Htypes Hafter Hacc Hh Hraise.
  destruct (slots_accept_length _ _ _ _ _ _ _ Hacc) as [Hlen _].
  unfold TraitTuple.validate, TraitTuple.validate_try, catch_all, bind, ret,
    lift, TraitHandler.error.
  rewrite Htypes, !length_app. cbn [List.length].
  rewrite Hlen, Hafter, Nat.eqb_refl.
  rewrite (validate_items_accepted
             object name before items_before accepted w w1 Hacc
             (items_before ++ item :: items_after) 0 (type :: after) []).
  - cbn [TraitTuple.validate_items plus]. rewrite Hh.
    rewrite <- Hlen, nth_error_app2, Nat.sub_diag by lia.
    cbn [nth_error]. unfold bind. rewrite Hraise. reflexivity.
  - intros j Hj. simpl. now apply nth_error_app1.
Qed.

(** [(5, "Z", 7)] given to three slots: the second slot rejects ["Z"] and
    the third is not run (the world counts one call only). *)
Lemma TraitTuple_validate_stops_at_failure_witness :
  TraitTuple.validate
    (TraitTuple.init SampleTuple.trait_from
                     [TraitEnum.as_handler SampleTuple.rank;
                      SampleCompound2.rejecting true;
                      SampleCompound2.rejecting true])
    Sample.owner "value"
    (VTuple ([VInt 5] ++ VStr "Z" :: [VInt 7])) []
  = (Raise (TraitError
              (Invalid Sample.owner "value"
                       (VTuple ([VInt 5] ++ VStr "Z" :: [VInt 7])))),
     [(Sample.owner, "value", VStr "Z")]).
Proof.
  apply (TraitTuple_validate_stops_at_failure
           Sample.World _
           [SampleTuple.trait_from (TraitEnum.as_handler SampleTuple.rank)]
           [SampleTuple.trait_from (SampleCompound2.rejecting true)]
           (SampleTuple.trait_from (SampleCompound2.rejecting true))
           (SampleCompound2.rejecting true)
           [VInt 5] [VInt 7] [VInt 5] (VStr "Z") Sample.owner "value"
           [] [] [(Sample.owner, "value", VStr "Z")]
           (TraitError (Invalid Sample.owner "value" (VStr "Z")))).
  - reflexivity.
  - reflexivity.
  - eapply slots_cons; [reflexivity | reflexivity | apply slots_nil].
  - reflexivity.
  - reflexivity.
Defined.

(** ** TraitList: validation and cloning *)

(** [TraitList.validate] hands a list to the observable list exactly when
    its length lies within the stored bounds; a list outside the bounds
    and anything that is not a list (a tuple included) raises the
    validation error and leaves the world as it is. *)
Theorem TraitList_validate_within_bounds :
  forall (World : Type)
         (TraitListObject :
            TraitList.t -> pyobject -> string -> list pyvalue ->
            M World pyvalue)
         (self : TraitList.t) (object : pyobject) (name : string)
         (value : pyvalue) (w : World),
    (forall items,
        value = VList items ->
        TraitList.minlen self <= Z.of_nat (List.length items)
                              <= TraitList.maxlen self ->
        TraitList.validate TraitListObject self object name value w
        = TraitListObject self object name items w)
    /\ (forall items,
           value = VList items ->
           ~ (TraitList.minlen self <= Z.of_nat (List.length items)
                                    <= TraitList.maxlen self) ->
           TraitList.validate TraitListObject self object name value w
           = (Raise (TraitError (Invalid object name value)), w))
    /\ (type_of value <> Tlist ->
        TraitList.validate TraitListObject self object name value w
        = (Raise (TraitError (Invalid object name value)), w)).
Proof.
  intros World TraitListObject self object name value w.
  destruct (TraitList_validate_bounds TraitListObject self object name value w)
    as [Hin Hout].
  split; [exact Hin | split].
  - intros items -> Hno. apply Hout. intros items' H. now injection H as <-.
  - intros Hty. apply Hout. intros items ->. now elim Hty.
Qed.

(** Cloning a constructed [TraitList] keeps the stored minimum and the
    flag, and gives bounds that are in order; it keeps the stored maximum
    when the [minlen] argument of the original was not negative, and
    otherwise raises a maximum that was below the stored minimum. *)
Theorem TraitList_clone_bounds :
  forall (TraitArg : Type) (trait_from : TraitArg -> CTrait.t)
         (ctrait_arg : CTrait.t -> TraitArg) (trait : TraitArg)
         (minlen maxlen : Z) (has_items : bool),
    TraitList.minlen
      (TraitList.clone trait_from ctrait_arg
                       (TraitList.init trait_from trait minlen maxlen
                                       has_items))
    = TraitList.minlen (TraitList.init trait_from trait minlen maxlen
                                       has_items)
    /\ TraitList.has_items
         (TraitList.clone trait_from ctrait_arg
                          (TraitList.init trait_from trait minlen maxlen
                                          has_items))
       = has_items
    /\ 0 <= TraitList.minlen
              (TraitList.clone trait_from ctrait_arg
                               (TraitList.init trait_from trait minlen maxlen
                                               has_items))
         <= TraitList.maxlen
              (TraitList.clone trait_from ctrait_arg
                               (TraitList.init trait_from trait minlen maxlen
                                               has_items))
    /\ TraitList.maxlen
         (TraitList.clone trait_from ctrait_arg
                          (TraitList.init trait_from trait minlen maxlen
                                          has_items))
       = Z.max 0 (TraitList.maxlen
                    (TraitList.init trait_from trait minlen maxlen has_items))
    /\ (0 <= minlen ->
        TraitList.maxlen
          (TraitList.clone trait_from ctrait_arg
                           (TraitList.init trait_from trait minlen maxlen
                                           has_items))
        = TraitList.maxlen
            (TraitList.init trait_from trait minlen maxlen has_items)).
Proof.
  intros. unfold TraitList.clone, TraitList.init.
  cbn [TraitList.minlen TraitList.maxlen TraitList.has_items
       TraitList.item_trait].
  repeat split; try reflexivity; lia.
Qed.

(** The clone of [TraitList(None, 0, 52)] keeps the maximum 52. *)
Lemma TraitList_clone_bounds_witness :
  TraitList.maxlen
    (TraitList.clone SampleStore.trait_from SampleStore.ctrait_arg
                     SampleStore.cards)
  = TraitList.maxlen SampleStore.cards.
Proof.
  destruct (TraitList_clone_bounds
              CTrait.t SampleStore.trait_from SampleStore.ctrait_arg
              SampleStore.no_handler 0 52 true) as (_ & _ & _ & _ & Hmax).
  apply Hmax. discriminate.
Defined.

(** The clone of [TraitList(None, -5, -3)], whose stored bounds are
    [0 .. -3], has the bounds [0 .. 0]: it accepts the empty list, which
    the original rejects. *)
Example TraitList_clone_of_negative_bounds :
  TraitList.minlen
    (TraitList.clone SampleStore.trait_from SampleStore.ctrait_arg
                     (TraitList.init SampleStore.trait_from
                                     SampleStore.no_handler (-5) (-3) true))
  = 0
  /\ TraitList.maxlen
       (TraitList.clone SampleStore.trait_from SampleStore.ctrait_arg
                        (TraitList.init SampleStore.trait_from
                                        SampleStore.no_handler (-5) (-3) true))
     = 0.
Proof. split; reflexivity. Qed.

(** ** TraitDict: the store *)

Section DictFrame.
Variable TraitArg : Type.
Variable trait_from : TraitArg -> CTrait.t.
Variable ctrait_arg : CTrait.t -> TraitArg.

(** Whatever a construction does, it only adds objects to the store. *)
Lemma new_frame (fuel : nat) :
  forall (key_trait value_trait : TraitArg) (has_items : bool)
         (s s' : TraitDict.store) (result : Res ref),
    TraitDict.new trait_from ctrait_arg fuel key_trait value_trait
                  has_items s
    = Some (result, s') ->
    (List.length s <= List.length s')%nat
    /\ forall r0,
        (r0 < List.length s)%nat ->
        TraitDict.lookup s' r0 = TraitDict.lookup s r0.
Proof.
  induction fuel as [| fuel IH];
    intros key_trait value_trait has_items s s' result Hnew;
    [discriminate |].
  cbn [TraitDict.new] in Hnew.
  destruct (CTrait.handler (trait_from value_trait)) as [h |].
  2: { injection Hnew as <- <-. split; [lia | reflexivity]. }
  destruct (TraitDict.lookup s h) as [o |]; [| discriminate].
  destruct (TraitDict.get_has_items o).
  - destruct o as [l | d0 | b].
    + cbn in Hnew. injection Hnew as <- <-.
      rewrite length_app, set_has_items_length, length_app.
      cbn [List.length]. split; [lia |].
      intros r0 Hr0.
      rewrite lookup_alloc_old
        by (rewrite set_has_items_length, length_app; simpl; lia).
      rewrite set_has_items_other by lia.
      now apply lookup_alloc_old.
    + destruct (TraitDict.new trait_from ctrait_arg fuel _ _ _ s)
        as [[[c | e] s1] |] eqn:Hclone; try discriminate.
      * cbn in Hnew. injection Hnew as <- <-.
        destruct (IH _ _ _ _ _ _ Hclone) as [Hlen Hframe].
        destruct (new_built TraitArg trait_from ctrait_arg fuel
                            _ _ _ _ _ _ Hclone) as (_ & Hfresh & _).
        rewrite length_app, set_has_items_length. cbn [List.length].
        split; [lia |].
        intros r0 Hr0.
        rewrite lookup_alloc_old by (rewrite set_has_items_length; lia).
        rewrite set_has_items_other by lia.
        now apply Hframe.
      * injection Hnew as <- <-. apply (IH _ _ _ _ _ _ Hclone).
    + injection Hnew as <- <-. split; [lia | reflexivity].
  - cbn in Hnew. injection Hnew as <- <-.
    rewrite length_app. cbn [List.length]. split; [lia |].
    intros r0 Hr0. now apply lookup_alloc_old.
Qed.
End DictFrame.

(** A construction of a [TraitDict] never changes or removes a handler
    object that exists, whether it returns or raises: the store only
    grows. *)
Theorem TraitDict_init_only_adds_objects :
  forall (TraitArg : Type) (trait_from : TraitArg -> CTrait.t)
         (ctrait_arg : CTrait.t -> TraitArg) (fuel : nat)
         (key_trait value_trait : TraitArg) (has_items : bool)
         (s s' : TraitDict.store) (result : Res ref),
    TraitDict.new trait_from ctrait_arg fuel key_trait value_trait
                  has_items s
    = Some (result, s') ->
    (List.length s <= List.length s')%nat
    /\ forall r0 o0,
        TraitDict.lookup s r0 = Some o0 -> TraitDict.lookup s' r0 = Some o0.
Proof.
  intros TraitArg trait_from ctrait_arg fuel key_trait value_trait has_items
         s s' result Hnew.
  destruct (new_frame TraitArg trait_from ctrait_arg fuel _ _ _ _ _ _ Hnew)
    as [Hlen Hframe].
  split; [exact Hlen |].
  intros r0 o0 H0. rewrite Hframe by (eapply lookup_lt; eassumption).
  exact H0.
Qed.

(** A construction that raises: the value trait names a handler that has
    items and defines no [clone]. *)
Lemma TraitDict_init_only_adds_objects_witness :
  (List.length [TraitDict.OtherHandler true]
   <= List.length [TraitDict.OtherHandler true])%nat
  /\ forall r0 o0,
      TraitDict.lookup [TraitDict.OtherHandler true] r0 = Some o0 ->
      TraitDict.lookup [TraitDict.OtherHandler true] r0 = Some o0.
Proof.
  apply (TraitDict_init_only_adds_objects
           CTrait.t SampleStore.trait_from SampleStore.ctrait_arg 1%nat
           SampleStore.no_handler SampleStore.cards_trait true
           [TraitDict.OtherHandler true] [TraitDict.OtherHandler true]
           (Raise AttributeError)).
  reflexivity.
Defined.

(** When the handler of the value trait has no items it is not cloned:
    the new [TraitDict] refers to that very object as its
    [value_handler], and the store gains the [TraitDict] only. *)
Theorem TraitDict_init_shares_handler_without_items :
  forall (TraitArg : Type) (trait_from : TraitArg -> CTrait.t)
         (ctrait_arg : CTrait.t -> TraitArg) (fuel : nat)
         (key_trait value_trait : TraitArg) (has_items : bool)
         (s : TraitDict.store) (h : ref) (o : TraitDict.handler_object),
    CTrait.handler (trait_from value_trait) = Some h ->
    TraitDict.lookup s h = Some o ->
    TraitDict.get_has_items o = false ->
    TraitDict.new trait_from ctrait_arg (S fuel) key_trait value_trait
                  has_items s
    = Some (Ok (List.length s),
            s ++ [TraitDict.DictHandler
                    {| TraitDict.key_trait := trait_from key_trait;
                       TraitDict.value_trait := trait_from value_trait;
                       TraitDict.has_items := has_items;
                       TraitDict.value_handler := h |}]).
Proof.
  intros TraitArg trait_from ctrait_arg fuel key_trait value_trait has_items
         s h o Hh Ho Hitems.
  cbn [TraitDict.new]. rewrite Hh, Ho, Hitems. reflexivity.
Qed.

Lemma TraitDict_init_shares_handler_without_items_witness :
  TraitDict.new SampleStore.trait_from SampleStore.ctrait_arg 1
                SampleStore.no_handler SampleStore.cards_trait true
                [TraitDict.OtherHandler false]
  = Some (Ok 1%nat,
          [TraitDict.OtherHandler false]
          ++ [TraitDict.DictHandler
                {| TraitDict.key_trait := SampleStore.no_handler;
                   TraitDict.value_trait := SampleStore.cards_trait;
                   TraitDict.has_items := true;
                   TraitDict.value_handler := 0%nat |}]).
Proof.
  apply (TraitDict_init_shares_handler_without_items
           CTrait.t SampleStore.trait_from SampleStore.ctrait_arg 0%nat
           SampleStore.no_handler SampleStore.cards_trait true
           [TraitDict.OtherHandler false] 0%nat (TraitDict.OtherHandler false));
    reflexivity.
Defined.

(** Cloning a [TraitDict] of a constructed store returns a new
    [TraitDict] object with the key trait, the value trait and the flag of
    the original (the traits as [trait_from] gives them back), and leaves
    every object of the store, the original included, as it was. *)
Theorem TraitDict_clone_is_a_new_object :
  forall (TraitArg : Type) (trait_from : TraitArg -> CTrait.t)
         (ctrait_arg : CTrait.t -> TraitArg) (fuel : nat)
         (s : TraitDict.store) (r0 : ref) (d : TraitDict.t),
    constructed TraitArg trait_from ctrait_arg s ->
    TraitDict.lookup s r0 = Some (TraitDict.DictHandler d) ->
    (r0 <= fuel)%nat ->
    exists r s' d',
      TraitDict.clone trait_from ctrait_arg fuel d s = Some (Ok r, s')
      /\ r <> r0
      /\ TraitDict.lookup s' r = Some (TraitDict.DictHandler d')
      /\ TraitDict.key_trait d'
         = trait_from (ctrait_arg (TraitDict.key_trait d))
      /\ TraitDict.value_trait d'
         = trait_from (ctrait_arg (TraitDict.value_trait d))
      /\ TraitDict.has_items d' = TraitDict.has_items d
      /\ (forall r1 o1,
             TraitDict.lookup s r1 = Some o1 ->
             TraitDict.lookup s' r1 = Some o1).
Proof.
  intros TraitArg trait_from ctrait_arg fuel s r0 d Hs Hd Hfuel.
  destruct (Hs r0 d Hd) as (h & o & Hh & Hlt & Ho & Hclone).
  unfold TraitDict.clone.
  destruct (new_returns TraitArg trait_from ctrait_arg fuel
                        (ctrait_arg (TraitDict.key_trait d))
                        (ctrait_arg (TraitDict.value_trait d))
                        (TraitDict.has_items d) s h o Hs Hh Ho Hclone)
    as (r & s' & Hnew); [lia |].
  destruct (new_built TraitArg trait_from ctrait_arg fuel _ _ _ _ _ _ Hnew)
    as (Hframe & Hfresh & d' & _ & _ & Hr & Hk & Hv & Hi & _).
  pose proof (lookup_lt _ _ _ Hd) as Hr0.
  exists r, s', d'.
  split; [exact Hnew |].
  split; [lia |].
  do 4 (split; [assumption |]).
  intros r1 o1 H1. rewrite Hframe by (eapply lookup_lt; eassumption).
  exact H1.
Qed.

Lemma TraitDict_clone_is_a_new_object_witness :
  exists r s' d',
    TraitDict.clone SampleStore.trait_from SampleStore.ctrait_arg 2
                    SampleStore2.cards_dict SampleStore2.store
    = Some (Ok r, s')
    /\ r <> 2%nat
    /\ TraitDict.lookup s' r = Some (TraitDict.DictHandler d')
    /\ TraitDict.key_trait d'
       = SampleStore.trait_from
           (SampleStore.ctrait_arg
              (TraitDict.key_trait SampleStore2.cards_dict))
    /\ TraitDict.value_trait d'
       = SampleStore.trait_from
           (SampleStore.ctrait_arg
              (TraitDict.value_trait SampleStore2.cards_dict))
    /\ TraitDict.has_items d' = TraitDict.has_items SampleStore2.cards_dict
    /\ (forall r1 o1,
           TraitDict.lookup SampleStore2.store r1 = Some o1 ->
           TraitDict.lookup s' r1 = Some o1).
Proof.
  apply (TraitDict_clone_is_a_new_object
           CTrait.t SampleStore.trait_from SampleStore.ctrait_arg 2%nat
           SampleStore2.store 2%nat SampleStore2.cards_dict).
  - intros [| [| [| r]]] d H;
      [discriminate H | discriminate H | | destruct r; discriminate H].
    injection H as <-.
    exists 0%nat, (TraitDict.ListHandler SampleStore.cards).
    split; [reflexivity |].
    split; [apply Nat.lt_0_2 |].
    split; [reflexivity | intros _; reflexivity].
  - reflexivity.
  - apply Nat.le_refl.
Defined.

(** The sample store is the store that the construction over [cards]
    leaves. *)
Example SampleStore2_constructed :
  TraitDict.new SampleStore.trait_from SampleStore.ctrait_arg 1
                SampleStore.no_handler SampleStore.cards_trait true
                SampleStore.store
  = Some (Ok 2%nat, SampleStore2.store).
Proof. reflexivity. Qed.

(** ** TraitFunction *)

(** The constructor refuses an argument that is not a function or method
    with [TraitError("Argument must be callable.")].  [validate] gives
    what the function gives, except that a [TraitError] raised by the
    function is replaced by the validation error of the handler for the
    same owner, name and candidate; any other exception passes through. *)
Theorem TraitFunction_validate_replaces_TraitError :
  forall (World : Type)
         (aFunc : pyobject -> string -> pyvalue -> M World pyvalue)
         (other : pyvalue),
    @TraitFunction.init World (TraitFunction.NotCallable other)
    = Raise (TraitError (Message "Argument must be callable."))
    /\ exists self,
        TraitFunction.init (TraitFunction.Callable aFunc) = Ok self
        /\ forall object name value w,
            (is_trait_error (fst (aFunc object name value w)) = false ->
             TraitFunction.validate self object name value w
             = aFunc object name value w)
            /\ (is_trait_error (fst (aFunc object name value w)) = true ->
                TraitFunction.validate self object name value w
                = (Raise (TraitError (Invalid object name value)),
                   snd (aFunc object name value w))).
Proof.
  intros World aFunc other. split; [reflexivity |].
  eexists. split; [reflexivity |].
  intros object name value w.
  unfold TraitFunction.validate, catch_trait, lift, TraitHandler.error.
  cbn [TraitFunction.aFunc].
  destruct (aFunc object name value w) as [[r | e] w1]; simpl.
  - split; [reflexivity | discriminate].
  - destruct e; simpl; split; try reflexivity; discriminate.
Qed.

(** ** TraitInstance *)

Lemma substring_succ (n m : nat) (a : ascii) (s : string) :
  substring (S n) m (String a s) = substring n m s.
Proof. reflexivity. Qed.

(** [rfind] splits a string at the last occurrence of the character. *)
Lemma rfind_split (c : ascii) (s : string) (i : nat) :
  rfind c s = Some i ->
  s = (substring 0 i s
       ++ String c (substring (S i) (String.length s - S i) s))%string
  /\ rfind c (substring (S i) (String.length s - S i) s) = None.
Proof.
  revert i. induction s as [| a rest IH]; intros i; simpl rfind;
    [discriminate |].
  destruct (rfind c rest) as [j |] eqn:E.
  - intros H. injection H as <-.
    destruct (IH j eq_refl) as [Hs Hnone].
    rewrite substring_succ.
    change (String.length (String a rest) - S (S j))%nat
      with (String.length rest - S j)%nat.
    split; [| exact Hnone].
    change (substring 0 (S j) (String a rest))
      with (String a (substring 0 j rest)).
    simpl append. now rewrite <- Hs.
  - destruct (Ascii.eqb_spec a c) as [-> | Hne]; [| discriminate].
    intros H. injection H as <-.
    rewrite substring_succ.
    change (String.length (String c rest) - 1)%nat
      with (String.length rest - 0)%nat.
    rewrite Nat.sub_0_r, substring_whole.
    split; [reflexivity | exact E].
Qed.

Section InstanceCases.
Context {World : Type}.
Variable TypeTypes : list pytype.
Variable loaded : string -> string -> World -> option pytype.
Variable imported : string -> string -> M World (option pytype).
Variable retarget : TraitInstance.t -> pyobject -> string -> M World unit.
Variables (object : pyobject) (name : string).

(** [validate] of a handler whose class is resolved. *)
Lemma instance_validate_resolved (self : TraitInstance.t) (c : pytype)
      (value : pyvalue) (w : World) :
  TraitInstance.aClass self = TraitInstance.Class c ->
  value <> VNone ->
  TraitInstance.validate TypeTypes loaded imported retarget self object name
                         value w
  = ((if isinstance value c then Ok value
      else Raise (TraitError (Invalid object name value)), self), w).
Proof.
  intros Hc Hv. unfold TraitInstance.validate, TraitInstance.accepts.
  rewrite Hc. destruct value; try congruence; reflexivity.
Qed.
End InstanceCases.

(** A [TraitInstance] of a class accepts the instances of the class and
    of its subclasses, and nothing else but [None]; the handler and the
    world are left as they are.  So [True] is accepted by
    [TraitInstance(int)]. *)
Theorem TraitInstance_validate_accepts_subclasses :
  forall (World : Type) (TypeTypes : list pytype)
         (loaded : string -> string -> World -> option pytype)
         (imported : string -> string -> M World (option pytype))
         (retarget : TraitInstance.t -> pyobject -> string -> M World unit)
         (c : pytype) (allow_none : bool) (module : string)
         (object : pyobject) (name : string) (value : pyvalue) (w : World),
    value <> VNone ->
    TraitInstance.validate
      TypeTypes loaded imported retarget
      (TraitInstance.init TypeTypes (TraitInstance.OfClass c) allow_none
                          module)
      object name value w
    = ((if issubclass (type_of value) c then Ok value
        else Raise (TraitError (Invalid object name value)),
        TraitInstance.init TypeTypes (TraitInstance.OfClass c) allow_none
                           module),
       w).
Proof.
  intros. now apply instance_validate_resolved.
Qed.

Lemma TraitInstance_validate_accepts_subclasses_witness :
  TraitInstance.validate
    SampleInstance.TypeTypes SampleInstance.loaded SampleInstance.imported
    SampleInstance.retarget
    (TraitInstance.init SampleInstance.TypeTypes (TraitInstance.OfClass Tint)
                        false "")
    Sample.owner "count" (VBool true) []
  = ((if issubclass (type_of (VBool true)) Tint then Ok (VBool true)
      else Raise (TraitError (Invalid Sample.owner "count" (VBool true))),
      TraitInstance.init SampleInstance.TypeTypes
                         (TraitInstance.OfClass Tint) false ""),
     []).
Proof.
  apply (TraitInstance_validate_accepts_subclasses
           Sample.World SampleInstance.TypeTypes
           SampleInstance.loaded SampleInstance.imported
           SampleInstance.retarget Tint false "" Sample.owner "count"
           (VBool true) []).
  discriminate.
Defined.

(** [None] is accepted exactly when the handler allows it, whatever the
    class and without resolving it; after [allow_none()] it is accepted,
    and the class of the handler is as before. *)
Theorem TraitInstance_validate_None :
  forall (World : Type) (TypeTypes : list pytype)
         (loaded : string -> string -> World -> option pytype)
         (imported : string -> string -> M World (option pytype))
         (retarget : TraitInstance.t -> pyobject -> string -> M World unit)
         (self : TraitInstance.t) (object : pyobject) (name : string)
         (w : World),
    TraitInstance.validate TypeTypes loaded imported retarget self object name
                           VNone w
    = ((if TraitInstance._allow_none self then Ok VNone
        else Raise (TraitError (Invalid object name VNone)), self), w)
    /\ TraitInstance.validate
         TypeTypes loaded imported retarget
         (TraitInstance.allow_none TypeTypes self) object name VNone w
       = ((Ok VNone, TraitInstance.allow_none TypeTypes self), w)
    /\ TraitInstance.aClass (TraitInstance.allow_none TypeTypes self)
       = TraitInstance.aClass self.
Proof.
  intros. unfold TraitInstance.validate, TraitInstance.allow_none.
  split; [destruct (TraitInstance._allow_none self); reflexivity |].
  destruct (TraitInstance.fast_validate self); split; reflexivity.
Qed.

(** A class given by name is resolved at the first validation of a value
    other than [None]: when the class is found and the trait of the owner
    is retargeted, the handler holds the class from then on, has a fast
    validator, and validates every later value against that class
    without looking the name up again. *)
Theorem TraitInstance_validate_resolves_once :
  forall (World : Type) (TypeTypes : list pytype)
         (loaded : string -> string -> World -> option pytype)
         (imported : string -> string -> M World (option pytype))
         (retarget : TraitInstance.t -> pyobject -> string -> M World unit)
         (self : TraitInstance.t) (path : string) (c : pytype)
         (object : pyobject) (name : string) (value : pyvalue)
         (w w1 w2 : World),
    TraitInstance.aClass self = TraitInstance.Name path ->
    value <> VNone ->
    TraitInstance.find_class loaded imported self path w = (Ok (Some c), w1) ->
    retarget (resolved_as TypeTypes self c) object name w1 = (Ok tt, w2) ->
    TraitInstance.validate TypeTypes loaded imported retarget
                           self object name value w
    = ((if isinstance value c then Ok value
        else Raise (TraitError (Invalid object name value)),
        resolved_as TypeTypes self c), w2)
    /\ TraitInstance.aClass (resolved_as TypeTypes self c)
       = TraitInstance.Class c
    /\ TraitInstance.fast_validate (resolved_as TypeTypes self c) <> None
    /\ forall object' name' value' w',
        value' <> VNone ->
        TraitInstance.validate TypeTypes loaded imported retarget
                               (resolved_as TypeTypes self c)
                               object' name' value' w'
        = ((if isinstance value' c then Ok value'
            else Raise (TraitError (Invalid object' name' value')),
            resolved_as TypeTypes self c), w').
Proof.
  intros World TypeTypes loaded imported retarget self path c object name
         value w w1 w2 Hname Hv Hfind Hretarget.
  split; [| split; [| split]].
  - unfold TraitInstance.validate, TraitInstance.resolve_class.
    rewrite Hname, Hfind. fold (resolved_as TypeTypes self c).
    rewrite Hretarget.
    unfold TraitInstance.accepts.
    destruct value; try congruence; reflexivity.
  - reflexivity.
  - discriminate.
  - intros object' name' value' w' Hv'.
    now apply instance_validate_resolved.
Qed.

(** [TraitInstance("builtins.int")]: the first validation resolves the
    name and retargets the trait of the owner. *)
Lemma TraitInstance_validate_resolves_once_witness :
  TraitInstance.validate
    SampleInstance.TypeTypes SampleInstance.loaded SampleInstance.imported
    SampleInstance.retarget SampleInstance.by_name
    Sample.owner "count" (VInt 3) []
  = ((if isinstance (VInt 3) Tint then Ok (VInt 3)
      else Raise (TraitError (Invalid Sample.owner "count" (VInt 3))),
      resolved_as SampleInstance.TypeTypes SampleInstance.by_name Tint),
     [(Sample.owner, "count", VNone)]).
Proof.
  apply (TraitInstance_validate_resolves_once
           Sample.World SampleInstance.TypeTypes
           SampleInstance.loaded SampleInstance.imported
           SampleInstance.retarget SampleInstance.by_name "builtins.int" Tint
           Sample.owner "count" (VInt 3) [] []
           [(Sample.owner, "count", VNone)]).
  - reflexivity.
  - discriminate.
  - reflexivity.
  - reflexivity.
Defined.

(** When the class cannot be found, [validate] raises the validation
    error and the handler keeps the name: nothing is remembered of the
    failure, and the next validation looks the name up again. *)
Theorem TraitInstance_validate_unresolved :
  forall (World : Type) (TypeTypes : list pytype)
         (loaded : string -> string -> World -> option pytype)
         (imported : string -> string -> M World (option pytype))
         (retarget : TraitInstance.t -> pyobject -> string -> M World unit)
         (self : TraitInstance.t) (path : string)
         (object : pyobject) (name : string) (value : pyvalue)
         (w w1 : World),
    TraitInstance.aClass self = TraitInstance.Name path ->
    value <> VNone ->
    TraitInstance.find_class loaded imported self path w = (Ok None, w1) ->
    TraitInstance.validate TypeTypes loaded imported retarget
                           self object name value w
    = ((Raise (TraitError (Invalid object name value)), self), w1).
Proof.
  intros World TypeTypes loaded imported retarget self path object name
         value w w1 Hname Hv Hfind.
  unfold TraitInstance.validate, TraitInstance.resolve_class.
  rewrite Hname, Hfind.
  destruct value; try congruence; reflexivity.
Qed.

Lemma TraitInstance_validate_unresolved_witness :
  TraitInstance.validate
    SampleInstance.TypeTypes SampleInstance.loaded SampleInstance.imported
    SampleInstance.retarget SampleInstance.missing
    Sample.owner "count" (VInt 3) []
  = ((Raise (TraitError (Invalid Sample.owner "count" (VInt 3))),
      SampleInstance.missing), []).
Proof.
  apply (TraitInstance_validate_unresolved
           Sample.World SampleInstance.TypeTypes
           SampleInstance.loaded SampleInstance.imported
           SampleInstance.retarget SampleInstance.missing "no.such.Class"
           Sample.owner "count" (VInt 3) [] []).
  - reflexivity.
  - discriminate.
  - reflexivity.
Defined.

(** [find_class] splits a dotted path at its last dot into the module and
    the class name and ignores the [module] of the handler; it imports the
    module only when the class is not found among the loaded modules; an
    import that raises an exception deriving from [Exception] gives "not
    found", and any other exception ([SystemExit], [KeyboardInterrupt])
    leaves [find_class].  A name without a dot is looked up in the
    [module] of the handler, and nothing is imported. *)
Theorem TraitInstance_find_class_path :
  forall (World : Type)
         (loaded : string -> string -> World -> option pytype)
         (imported : string -> string -> M World (option pytype))
         (self : TraitInstance.t) (klass : string) (w : World),
    (rfind "." klass = None ->
     TraitInstance.find_class loaded imported self klass w
     = (Ok (loaded (TraitInstance.module self) klass w), w))
    /\ (forall col,
           rfind "." klass = Some col ->
           exists module cls,
             klass = (module ++ "." ++ cls)%string
             /\ rfind "." cls = None
             /\ TraitInstance.find_class loaded imported self klass w
                = match loaded module cls w with
                  | Some c => (Ok (Some c), w)
                  | None =>
                      match imported module cls w with
                      | (Ok theClass, w') => (Ok theClass, w')
                      | (Raise e, w') =>
                          if is_Exception e then (Ok None, w')
                          else (Raise e, w')
                      end
                  end).
Proof.
  intros World loaded imported self klass w.
  unfold TraitInstance.find_class. split.
  - intros ->. destruct (loaded _ klass w); reflexivity.
  - intros col Hcol. rewrite Hcol.
    destruct (rfind_split "." klass col Hcol) as [Hsplit Hnone].
    exists (substring 0 col klass),
           (substring (S col) (String.length klass - S col) klass).
    split; [exact Hsplit | split; [exact Hnone |]].
    destruct (loaded _ _ w); [reflexivity |].
    unfold catch_exception, ret.
    destruct (imported _ _ w) as [[theClass | e] w']; reflexivity.
Qed.

Lemma TraitInstance_find_class_path_witness :
  exists module cls,
    "pkg.Mod.Cls" = (module ++ "." ++ cls)%string
    /\ rfind "." cls = None
    /\ TraitInstance.find_class SampleInstance.loaded SampleInstance.imported
                                SampleInstance.missing "pkg.Mod.Cls" []
       = match SampleInstance.loaded module cls [] with
         | Some c => (Ok (Some c), [])
         | None =>
             match SampleInstance.imported module cls [] with
             | (Ok theClass, w') => (Ok theClass, w')
             | (Raise e, w') =>
                 if is_Exception e then (Ok None, w') else (Raise e, w')
             end
         end.
Proof.
  destruct (TraitInstance_find_class_path
              Sample.World SampleInstance.loaded SampleInstance.imported
              SampleInstance.missing "pkg.Mod.Cls" []) as [_ Hdotted].
  apply (Hdotted 7%nat). reflexivity.
Defined.

(** The import of a module that cannot be found gives "not found"; an
    import that is interrupted leaves [find_class], and [validate], with
    [KeyboardInterrupt]. *)
Example TraitInstance_find_class_import_raises :
  TraitInstance.find_class SampleInstance.loaded SampleInstance.imported
                           SampleInstance.missing "no.such.Class" []
  = (Ok None, [])
  /\ TraitInstance.find_class SampleInstance.loaded
                              SampleInstance.interrupted
                              SampleInstance.missing "no.such.Class" []
     = (Raise (BaseExceptionOnly "KeyboardInterrupt"), [])
  /\ TraitInstance.validate
       SampleInstance.TypeTypes SampleInstance.loaded
       SampleInstance.interrupted SampleInstance.retarget
       SampleInstance.missing Sample.owner "count" (VInt 3) []
     = ((Raise (BaseExceptionOnly "KeyboardInterrupt"),
         SampleInstance.missing), []).
Proof. repeat split. Qed.

(** The split of ["pkg.Mod.Cls"]. *)
Example rfind_pkg_Mod_Cls :
  rfind "." "pkg.Mod.Cls" = Some 7%nat
  /\ substring 0 7 "pkg.Mod.Cls" = "pkg.Mod"
  /\ substring 8 3 "pkg.Mod.Cls" = "Cls"
  /\ rfind "." "Cls" = None.
Proof. repeat split. Qed.
